(** * DB_Migration: the MySQL to MongoDB ETL pipelines, embedded in Rocq

    The repository holds two variants of the pipeline:
    - [src/DB_Migration/pipeline.py] (module [DBMigration] below): per-employee
      aggregation through join indexes, [MongoLoader.load_collection] with
      delete-then-batched-insert, and a [main] function;
    - [src/pipeline.py] (module [Pipeline] below): [ETLPipeline] with an
      in-memory employee dictionary, [MongoDBLoader.insert_*] and [run].

    Python values are modelled by [pyval], rows returned by the [DictCursor]
    by [gmap string pyval], exceptions and logging by a small state and error
    monad [M] over an explicit [state] (log, MySQL connection, MongoDB
    collections and the calls issued to them). *)

From stdpp Require Import base option gmap strings list fin_maps.
From Stdlib Require Import ZArith Lia Ascii.

Local Open Scope string_scope.
Local Open Scope list_scope.

(** ** Python values *)

(** The scalar values a row of the employees database can hold.  A
    [datetime.date] is [PDate], a [datetime.datetime] is [PDateTime]. *)
Inductive pyval : Type :=
| PNone
| PInt (n : Z)
| PStr (s : string)
| PDate (y m d : Z)
| PDateTime (y m d hh mi ss : Z).

#[global] Instance pyval_eq_dec : EqDecision pyval.
Proof. solve_decision. Defined.

Definition pyval_encode (v : pyval) : unit + Z + string + (Z * Z * Z) + (Z * Z * Z * (Z * Z * Z)) :=
  match v with
  | PNone => inl (inl (inl (inl tt)))
  | PInt n => inl (inl (inl (inr n)))
  | PStr s => inl (inl (inr s))
  | PDate y m d => inl (inr (y, m, d))
  | PDateTime y m d hh mi ss => inr (y, m, d, (hh, mi, ss))
  end.

Definition pyval_decode (x : unit + Z + string + (Z * Z * Z) + (Z * Z * Z * (Z * Z * Z))) : pyval :=
  match x with
  | inl (inl (inl (inl _))) => PNone
  | inl (inl (inl (inr n))) => PInt n
  | inl (inl (inr s)) => PStr s
  | inl (inr (y, m, d)) => PDate y m d
  | inr (y, m, d, (hh, mi, ss)) => PDateTime y m d hh mi ss
  end.

#[global] Instance pyval_countable : Countable pyval.
Proof.
  refine (inj_countable' pyval_encode pyval_decode _).
  intros []; reflexivity.
Defined.

(** Python truthiness ([if v:]) of a scalar. *)
Definition truthy (v : pyval) : bool :=
  match v with
  | PNone => false
  | PInt n => negb (n =? 0)%Z
  | PStr s => negb (String.eqb s "")
  | PDate _ _ _ => true
  | PDateTime _ _ _ _ _ _ => true
  end.

(** [isinstance(v, (datetime.date, datetime.datetime))]. *)
Definition is_date_instance (v : pyval) : bool :=
  match v with
  | PDate _ _ _ | PDateTime _ _ _ _ _ _ => true
  | _ => false
  end.

(** A row of a [DictCursor]: column name to value. *)
Abbreviation row := (gmap string pyval).

(** [r.get(k)]: [None] when the column is absent. *)
Definition row_get (r : row) (k : string) : pyval := default PNone (r !! k).

(** ** What pymongo can send *)

(** The values that [bson] encodes: [None], a [str], a [datetime.datetime]
    and an [int] of at most 8 bytes.  A [datetime.date] has no encoding
    ([InvalidDocument]) and a larger [int] overflows ([OverflowError]). *)
Definition bson_pyval (v : pyval) : bool :=
  match v with
  | PNone | PStr _ | PDateTime _ _ _ _ _ _ => true
  | PInt n => (- 2 ^ 63 <=? n)%Z && (n <? 2 ^ 63)%Z
  | PDate _ _ _ => false
  end.

Definition bson_row (r : row) : bool := forallb bson_pyval (map_to_list r).*2.

(** The documents of a pipeline, with the test whether the client can
    encode one. *)
Class Bson (D : Type) := bson_encodable : D -> bool.

#[global] Instance bson_unit : Bson unit := fun _ => true.

#[global] Instance bson_nat : Bson nat := fun _ => true.

(** ** Exceptions, logging and the effect monad *)

Inductive exn : Type :=
| KeyError (k : string)
| TypeError
| ValueError
| AttributeError
| BulkWriteError (failed : list nat)   (* indexes of the rejected documents *)
| BsonError   (* [bson.errors.InvalidDocument], or [OverflowError] for an int beyond 8 bytes *)
| MySQLError
| PyMongoError
| SystemExit (code : Z).

(** [except Exception] does not catch [SystemExit]. *)
Definition is_Exception (e : exn) : bool :=
  match e with
  | SystemExit _ => false
  | _ => true
  end.

Inductive result (A : Type) : Type :=
| Ok (a : A)
| Raise (e : exn).
Arguments Ok {A} a.
Arguments Raise {A} e.

Inductive level : Type := INFO | WARNING | ERROR.

#[global] Instance level_eq_dec : EqDecision level.
Proof. solve_decision. Defined.

Inductive log_arg : Type :=
| AVal (v : pyval)
| AExn (e : exn)
| ANat (n : nat)
| AText (s : string).

(** One call of the [logging] module: level, message template, arguments. *)
Record log_record : Type := LogRecord {
  lr_level : level;
  lr_msg : string;
  lr_args : list log_arg
}.

Inductive conn : Type := NoConn | ConnOpen | ConnClosed.

Section Effects.
Context {D : Type}.

(** Calls issued on the destination store. *)
Inductive mongo_call : Type :=
| DeleteMany (coll : string)
| InsertMany (coll : string) (batch : list D)
| CloseClient.

(** The external collaborators: what the MySQL server answers and how the
    MongoDB server behaves. *)
Record env : Type := Env {
  mysql_connect_ok : bool;
  mysql_table : string -> option (list row);
  mongo_client_ok : bool;
  mongo_up : bool;
  mongo_rejects : string -> D -> bool
}.

Record state : Type := State {
  st_log : list log_record;
  st_mysql : conn;
  st_store : gmap string (list D);
  st_calls : list mongo_call
}.

Definition init_state : state :=
  {| st_log := []; st_mysql := NoConn; st_store := ∅; st_calls := [] |}.

Definition with_log (f : list log_record -> list log_record) (st : state) : state :=
  {| st_log := f (st_log st); st_mysql := st_mysql st;
     st_store := st_store st; st_calls := st_calls st |}.

Definition with_mysql (c : conn) (st : state) : state :=
  {| st_log := st_log st; st_mysql := c;
     st_store := st_store st; st_calls := st_calls st |}.

Definition with_store (s : gmap string (list D)) (st : state) : state :=
  {| st_log := st_log st; st_mysql := st_mysql st;
     st_store := s; st_calls := st_calls st |}.

Definition with_call (c : mongo_call) (st : state) : state :=
  {| st_log := st_log st; st_mysql := st_mysql st;
     st_store := st_store st; st_calls := st_calls st ++ [c] |}.

Definition M (A : Type) : Type := state -> result A * state.

Definition ret {A} (a : A) : M A := fun st => (Ok a, st).

Definition bind {A B} (m : M A) (f : A -> M B) : M B := fun st =>
  match m st with
  | (Ok a, st') => f a st'
  | (Raise e, st') => (Raise e, st')
  end.

Definition raise {A} (e : exn) : M A := fun st => (Raise e, st).

Definition lift_result {A} (r : result A) : M A := fun st => (r, st).

(** [try: body / except Exception as e: handler e]. *)
Definition try_except {A} (body : M A) (handler : exn -> M A) : M A := fun st =>
  match body st with
  | (Ok a, st') => (Ok a, st')
  | (Raise e, st') => if is_Exception e then handler e st' else (Raise e, st')
  end.

(** [try: body / finally: fin]. *)
Definition try_finally {A} (body : M A) (fin : M unit) : M A := fun st =>
  match body st with
  | (r, st') =>
      match fin st' with
      | (Ok _, st'') => (r, st'')
      | (Raise e, st'') => (Raise e, st'')
      end
  end.

Definition log (l : level) (msg : string) (args : list log_arg) : M unit := fun st =>
  (Ok tt, with_log (fun lg => lg ++ [LogRecord l msg args]) st).

(** [r[k]]: raises [KeyError] when the column is absent. *)
Definition getitem (r : row) (k : string) : M pyval :=
  match r !! k with
  | Some v => ret v
  | None => raise (KeyError k)
  end.
End Effects.

Arguments mongo_call D : clear implicits.
Arguments env D : clear implicits.
Arguments state D : clear implicits.
Arguments M D A : clear implicits.

Declare Scope py_scope.
Delimit Scope py_scope with py.
Notation "x <- m ;; k" := (bind m (fun x => k))
  (at level 100, m at next level, right associativity) : py_scope.
Notation "m ;;; k" := (bind m (fun _ => k))
  (at level 100, right associativity) : py_scope.
Local Open Scope py_scope.

Section Loops.
Context {D : Type}.

(** [for x in l: body x], for a body that only has effects. *)
Fixpoint for_each {A} (body : A -> M D unit) (l : list A) : M D unit :=
  match l with
  | [] => ret tt
  | x :: l' => body x ;;; for_each body l'
  end.

(** [acc = []; for x in l: acc.append(f x)]. *)
Fixpoint map_m {A B} (f : A -> M D B) (l : list A) : M D (list B) :=
  match l with
  | [] => ret []
  | x :: l' => y <- f x ;; ys <- map_m f l' ;; ret (y :: ys)
  end.

(** [for x in l: acc = step acc x]. *)
Fixpoint fold_m {A S} (step : S -> A -> M D S) (l : list A) (acc : S) : M D S :=
  match l with
  | [] => ret acc
  | x :: l' => acc' <- step acc x ;; fold_m step l' acc'
  end.
End Loops.


(** ** The library calls the pipelines rely on *)

(** *** [datetime.datetime.strptime(s, '%Y-%m-%d')]

    CPython compiles the format to the regular expression
    [(?P<Y>\d\d\d\d)-(?P<m>1[0-2]|0[1-9]|[1-9])-(?P<d>3[0-1]|[1-2]\d|0[1-9]|[1-9]| [1-9])],
    matches it at the start of the string, rejects unconverted trailing
    data, and then builds the date, which rejects days that do not exist.
    The alternatives of a group are tried in order; an alternative that
    matched is the only one that can be followed by what comes next, so no
    backtracking is needed.  Strings are taken to be ASCII. *)

Definition digit_val (c : ascii) : option Z :=
  let n := Z.of_N (N_of_ascii c) in
  if ((48 <=? n) && (n <=? 57))%Z then Some (n - 48)%Z else None.

Definition digit_in (lo hi : Z) (c : ascii) : option Z :=
  n ← digit_val c; if ((lo <=? n) && (n <=? hi))%Z then Some n else None.

Definition one_digit (lo hi : Z) (s : string) : option (Z * string) :=
  match s with
  | String a rest => n ← digit_in lo hi a; Some (n, rest)
  | EmptyString => None
  end.

Definition two_digits (lo1 hi1 lo2 hi2 : Z) (s : string) : option (Z * string) :=
  match s with
  | String a (String b rest) =>
      n1 ← digit_in lo1 hi1 a; n2 ← digit_in lo2 hi2 b; Some (10 * n1 + n2, rest)%Z
  | _ => None
  end.

Definition space_digit (lo hi : Z) (s : string) : option (Z * string) :=
  match s with
  | String " "%char rest => one_digit lo hi rest
  | _ => None
  end.

Fixpoint first_match (alts : list (string -> option (Z * string))) (s : string)
  : option (Z * string) :=
  match alts with
  | [] => None
  | alt :: alts' =>
      match alt s with
      | Some r => Some r
      | None => first_match alts' s
      end
  end.

Definition match_year (s : string) : option (Z * string) :=
  '(hi, s1) ← two_digits 0 9 0 9 s;
  '(lo, s2) ← two_digits 0 9 0 9 s1;
  Some (100 * hi + lo, s2)%Z.

Definition match_month : string -> option (Z * string) :=
  first_match [two_digits 1 1 0 2; two_digits 0 0 1 9; one_digit 1 9].

Definition match_day : string -> option (Z * string) :=
  first_match [two_digits 3 3 0 1; two_digits 1 2 0 9; two_digits 0 0 1 9;
               one_digit 1 9; space_digit 1 9].

Definition match_dash (s : string) : option string :=
  match s with
  | String "-"%char rest => Some rest
  | _ => None
  end.

Definition is_leap (y : Z) : bool :=
  ((y mod 4 =? 0) && (negb (y mod 100 =? 0) || (y mod 400 =? 0)))%Z.

Definition days_in_month (y m : Z) : Z :=
  (if m =? 2 then (if is_leap y then 29 else 28)
   else if (m =? 4) || (m =? 6) || (m =? 9) || (m =? 11) then 30
   else 31)%Z.

Definition valid_date (y m d : Z) : bool :=
  ((1 <=? y) && (y <=? 9999) && (1 <=? m) && (m <=? 12)
   && (1 <=? d) && (d <=? days_in_month y m))%Z.

(** The parsed [datetime], or [None] where [strptime] raises [ValueError]. *)
Definition strptime_ymd (s : string) : option pyval :=
  '(y, s1) ← match_year s;
  s2 ← match_dash s1;
  '(m, s3) ← match_month s2;
  s4 ← match_dash s3;
  '(d, s5) ← match_day s4;
  if String.eqb s5 "" && valid_date y m d then Some (PDateTime y m d 0 0 0) else None.

(** [strptime] on any value: a non-string argument is a [TypeError]. *)
Definition strptime (v : pyval) : result pyval :=
  match v with
  | PStr s =>
      match strptime_ymd s with
      | Some d => Ok d
      | None => Raise ValueError
      end
  | _ => Raise TypeError
  end.

(** *** [range] and slices *)

Fixpoint range_from (fuel : nat) (i stop step : Z) : list Z :=
  match fuel with
  | O => []
  | S fuel' =>
      if (if (0 <? step)%Z then (i <? stop)%Z else (stop <? i)%Z)
      then i :: range_from fuel' (i + step)%Z stop step
      else []
  end.

(** [range(start, stop, step)]: a zero step is a [ValueError]. *)
Definition py_range (start stop step : Z) : result (list Z) :=
  if (step =? 0)%Z then Raise ValueError
  else Ok (range_from (Z.to_nat (Z.abs (stop - start))) start stop step).

(** A slice bound as Python normalises it for a sequence of length [n]. *)
Definition clamp_index (n k : Z) : Z :=
  (if k <? 0 then Z.max 0 (k + n) else Z.min k n)%Z.

(** [l[i:j]]. *)
Definition py_slice {A} (l : list A) (i j : Z) : list A :=
  let n := Z.of_nat (length l) in
  let lo := clamp_index n i in
  let hi := clamp_index n j in
  take (Z.to_nat (hi - lo)) (drop (Z.to_nat lo) l).

(** *** The pymysql connection and the pymongo collection *)

Section Collaborators.
Context {D : Type} `{!Bson D}.

(** [pymysql.connect(...)]. *)
Definition pymysql_connect (E : env D) : M D unit := fun st =>
  if mysql_connect_ok E then (Ok tt, with_mysql ConnOpen st)
  else (Raise MySQLError, st).

(** [with connection.cursor() as cursor: cursor.execute(query); cursor.fetchall()]. *)
Definition cursor_fetchall (E : env D) (query : string) : M D (list row) := fun st =>
  match st_mysql st with
  | NoConn => (Raise AttributeError, st)
  | ConnClosed => (Raise MySQLError, st)
  | ConnOpen =>
      match mysql_table E query with
      | Some rows => (Ok rows, st)
      | None => (Raise MySQLError, st)
      end
  end.

(** [connection.close()]: closing twice is an error of pymysql. *)
Definition connection_close : M D unit := fun st =>
  match st_mysql st with
  | ConnOpen => (Ok tt, with_mysql ConnClosed st)
  | _ => (Raise MySQLError, st)
  end.

(** [pymongo.MongoClient(uri)]. *)
Definition mongo_client (E : env D) : M D unit := fun st =>
  if mongo_client_ok E then (Ok tt, st) else (Raise PyMongoError, st).

(** [collection.delete_many({})]. *)
Definition delete_many (E : env D) (coll : string) : M D unit := fun st =>
  let st1 := with_call (DeleteMany coll) st in
  if mongo_up E then (Ok tt, with_store (<[coll := []]> (st_store st1)) st1)
  else (Raise PyMongoError, st1).

Fixpoint rejected_from (rej : D -> bool) (i : nat) (batch : list D) : list nat :=
  match batch with
  | [] => []
  | d :: batch' =>
      if rej d then i :: rejected_from rej (S i) batch'
      else rejected_from rej (S i) batch'
  end.

(** [collection.insert_many(batch, ordered=False)]: the client encodes the
    batch before it sends it, so a document it cannot encode makes the call
    raise with nothing written; otherwise every document the server accepts
    is written, and if some were rejected a [BulkWriteError] carrying their
    indexes is raised afterwards.  Returns the number of inserted ids. *)
Definition insert_many (E : env D) (coll : string) (batch : list D) : M D nat := fun st =>
  let st1 := with_call (InsertMany coll batch) st in
  match batch with
  | [] => (Raise TypeError, st1)
  | _ =>
      if mongo_up E then
        if forallb bson_encodable batch then
          let rej := mongo_rejects E coll in
          let accepted := filter (fun d => rej d = false) batch in
          let st2 := with_store (<[coll := default [] (st_store st1 !! coll) ++ accepted]> (st_store st1)) st1 in
          match rejected_from rej 0 batch with
          | [] => (Ok (length batch), st2)
          | failed => (Raise (BulkWriteError failed), st2)
          end
        else (Raise BsonError, st1)
      else (Raise PyMongoError, st1)
  end.

(** [client.close()]. *)
Definition client_close : M D unit := fun st =>
  (Ok tt, with_call CloseClient st).
End Collaborators.

(** ** [src/DB_Migration/pipeline.py] *)

Module DBMigration.

(** The embedded records of an employee document and the document itself
    (the dict literals of [transform_employee]). *)
Record department_entry : Type := DepartmentEntry {
  de_dept_no : pyval;
  de_dept_name : pyval;
  de_from_date : pyval;
  de_to_date : pyval
}.

Record salary_entry : Type := SalaryEntry {
  se_salary : pyval;
  se_from_date : pyval;
  se_to_date : pyval
}.

Record title_entry : Type := TitleEntry {
  te_title : pyval;
  te_from_date : pyval;
  te_to_date : pyval
}.

Record management_entry : Type := ManagementEntry {
  me_dept_no : pyval;
  me_from_date : pyval;
  me_to_date : pyval
}.

Record emp_doc : Type := EmpDoc {
  doc_emp_no : pyval;
  doc_birth_date : pyval;
  doc_first_name : pyval;
  doc_last_name : pyval;
  doc_gender : pyval;
  doc_hire_date : pyval;
  doc_departments : list department_entry;
  doc_salaries : list salary_entry;
  doc_titles : list title_entry;
  doc_management : option management_entry
}.

(** What [main] hands to the loader: employee documents, and the raw
    department rows. *)
Inductive document : Type :=
| EmployeeDoc (d : emp_doc)
| RowDoc (r : row).

(** An employee document encodes when every value in it does, also in the
    embedded records; a row when every column does. *)
Definition bson_emp_doc (d : emp_doc) : bool :=
  forallb bson_pyval
    [doc_emp_no d; doc_birth_date d; doc_first_name d; doc_last_name d; doc_gender d;
     doc_hire_date d]
  && forallb (fun e => forallb bson_pyval
                         [de_dept_no e; de_dept_name e; de_from_date e; de_to_date e])
       (doc_departments d)
  && forallb (fun e => forallb bson_pyval [se_salary e; se_from_date e; se_to_date e])
       (doc_salaries d)
  && forallb (fun e => forallb bson_pyval [te_title e; te_from_date e; te_to_date e])
       (doc_titles d)
  && match doc_management d with
     | Some e => forallb bson_pyval [me_dept_no e; me_from_date e; me_to_date e]
     | None => true
     end.

#[global] Instance bson_document : Bson document := fun d =>
  match d with
  | EmployeeDoc e => bson_emp_doc e
  | RowDoc r => bson_row r
  end.

Module MySQLExtractor.
Section MySQLExtractor.
Context {D : Type}.

Definition connect (E : env D) : M D unit :=
  try_except
    (pymysql_connect E ;;; log INFO "MySQL connection established" [])
    (fun exc => log ERROR "Error connecting to MySQL: %s" [AExn exc] ;;; raise exc).

(** The quotes around the query in the message are written as single
    quotes here. *)
Definition extract (E : env D) (query : string) : M D (list row) :=
  try_except
    (cursor_fetchall E query)
    (fun exc =>
       log ERROR "Error executing query '%s': %s" [AText query; AExn exc] ;;; raise exc).

Definition close : M D unit := fun st =>
  match st_mysql st with
  | NoConn => (Ok tt, st)
  | _ => (connection_close ;;; log INFO "MySQL connection closed" []) st
  end.
End MySQLExtractor.
End MySQLExtractor.

Module MongoLoader.
Section MongoLoader.
Context {D : Type} `{!Bson D}.

(** [MongoLoader.__init__]. *)
Definition init (E : env D) : M D unit :=
  try_except
    (mongo_client E ;;; log INFO "Connected to MongoDB" [])
    (fun exc => log ERROR "Error connecting to MongoDB: %s" [AExn exc] ;;; raise exc).

(** [load_collection(collection_name, documents, batch_size)].  The quotes
    around the collection name in the two messages are written as single
    quotes here. *)
Definition load_collection (E : env D) (collection_name : string)
    (documents : list D) (batch_size : Z) : M D unit :=
  try_except
    (delete_many E collection_name ;;;
     match documents with
     | [] => ret tt
     | _ =>
         starts <- lift_result (py_range 0 (Z.of_nat (length documents)) batch_size) ;;
         for_each
           (fun i =>
              let batch := py_slice documents i (i + batch_size) in
              insert_many E collection_name batch ;;; ret tt)
           starts ;;;
         log INFO "Loaded %d documents into collection '%s'"
           [ANat (length documents); AText collection_name]
     end)
    (fun exc =>
       match exc with
       | BulkWriteError _ =>
           log ERROR "Bulk write error: %s" [AExn exc] ;;; raise exc
       | _ =>
           log ERROR "Error loading documents into collection '%s': %s"
             [AText collection_name; AExn exc] ;;; raise exc
       end).
End MongoLoader.
End MongoLoader.

Module DataTransformer.
Section DataTransformer.
Context {D : Type}.

Definition convert_date (date_str : pyval) : M D pyval :=
  try_except
    (if is_date_instance date_str then ret date_str
     else lift_result (strptime date_str))
    (fun exc =>
       log ERROR "Date conversion error for value %s: %s" [AVal date_str; AExn exc] ;;;
       raise exc).

(** The body of the [for de in dept_emps] loop. *)
Definition department_of (departments_lookup : gmap pyval row) (de : row)
  : M D department_entry :=
  dept_no <- getitem de "dept_no" ;;
  let department :=
    default ({[ "dept_no" := dept_no; "dept_name" := PStr "Unknown" ]} : row)
            (departments_lookup !! dept_no) in
  d_no <- getitem department "dept_no" ;;
  d_name <- getitem department "dept_name" ;;
  from0 <- getitem de "from_date" ;;
  from_date <- convert_date from0 ;;
  to0 <- getitem de "to_date" ;;
  to_date <- convert_date to0 ;;
  ret (DepartmentEntry d_no d_name from_date to_date).

(** The body of the [for sal in salaries] loop. *)
Definition salary_of (sal : row) : M D salary_entry :=
  salary <- getitem sal "salary" ;;
  from0 <- getitem sal "from_date" ;;
  from_date <- convert_date from0 ;;
  to0 <- getitem sal "to_date" ;;
  to_date <- convert_date to0 ;;
  ret (SalaryEntry salary from_date to_date).

(** The body of the [for tit in titles] loop: a falsy [to_date] is kept as
    [None] without conversion. *)
Definition title_of (tit : row) : M D title_entry :=
  title <- getitem tit "title" ;;
  from0 <- getitem tit "from_date" ;;
  from_date <- convert_date from0 ;;
  cond <- getitem tit "to_date" ;;
  to_date <- (if truthy cond
              then (to0 <- getitem tit "to_date" ;; convert_date to0)
              else ret PNone) ;;
  ret (TitleEntry title from_date to_date).

(** The dict built from [mgr = dept_managers[0]]. *)
Definition management_of (mgr : row) : M D management_entry :=
  dept_no <- getitem mgr "dept_no" ;;
  from0 <- getitem mgr "from_date" ;;
  from_date <- convert_date from0 ;;
  to0 <- getitem mgr "to_date" ;;
  to_date <- convert_date to0 ;;
  ret (ManagementEntry dept_no from_date to_date).

Definition transform_employee (employee : row)
    (dept_emps dept_managers salaries titles : list row)
    (departments_lookup : gmap pyval row) : M D emp_doc :=
  try_except
    (emp_no <- getitem employee "emp_no" ;;
     birth0 <- getitem employee "birth_date" ;;
     birth_date <- convert_date birth0 ;;
     first_name <- getitem employee "first_name" ;;
     last_name <- getitem employee "last_name" ;;
     gender <- getitem employee "gender" ;;
     hire0 <- getitem employee "hire_date" ;;
     hire_date <- convert_date hire0 ;;
     departments <- map_m (department_of departments_lookup) dept_emps ;;
     sals <- map_m salary_of salaries ;;
     tits <- map_m title_of titles ;;
     management <-
       match dept_managers with
       | [] => ret None
       | mgr :: _ => m <- management_of mgr ;; ret (Some m)
       end ;;
     ret (EmpDoc emp_no birth_date first_name last_name gender hire_date
                 departments sals tits management))
    (fun exc =>
       log ERROR "Error transforming employee %s: %s"
         [AVal (default (PStr "<unknown>") (employee !! "emp_no")); AExn exc] ;;;
       raise exc).
End DataTransformer.
End DataTransformer.

Section Main.
Context {D : Type}.

(** [departments_lookup = {dept['dept_no']: dept for dept in departments}]. *)
Definition departments_lookup_of (departments : list row) : M D (gmap pyval row) :=
  fold_m (fun lookup dept =>
            dept_no <- getitem dept "dept_no" ;; ret (<[dept_no := dept]> lookup))
         departments ∅.

(** [idx = {}; for record in records: idx.setdefault(record['emp_no'], []).append(record)]. *)
Definition index_by_emp (records : list row) : M D (gmap pyval (list row)) :=
  fold_m (fun idx record =>
            emp_no <- getitem record "emp_no" ;;
            ret (<[emp_no := default [] (idx !! emp_no) ++ [record]]> idx))
         records ∅.

(** One iteration of [for emp in employees] in [main]: the lookups in the
    four indexes, the transformation, and the handler that skips the
    employee. *)
Definition aggregate_step
    (dept_emp_by_emp dept_manager_by_emp salaries_by_emp titles_by_emp : gmap pyval (list row))
    (departments_lookup : gmap pyval row)
    (employee_documents : list emp_doc) (emp : row) : M D (list emp_doc) :=
  emp_no <- getitem emp "emp_no" ;;
  let emp_dept_emps := default [] (dept_emp_by_emp !! emp_no) in
  let emp_dept_managers := default [] (dept_manager_by_emp !! emp_no) in
  let emp_salaries := default [] (salaries_by_emp !! emp_no) in
  let emp_titles := default [] (titles_by_emp !! emp_no) in
  try_except
    (transformed_doc <-
       DataTransformer.transform_employee emp emp_dept_emps emp_dept_managers
         emp_salaries emp_titles departments_lookup ;;
     ret (employee_documents ++ [transformed_doc]))
    (fun exc =>
       log ERROR "Skipping employee %s due to transformation error." [AVal emp_no] ;;;
       ret employee_documents).

(** The loop [for emp in employees] of [main], from
    [employee_documents = []]. *)
Definition aggregate
    (employees : list row)
    (dept_emp_by_emp dept_manager_by_emp salaries_by_emp titles_by_emp : gmap pyval (list row))
    (departments_lookup : gmap pyval row) : M D (list emp_doc) :=
  fold_m (aggregate_step dept_emp_by_emp dept_manager_by_emp salaries_by_emp
            titles_by_emp departments_lookup)
         employees [].
End Main.

(** [main], up to and including the loop that builds
    [employee_documents]. *)
Definition main_extract_transform (E : env document)
  : M document (list emp_doc * list row) :=
  MySQLExtractor.connect E ;;;
  employees <- MySQLExtractor.extract E "SELECT * FROM employees" ;;
  departments <- MySQLExtractor.extract E "SELECT * FROM departments" ;;
  dept_emp <- MySQLExtractor.extract E "SELECT * FROM dept_emp" ;;
  dept_manager <- MySQLExtractor.extract E "SELECT * FROM dept_manager" ;;
  salaries <- MySQLExtractor.extract E "SELECT * FROM salaries" ;;
  titles <- MySQLExtractor.extract E "SELECT * FROM titles" ;;
  departments_lookup <- departments_lookup_of departments ;;
  dept_emp_by_emp <- index_by_emp dept_emp ;;
  dept_manager_by_emp <- index_by_emp dept_manager ;;
  salaries_by_emp <- index_by_emp salaries ;;
  titles_by_emp <- index_by_emp titles ;;
  employee_documents <-
    aggregate employees dept_emp_by_emp dept_manager_by_emp salaries_by_emp
      titles_by_emp departments_lookup ;;
  ret (employee_documents, departments).

(** [main], from [loader = MongoLoader(...)] to the end of the [try]
    block. *)
Definition main_load (E : env document) (employee_documents : list emp_doc)
    (departments : list row) : M document unit :=
  MongoLoader.init E ;;;
  MongoLoader.load_collection E "employees" (EmployeeDoc <$> employee_documents) 1000 ;;;
  MongoLoader.load_collection E "departments" (RowDoc <$> departments) 1000 ;;;
  log INFO "ETL pipeline executed successfully" [].

Definition main (E : env document) : M document unit :=
  try_finally
    (try_except
       (prepared <- main_extract_transform E ;;
        main_load E prepared.1 prepared.2)
       (fun e => log ERROR "ETL pipeline failed: %s" [AExn e]))
    MySQLExtractor.close.

End DBMigration.

(** ** [src/pipeline.py] *)

Module Pipeline.

Record title_doc : Type := TitleDoc {
  td_title : pyval;
  td_from_date : pyval;
  td_to_date : pyval
}.

Record salary_doc : Type := SalaryDoc {
  sd_salary : pyval;
  sd_from_date : pyval;
  sd_to_date : pyval
}.

Record assignment_doc : Type := AssignmentDoc {
  ad_dept_no : pyval;
  ad_from_date : pyval;
  ad_to_date : pyval
}.

Record department_doc : Type := DepartmentDoc {
  dd_dept_no : pyval;
  dd_dept_name : pyval
}.

Record dept_manager_doc : Type := DeptManagerDoc {
  dm_emp_no : pyval;
  dm_dept_no : pyval;
  dm_from_date : pyval;
  dm_to_date : pyval
}.

Record emp_doc : Type := EmpDoc {
  doc_emp_no : pyval;
  doc_birth_date : pyval;
  doc_first_name : pyval;
  doc_last_name : pyval;
  doc_gender : pyval;
  doc_hire_date : pyval;
  doc_titles : list title_doc;
  doc_salaries : list salary_doc;
  doc_departments : list assignment_doc
}.

Inductive document : Type :=
| DEmployee (d : emp_doc)
| DDepartment (d : department_doc)
| DDeptManager (d : dept_manager_doc).

(** A document encodes when every value in it does, also in the embedded
    records. *)
Definition bson_emp_doc (d : emp_doc) : bool :=
  forallb bson_pyval
    [doc_emp_no d; doc_birth_date d; doc_first_name d; doc_last_name d; doc_gender d;
     doc_hire_date d]
  && forallb (fun e => forallb bson_pyval [td_title e; td_from_date e; td_to_date e])
       (doc_titles d)
  && forallb (fun e => forallb bson_pyval [sd_salary e; sd_from_date e; sd_to_date e])
       (doc_salaries d)
  && forallb (fun e => forallb bson_pyval [ad_dept_no e; ad_from_date e; ad_to_date e])
       (doc_departments d).

#[global] Instance bson_document : Bson document := fun d =>
  match d with
  | DEmployee e => bson_emp_doc e
  | DDepartment e => forallb bson_pyval [dd_dept_no e; dd_dept_name e]
  | DDeptManager e =>
      forallb bson_pyval [dm_emp_no e; dm_dept_no e; dm_from_date e; dm_to_date e]
  end.

(** A Python [dict] whose iteration order matters: keys in order of first
    insertion, assignment to an existing key replaces the value in place. *)
Fixpoint dict_set {V} (k : pyval) (v : V) (d : list (pyval * V)) : list (pyval * V) :=
  match d with
  | [] => [(k, v)]
  | (k', v') :: d' =>
      if decide (k = k') then (k', v) :: d' else (k', v') :: dict_set k v d'
  end.

Fixpoint dict_get {V} (k : pyval) (d : list (pyval * V)) : option V :=
  match d with
  | [] => None
  | (k', v') :: d' => if decide (k = k') then Some v' else dict_get k d'
  end.

(** [d[k]] mutated in place by [f] (for [d[k]['titles'].append(...)]). *)
Fixpoint dict_update {V} (k : pyval) (f : V -> V) (d : list (pyval * V)) : list (pyval * V) :=
  match d with
  | [] => []
  | (k', v') :: d' =>
      if decide (k = k') then (k', f v') :: d' else (k', v') :: dict_update k f d'
  end.

Definition dict_values {V} (d : list (pyval * V)) : list V := d.*2.

Module MySQLExtractor.
Section MySQLExtractor.
Context {D : Type}.

Definition connect (E : env D) : M D unit :=
  try_except
    (pymysql_connect E ;;; log INFO "Connected to MySQL database." [])
    (fun e => log ERROR "Error connecting to MySQL: {e}" [AExn e] ;;; raise e).

Definition fetch_data (E : env D) (query : string) : M D (list row) :=
  try_except
    (data <- cursor_fetchall E query ;;
     log INFO "Executed query: {query}" [AText query] ;;;
     ret data)
    (fun e =>
       log ERROR "Error executing query: {query} : {e}" [AText query; AExn e] ;;; raise e).

Definition close : M D unit := fun st =>
  match st_mysql st with
  | NoConn => (Ok tt, st)
  | _ => (connection_close ;;; log INFO "Closed MySQL connection." []) st
  end.
End MySQLExtractor.
End MySQLExtractor.

Module DataTransformer.
Section DataTransformer.
Context {D : Type}.

Definition transform_date (date_str : pyval) : M D pyval :=
  try_except
    (if truthy date_str then lift_result (strptime date_str) else ret PNone)
    (fun e =>
       log ERROR "Error converting date {date_str}: {e}" [AVal date_str; AExn e] ;;;
       ret PNone).

Definition transform_employee (employee_row : row) : M D emp_doc :=
  birth_date <- transform_date (row_get employee_row "birth_date") ;;
  hire_date <- transform_date (row_get employee_row "hire_date") ;;
  ret (EmpDoc (row_get employee_row "emp_no") birth_date
              (row_get employee_row "first_name") (row_get employee_row "last_name")
              (row_get employee_row "gender") hire_date [] [] []).

Definition transform_title (title_row : row) : M D title_doc :=
  from_date <- transform_date (row_get title_row "from_date") ;;
  to_date <- transform_date (row_get title_row "to_date") ;;
  ret (TitleDoc (row_get title_row "title") from_date to_date).

Definition transform_salary (salary_row : row) : M D salary_doc :=
  from_date <- transform_date (row_get salary_row "from_date") ;;
  to_date <- transform_date (row_get salary_row "to_date") ;;
  ret (SalaryDoc (row_get salary_row "salary") from_date to_date).

Definition transform_department_assignment (dept_emp_row : row) : M D assignment_doc :=
  from_date <- transform_date (row_get dept_emp_row "from_date") ;;
  to_date <- transform_date (row_get dept_emp_row "to_date") ;;
  ret (AssignmentDoc (row_get dept_emp_row "dept_no") from_date to_date).

Definition transform_department (dept_row : row) : department_doc :=
  DepartmentDoc (row_get dept_row "dept_no") (row_get dept_row "dept_name").

Definition transform_dept_manager (dept_manager_row : row) : M D dept_manager_doc :=
  from_date <- transform_date (row_get dept_manager_row "from_date") ;;
  to_date <- transform_date (row_get dept_manager_row "to_date") ;;
  ret (DeptManagerDoc (row_get dept_manager_row "emp_no")
                      (row_get dept_manager_row "dept_no") from_date to_date).
End DataTransformer.
End DataTransformer.

Module MongoDBLoader.

(** [MongoDBLoader.__init__]. *)
Definition init (E : env document) : M document unit :=
  try_except
    (mongo_client E ;;; log INFO "Connected to MongoDB." [])
    (fun e => log ERROR "Error connecting to MongoDB: {e}" [AExn e] ;;; raise e).

Definition insert_employees (E : env document) (employees : list emp_doc)
  : M document unit :=
  match employees with
  | [] => log WARNING "No employee records to insert." []
  | _ =>
      try_except
        (inserted <- insert_many E "employees" (DEmployee <$> employees) ;;
         log INFO "Inserted {len(result.inserted_ids)} employee records." [ANat inserted])
        (fun e =>
           match e with
           | BulkWriteError _ =>
               log ERROR "Bulk write error inserting employees: {bwe.details}" [AExn e]
           | _ => log ERROR "Error inserting employees: {e}" [AExn e]
           end)
  end.

Definition insert_departments (E : env document) (departments : list department_doc)
  : M document unit :=
  match departments with
  | [] => log WARNING "No department records to insert." []
  | _ =>
      try_except
        (inserted <- insert_many E "departments" (DDepartment <$> departments) ;;
         log INFO "Inserted {len(result.inserted_ids)} department records." [ANat inserted])
        (fun e =>
           match e with
           | BulkWriteError _ =>
               log ERROR "Bulk write error inserting departments: {bwe.details}" [AExn e]
           | _ => log ERROR "Error inserting departments: {e}" [AExn e]
           end)
  end.

Definition insert_dept_managers (E : env document) (dept_managers : list dept_manager_doc)
  : M document unit :=
  match dept_managers with
  | [] => log WARNING "No dept_manager records to insert." []
  | _ =>
      try_except
        (inserted <- insert_many E "dept_manager" (DDeptManager <$> dept_managers) ;;
         log INFO "Inserted {len(result.inserted_ids)} dept_manager records." [ANat inserted])
        (fun e =>
           match e with
           | BulkWriteError _ =>
               log ERROR "Bulk write error inserting dept_manager: {bwe.details}" [AExn e]
           | _ => log ERROR "Error inserting dept_manager: {e}" [AExn e]
           end)
  end.

Definition close : M document unit :=
  client_close ;;; log INFO "Closed MongoDB connection." [].
End MongoDBLoader.

Module ETLPipeline.

(** The fields [employees], [departments], [dept_managers] of the object. *)
Record fields : Type := Fields {
  employees : list (pyval * emp_doc);
  departments : list department_doc;
  dept_managers : list dept_manager_doc
}.

(** The dict returned by [extract]. *)
Record extracted : Type := Extracted {
  x_employees : list row;
  x_titles : list row;
  x_salaries : list row;
  x_dept_emp : list row;
  x_departments : list row;
  x_dept_manager : list row
}.

(** The dict returned by [transform]. *)
Record transformed : Type := Transformed {
  t_employees : list emp_doc;
  t_departments : list department_doc;
  t_dept_manager : list dept_manager_doc
}.

(** [ETLPipeline.__init__]. *)
Definition init (E : env document) : M document fields :=
  MongoDBLoader.init E ;;; ret (Fields [] [] []).

Definition extract (E : env document) : M document extracted :=
  try_finally
    (try_except
       (MySQLExtractor.connect E ;;;
        employees_data <- MySQLExtractor.fetch_data E "SELECT * FROM employees" ;;
        titles_data <- MySQLExtractor.fetch_data E "SELECT * FROM titles" ;;
        salaries_data <- MySQLExtractor.fetch_data E "SELECT * FROM salaries" ;;
        dept_emp_data <- MySQLExtractor.fetch_data E "SELECT * FROM dept_emp" ;;
        departments_data <- MySQLExtractor.fetch_data E "SELECT * FROM departments" ;;
        dept_manager_data <- MySQLExtractor.fetch_data E "SELECT * FROM dept_manager" ;;
        ret (Extracted employees_data titles_data salaries_data dept_emp_data
                       departments_data dept_manager_data))
       (fun e => log ERROR "Error during extraction: {e}" [AExn e] ;;; raise e))
    MySQLExtractor.close.

Section Transform.
Context {D : Type}.

Definition with_employees (emps : list (pyval * emp_doc)) (self : fields) : fields :=
  Fields emps (departments self) (dept_managers self).

(** [for emp in data.get('employees', [])]. *)
Definition employee_step (self : fields) (emp : row) : M D fields :=
  transformed_emp <- DataTransformer.transform_employee emp ;;
  ret (with_employees (dict_set (doc_emp_no transformed_emp) transformed_emp (employees self)) self).

Definition append_title (t : title_doc) (d : emp_doc) : emp_doc :=
  EmpDoc (doc_emp_no d) (doc_birth_date d) (doc_first_name d) (doc_last_name d)
         (doc_gender d) (doc_hire_date d)
         (doc_titles d ++ [t]) (doc_salaries d) (doc_departments d).

Definition append_salary (s : salary_doc) (d : emp_doc) : emp_doc :=
  EmpDoc (doc_emp_no d) (doc_birth_date d) (doc_first_name d) (doc_last_name d)
         (doc_gender d) (doc_hire_date d)
         (doc_titles d) (doc_salaries d ++ [s]) (doc_departments d).

Definition append_department (a : assignment_doc) (d : emp_doc) : emp_doc :=
  EmpDoc (doc_emp_no d) (doc_birth_date d) (doc_first_name d) (doc_last_name d)
         (doc_gender d) (doc_hire_date d)
         (doc_titles d) (doc_salaries d) (doc_departments d ++ [a]).

(** [for title in data.get('titles', [])]. *)
Definition title_step (self : fields) (title : row) : M D fields :=
  let emp_no := row_get title "emp_no" in
  match dict_get emp_no (employees self) with
  | Some _ =>
      transformed_title <- DataTransformer.transform_title title ;;
      ret (with_employees (dict_update emp_no (append_title transformed_title) (employees self)) self)
  | None =>
      log WARNING "Employee emp_no {emp_no} not found for title record." [AVal emp_no] ;;;
      ret self
  end.

(** [for salary in data.get('salaries', [])]. *)
Definition salary_step (self : fields) (salary : row) : M D fields :=
  let emp_no := row_get salary "emp_no" in
  match dict_get emp_no (employees self) with
  | Some _ =>
      transformed_salary <- DataTransformer.transform_salary salary ;;
      ret (with_employees (dict_update emp_no (append_salary transformed_salary) (employees self)) self)
  | None =>
      log WARNING "Employee emp_no {emp_no} not found for salary record." [AVal emp_no] ;;;
      ret self
  end.

(** [for dept in data.get('dept_emp', [])]. *)
Definition dept_emp_step (self : fields) (dept : row) : M D fields :=
  let emp_no := row_get dept "emp_no" in
  match dict_get emp_no (employees self) with
  | Some _ =>
      transformed_dept <- DataTransformer.transform_department_assignment dept ;;
      ret (with_employees (dict_update emp_no (append_department transformed_dept) (employees self)) self)
  | None =>
      log WARNING "Employee emp_no {emp_no} not found for department assignment." [AVal emp_no] ;;;
      ret self
  end.

(** [for dept in data.get('departments', [])]. *)
Definition department_step (self : fields) (dept : row) : M D fields :=
  ret (Fields (employees self)
              (departments self ++ [DataTransformer.transform_department dept])
              (dept_managers self)).

(** [for dm in data.get('dept_manager', [])]. *)
Definition dept_manager_step (self : fields) (dm : row) : M D fields :=
  transformed_dm <- DataTransformer.transform_dept_manager dm ;;
  ret (Fields (employees self) (departments self) (dept_managers self ++ [transformed_dm])).

Definition transform (self : fields) (data : extracted) : M D (fields * transformed) :=
  try_except
    (self1 <- fold_m employee_step (x_employees data) self ;;
     self2 <- fold_m title_step (x_titles data) self1 ;;
     self3 <- fold_m salary_step (x_salaries data) self2 ;;
     self4 <- fold_m dept_emp_step (x_dept_emp data) self3 ;;
     self5 <- fold_m department_step (x_departments data) self4 ;;
     self6 <- fold_m dept_manager_step (x_dept_manager data) self5 ;;
     ret (self6, Transformed (dict_values (employees self6)) (departments self6)
                             (dept_managers self6)))
    (fun e => log ERROR "Error during transformation: {e}" [AExn e] ;;; raise e).
End Transform.

Definition load (E : env document) (transformed_data : transformed) : M document unit :=
  try_finally
    (try_except
       (MongoDBLoader.insert_departments E (t_departments transformed_data) ;;;
        MongoDBLoader.insert_employees E (t_employees transformed_data) ;;;
        MongoDBLoader.insert_dept_managers E (t_dept_manager transformed_data))
       (fun e => log ERROR "Error during loading: {e}" [AExn e] ;;; raise e))
    MongoDBLoader.close.

Definition run (E : env document) (self : fields) : M document unit :=
  log INFO "ETL pipeline started." [] ;;;
  try_except
    (extracted_data <- extract E ;;
     transformed_data <- transform self extracted_data ;;
     load E transformed_data.2 ;;;
     log INFO "ETL pipeline completed successfully." [])
    (fun e =>
       log ERROR "ETL pipeline failed: {e}" [AExn e] ;;;
       raise (SystemExit 1)).

(** The script body under [if __name__ == '__main__']. *)
Definition script (E : env document) : M document unit :=
  etl_pipeline <- init E ;; run E etl_pipeline.

End ETLPipeline.
End Pipeline.

(** ** Vocabulary of the statements *)

Section Vocabulary.
Context {D : Type} `{!Bson D}.

(** [safe R m]: every run of [m] relates the states before and after by
    [R], and [m] raises nothing that [except Exception] would let through. *)
Definition safe {A} (R : state D -> state D -> Prop) (m : M D A) : Prop :=
  forall st r st', m st = (r, st') ->
    R st st' /\ forall e, r = Raise e -> is_Exception e = true.

(** The result of a computation run from the initial state; for a
    [stateless] computation, the result of every run. *)
Definition pure_of {A} (m : M D A) : result A := (m init_state).1.

Definition stateless {A} (m : M D A) : Prop :=
  forall st, (m st).1 = pure_of m.

(** The frame with no constraint, for [safe] used only to bound what is
    raised. *)
Definition any_step (st st' : state D) : Prop := True.

(** [converts_to v w]: [v] is a date (then [w] is [v]) or a string that
    [strptime] parses to [w]. *)
Definition converts_to (v w : pyval) : Prop :=
  (is_date_instance v = true /\ w = v) \/
  (exists s, v = PStr s /\ strptime_ymd s = Some w).

(** The document that the loop of [main] appends for [emp], if any: the
    result of [transform_employee] on the row and its child rows. *)
Definition aggregated_doc
    (dept_emp_by_emp dept_manager_by_emp salaries_by_emp titles_by_emp : gmap pyval (list row))
    (departments_lookup : gmap pyval row) (emp : row) : option DBMigration.emp_doc :=
  match emp !! "emp_no" with
  | Some emp_no =>
      match pure_of (DBMigration.DataTransformer.transform_employee emp
                       (default [] (dept_emp_by_emp !! emp_no))
                       (default [] (dept_manager_by_emp !! emp_no))
                       (default [] (salaries_by_emp !! emp_no))
                       (default [] (titles_by_emp !! emp_no))
                       departments_lookup) with
      | Ok doc => Some doc
      | Raise _ => None
      end
  | None => None
  end.

(** The document that [main] builds for [emp] from the child tables: the
    result of [transform_employee] on the row and the rows of each table
    that carry its [emp_no], if it returns one. *)
Definition joined_doc
    (dept_emp dept_manager salaries titles : list row)
    (departments_lookup : gmap pyval row) (emp : row) : option DBMigration.emp_doc :=
  match emp !! "emp_no" with
  | Some emp_no =>
      let of_emp := filter (fun r : row => r !! "emp_no" = Some emp_no) in
      match pure_of
              (DBMigration.DataTransformer.transform_employee emp
                 (of_emp dept_emp) (of_emp dept_manager) (of_emp salaries) (of_emp titles)
                 departments_lookup) with
      | Ok doc => Some doc
      | Raise _ => None
      end
  | None => None
  end.

(** The [emp_no] under which [ETLPipeline.transform] files a row. *)
Definition row_emp_no (r : row) : pyval := row_get r "emp_no".

(** [embeds tr rows k xs]: the documents [xs] are the transformations by
    [tr], in order, of the rows of [rows] filed under [k]. *)
Definition embeds {X} (tr : row -> M D X) (rows : list row) (k : pyval) (xs : list X) : Prop :=
  Forall2 (fun r x => pure_of (tr r) = Ok x) (filter (fun r => row_emp_no r = k) rows) xs.

(** Two employee documents of [src/pipeline.py] with the same scalar
    fields. *)
Definition same_scalars (d d0 : Pipeline.emp_doc) : Prop :=
  Pipeline.doc_emp_no d = Pipeline.doc_emp_no d0 /\
  Pipeline.doc_birth_date d = Pipeline.doc_birth_date d0 /\
  Pipeline.doc_first_name d = Pipeline.doc_first_name d0 /\
  Pipeline.doc_last_name d = Pipeline.doc_last_name d0 /\
  Pipeline.doc_gender d = Pipeline.doc_gender d0 /\
  Pipeline.doc_hire_date d = Pipeline.doc_hire_date d0.

(** Two employee dictionaries with the same keys in the same order and
    documents with the same scalar fields. *)
Definition dict_sim (d d' : list (pyval * Pipeline.emp_doc)) : Prop :=
  Forall2 (fun x y => x.1 = y.1 /\ same_scalars x.2 y.2) d d'.

(** The employee dictionary [d] built from the rows [rs]: one key per
    [emp_no] that occurs, holding the transformation of the last row with
    that [emp_no]. *)
Definition last_wins (rs : list row) (d : list (pyval * Pipeline.emp_doc)) : Prop :=
  NoDup d.*1 /\
  (forall k, k ∈ d.*1 <-> k ∈ (row_emp_no <$> rs)) /\
  (forall k v, Pipeline.dict_get k d = Some v ->
     exists pre r post,
       rs = pre ++ r :: post /\ row_emp_no r = k /\ (k ∉ row_emp_no <$> post) /\
       pure_of (Pipeline.DataTransformer.transform_employee r) = Ok v).

(** The relation between the object before and after the loops that embed
    child rows and collect departments and managers. *)
Definition keeps_employees (self self' : Pipeline.ETLPipeline.fields) : Prop :=
  dict_sim (Pipeline.ETLPipeline.employees self) (Pipeline.ETLPipeline.employees self').

(** The state after one more call of [logging]. *)
Definition logged (l : level) (msg : string) (args : list log_arg) (st : state D) : state D :=
  with_log (fun lg => lg ++ [LogRecord l msg args]) st.

(** [never_raises m]: every run of [m] returns normally. *)
Definition never_raises {A} (m : M D A) : Prop :=
  forall st, exists a st', m st = (Ok a, st').

(** The state after a [delete_many({})] that succeeded. *)
Definition after_delete (coll : string) (st : state D) : state D :=
  let st1 := with_call (DeleteMany coll) st in
  with_store (<[coll := []]> (st_store st1)) st1.

(** The state after an [insert_many] of a non-empty batch that reached
    the server: the accepted documents are appended. *)
Definition after_insert (E : env D) (coll : string) (st : state D) (batch : list D)
  : state D :=
  let st1 := with_call (InsertMany coll batch) st in
  with_store
    (<[coll := default [] (st_store st1 !! coll)
               ++ filter (fun d => mongo_rejects E coll d = false) batch]> (st_store st1))
    st1.

(** The calls of a run that are issued on collection [coll]. *)
Definition on_collection (coll : string) (c : mongo_call D) : bool :=
  match c with
  | DeleteMany c' | InsertMany c' _ => bool_decide (c' = coll)
  | CloseClient => false
  end.

(** The call that [MongoDBLoader.insert_*] issues for a list of documents:
    none when the list is empty. *)
Definition insert_calls (coll : string) (docs : list D) : list (mongo_call D) :=
  match docs with
  | [] => []
  | _ => [InsertMany coll docs]
  end.

(** What one [insert_many] of [docs] stores: the documents the server
    accepts, and nothing when the client cannot encode one of them. *)
Definition stored (E : env D) (coll : string) (docs : list D) : list D :=
  if forallb bson_encodable docs
  then filter (fun d => mongo_rejects E coll d = false) docs
  else [].

(** What one [MongoDBLoader.insert_*] of [docs] into [coll] does to the
    destination: the stored documents are added after what the
    collection held (nothing changes when the server is down), the other
    collections are left alone, and the only call is the insert. *)
Definition appended (E : env D) (coll : string) (docs : list D) (st st' : state D) : Prop :=
  (if mongo_up E
   then default [] (st_store st' !! coll)
        = default [] (st_store st !! coll) ++ stored E coll docs
   else st_store st' = st_store st) /\
  (forall other, other <> coll -> st_store st' !! other = st_store st !! other) /\
  st_calls st' = st_calls st ++ insert_calls coll docs.

(** A step that at most logs. *)
Definition only_logs (st st' : state D) : Prop :=
  st_mysql st' = st_mysql st /\ st_calls st' = st_calls st /\ st_store st' = st_store st.

(** A step that does not close the source connection. *)
Definition keeps_open (st st' : state D) : Prop :=
  st_mysql st <> ConnClosed -> st_mysql st' <> ConnClosed.



(** A step that leaves the source connection and every collection other
    than [coll] alone, and whose calls are all on [coll]. *)
Definition touches_only (coll : string) (st st' : state D) : Prop :=
  st_mysql st' = st_mysql st /\
  (forall other, other <> coll -> st_store st' !! other = st_store st !! other) /\
  exists cs, st_calls st' = st_calls st ++ cs /\
             Forall (fun c => on_collection coll c = true) cs.

(** A step that leaves the destination alone: no call, no change of a
    collection. *)
Definition keeps_destination (st st' : state D) : Prop :=
  st_calls st' = st_calls st /\ st_store st' = st_store st.

(** A step whose calls on the destination are all on one of the
    collections [colls], and that leaves every other collection alone. *)
Definition touches_within (colls : list string) (st st' : state D) : Prop :=
  (forall other, other ∉ colls -> st_store st' !! other = st_store st !! other) /\
  exists cs, st_calls st' = st_calls st ++ cs /\
             Forall (fun c => existsb (fun coll => on_collection coll c) colls = true) cs.

(** Documents that the client can encode, all of them. *)
Definition encodable (docs : list D) : Prop :=
  Forall (fun d => bson_encodable d = true) docs.

(** The batches that the loop of [load_collection] inserts, in order. *)
Definition batches (documents : list D) (batch_size : Z) : list (list D) :=
  (fun i => py_slice documents i (i + batch_size)) <$>
    range_from (length documents) 0 (Z.of_nat (length documents)) batch_size.
End Vocabulary.

(** A date written as [YYYY-MM-DD] with zero padding, as [date.isoformat]
    prints it. *)
Definition digit_char (n : Z) : ascii := ascii_of_N (Z.to_N (48 + n)).

Definition two_digit_string (n : Z) : string :=
  String (digit_char (n / 10)) (String (digit_char (n mod 10)) "").

Definition isoformat (y m d : Z) : string :=
  two_digit_string (y / 100) +:+ two_digit_string (y mod 100) +:+ "-" +:+
  two_digit_string m +:+ "-" +:+ two_digit_string d.

(** ** Sample inputs *)

(** A destination that is reachable and rejects the documents [rej]
    selects; the source answers every query with no rows. *)
Definition sample_env {D} (rej : string -> D -> bool) : env D :=
  {| mysql_connect_ok := true; mysql_table := fun _ => Some [];
     mongo_client_ok := true; mongo_up := true; mongo_rejects := rej |}.

(** A state in which collection [employees] already holds two documents. *)
Definition sample_state : state nat :=
  {| st_log := []; st_mysql := NoConn;
     st_store := {[ "employees" := [7; 8]%nat ]}; st_calls := [] |}.

(** An employee row, and a row of [dept_emp] or [dept_manager]. *)
Definition sample_employee (emp_no : Z) (birth_date : pyval) : row :=
  {[ "emp_no" := PInt emp_no; "birth_date" := birth_date;
     "first_name" := PStr "Ann"; "last_name" := PStr "Lee";
     "gender" := PStr "F"; "hire_date" := PStr "1990-05-01" ]}.

Definition sample_interval (emp_no : Z) (dept_no : string) (from_date to_date : pyval) : row :=
  {[ "emp_no" := PInt emp_no; "dept_no" := PStr dept_no;
     "from_date" := from_date; "to_date" := to_date ]}.

(** A source with two employees and one department, and environments over
    it for the two pipelines: whether the source connects, whether the
    destination is up, and which documents it rejects. *)
Definition sample_department (dept_no dept_name : string) : row :=
  {[ "dept_no" := PStr dept_no; "dept_name" := PStr dept_name ]}.

Definition sample_source (query : string) : option (list row) :=
  if String.eqb query "SELECT * FROM employees"
  then Some [sample_employee 1 (PStr "1960-01-01"); sample_employee 2 (PStr "1961-02-02")]
  else if String.eqb query "SELECT * FROM departments"
  then Some [sample_department "d001" "Marketing"]
  else Some [].

Definition sample_run_env {D} (connect_ok up : bool) (rej : string -> D -> bool) : env D :=
  {| mysql_connect_ok := connect_ok; mysql_table := sample_source;
     mongo_client_ok := true; mongo_up := up; mongo_rejects := rej |}.

(** A row of [titles] and a row of [salaries] of employee 1. *)
Definition sample_title (title : string) (from_date to_date : pyval) : row :=
  {[ "emp_no" := PInt 1; "title" := PStr title;
     "from_date" := from_date; "to_date" := to_date ]}.

Definition sample_salary (salary : Z) (from_date to_date : pyval) : row :=
  {[ "emp_no" := PInt 1; "salary" := PInt salary;
     "from_date" := from_date; "to_date" := to_date ]}.

(** A source whose child tables interleave the rows of employees 1 and 2,
    with a reachable destination that rejects nothing. *)
Definition sample_dept_emp : list row :=
  [sample_interval 1 "d001" (PStr "1991-01-01") (PStr "1995-01-01");
   sample_interval 2 "d002" (PStr "1992-01-01") (PStr "9999-01-01");
   sample_interval 1 "d002" (PStr "1995-01-01") (PStr "9999-01-01")].

Definition sample_dept_manager : list row :=
  [sample_interval 2 "d002" (PStr "1996-01-01") (PStr "9999-01-01")].

Definition sample_salaries : list row :=
  [<["emp_no" := PInt 2]> (sample_salary 50000 (PStr "1992-01-01") (PStr "1993-01-01"));
   sample_salary 60000 (PStr "1991-01-01") (PStr "9999-01-01");
   <["emp_no" := PInt 2]> (sample_salary 52000 (PStr "1993-01-01") (PStr "9999-01-01"))].

Definition sample_titles : list row :=
  [sample_title "Engineer" (PStr "1991-01-01") PNone;
   <["emp_no" := PInt 2]> (sample_title "Staff" (PStr "1992-01-01") PNone)].

Definition sample_joined_source (query : string) : option (list row) :=
  if String.eqb query "SELECT * FROM employees"
  then Some [sample_employee 1 (PStr "1960-01-01"); sample_employee 2 (PStr "1961-02-02")]
  else if String.eqb query "SELECT * FROM departments"
  then Some [sample_department "d001" "Marketing"; sample_department "d002" "Sales"]
  else if String.eqb query "SELECT * FROM dept_emp" then Some sample_dept_emp
  else if String.eqb query "SELECT * FROM dept_manager" then Some sample_dept_manager
  else if String.eqb query "SELECT * FROM salaries" then Some sample_salaries
  else if String.eqb query "SELECT * FROM titles" then Some sample_titles
  else None.

Definition sample_joined_env : env DBMigration.document :=
  {| mysql_connect_ok := true; mysql_table := sample_joined_source;
     mongo_client_ok := true; mongo_up := true; mongo_rejects := fun _ _ => false |}.

(** An employee document without embedded records. *)
Definition sample_doc (emp_no : Z) : DBMigration.emp_doc :=
  DBMigration.EmpDoc (PInt emp_no) (PDateTime 1960 1 1 0 0 0) (PStr "Ann") (PStr "Lee")
    (PStr "F") (PDateTime 1990 5 1 0 0 0) [] [] [] None.

(** The destination rejects the document of employee 2. *)
Definition rejects_employee_2 (coll : string) (d : DBMigration.document) : bool :=
  match d with
  | DBMigration.EmployeeDoc e => bool_decide (DBMigration.doc_emp_no e = PInt 2)
  | DBMigration.RowDoc _ => false
  end.

Definition rejects_employee_2' (coll : string) (d : Pipeline.document) : bool :=
  match d with
  | Pipeline.DEmployee e => bool_decide (Pipeline.doc_emp_no e = PInt 2)
  | _ => false
  end.

(** An employee document of [src/pipeline.py] without embedded records,
    and a state in which collection [employees] holds one and a delete has
    been issued before. *)
Definition sample_doc' (emp_no : Z) : Pipeline.emp_doc :=
  Pipeline.EmpDoc (PInt emp_no) (PDateTime 1960 1 1 0 0 0) (PStr "Ann") (PStr "Lee")
    (PStr "F") (PDateTime 1990 5 1 0 0 0) [] [] [].

Definition sample_loaded_state : state Pipeline.document :=
  {| st_log := []; st_mysql := NoConn;
     st_store := {[ "employees" := [Pipeline.DEmployee (sample_doc' 7)] ]};
     st_calls := [DeleteMany "employees"] |}.

(** A source whose only employee row holds a [datetime.date] as its birth
    date, and a state in which collection [employees] holds a document. *)
Definition sample_date_env : env DBMigration.document :=
  {| mysql_connect_ok := true;
     mysql_table := fun query =>
       if String.eqb query "SELECT * FROM employees"
       then Some [sample_employee 1 (PDate 1960 1 1)]
       else Some [];
     mongo_client_ok := true; mongo_up := true; mongo_rejects := fun _ _ => false |}.

Definition sample_main_state : state DBMigration.document :=
  {| st_log := []; st_mysql := NoConn;
     st_store := {[ "employees" := [DBMigration.EmployeeDoc (sample_doc 7)] ]};
     st_calls := [] |}.

(** * Properties *)

(** ** Equations of the monad *)

Section MonadFacts.
Context {D : Type} `{!Bson D}.
Implicit Types st : state D.

Lemma bind_Ok {A B} (m : M D A) (f : A -> M D B) st a st1 :
  m st = (Ok a, st1) -> bind m f st = f a st1.
Proof. unfold bind. intros ->. reflexivity. Qed.

Lemma bind_Raise {A B} (m : M D A) (f : A -> M D B) st e st1 :
  m st = (Raise e, st1) -> bind m f st = (Raise e, st1).
Proof. unfold bind. intros ->. reflexivity. Qed.

Lemma bind_inv_Ok {A B} (m : M D A) (f : A -> M D B) st b st' :
  bind m f st = (Ok b, st') ->
  exists a st1, m st = (Ok a, st1) /\ f a st1 = (Ok b, st').
Proof.
  unfold bind. destruct (m st) as [[a|e] st1]; intros H.
  - exists a, st1. split; [reflexivity | exact H].
  - discriminate H.
Qed.

Lemma try_except_Ok {A} (m : M D A) h st a st1 :
  m st = (Ok a, st1) -> try_except m h st = (Ok a, st1).
Proof. unfold try_except. intros ->. reflexivity. Qed.

Lemma try_except_Raise {A} (m : M D A) h st e st1 :
  m st = (Raise e, st1) -> is_Exception e = true ->
  try_except m h st = h e st1.
Proof. unfold try_except. intros -> ->. reflexivity. Qed.

Lemma getitem_Some (r : row) k v st :
  r !! k = Some v -> getitem (D:=D) r k st = (Ok v, st).
Proof. unfold getitem. intros ->. reflexivity. Qed.

Lemma getitem_inv_Ok (r : row) k v st st' :
  getitem (D:=D) r k st = (Ok v, st') -> r !! k = Some v /\ st' = st.
Proof.
  unfold getitem. destruct (r !! k); cbn; intros H; inversion H; auto.
Qed.

(** *** What a loop that collects results returns *)

Lemma map_m_inv_Ok {A B} (f : A -> M D B) l :
  forall st ys st',
    map_m f l st = (Ok ys, st') ->
    length ys = length l /\
    forall i x, l !! i = Some x ->
      exists y st1 st2, f x st1 = (Ok y, st2) /\ ys !! i = Some y.
Proof.
  induction l as [|x l IH]; intros st ys st' H.
  - cbn in H. inversion H; subst. split; [reflexivity|]. intros i x Hx. discriminate Hx.
  - cbn [map_m] in H.
    apply bind_inv_Ok in H as (y & st1 & Hy & H).
    apply bind_inv_Ok in H as (ys' & st2 & Hys & H).
    inversion H; subst. destruct (IH _ _ _ Hys) as [Hlen Hall].
    split; [cbn; congruence|].
    intros [|i] x' Hx'; cbn in Hx'.
    + inversion Hx'; subst. exists y, st, st1. split; [exact Hy | reflexivity].
    + destruct (Hall i x' Hx') as (y' & s1 & s2 & Hf & Hl).
      exists y', s1, s2. split; [exact Hf | exact Hl].
Qed.

(** *** Frames and exceptions, compositionally *)

Section Safe.
Variable R : state D -> state D -> Prop.
Hypothesis R_refl : forall st, R st st.
Hypothesis R_trans : forall s1 s2 s3, R s1 s2 -> R s2 s3 -> R s1 s3.

Lemma safe_ret {A} (a : A) : safe R (ret a).
Proof. intros st r st' H. inversion H; subst. split; [apply R_refl | discriminate]. Qed.

Lemma safe_raise {A} e : is_Exception e = true -> safe R (raise (A:=A) e).
Proof.
  intros He st r st' H. inversion H; subst. split; [apply R_refl|].
  intros e' [= <-]. exact He.
Qed.

Lemma safe_lift_result {A} (r : result A) :
  (forall e, r = Raise e -> is_Exception e = true) -> safe R (lift_result r).
Proof. intros Hr st r' st' H. inversion H; subst. split; [apply R_refl | exact Hr]. Qed.

Lemma safe_getitem (r : row) k : safe R (getitem r k).
Proof.
  unfold getitem. destruct (r !! k); [apply safe_ret | apply safe_raise; reflexivity].
Qed.

Lemma safe_bind {A B} (m : M D A) (f : A -> M D B) :
  safe R m -> (forall a, safe R (f a)) -> safe R (bind m f).
Proof.
  intros Hm Hf st r st' H. unfold bind in H.
  destruct (m st) as [[a|e] st1] eqn:Em.
  - destruct (Hm _ _ _ Em) as [H1 _]. destruct (Hf a _ _ _ H) as [H2 H3].
    split; [eapply R_trans; eassumption | exact H3].
  - inversion H; subst. destruct (Hm _ _ _ Em) as [H1 H2].
    split; [exact H1 | intros e' [= <-]; exact (H2 e eq_refl)].
Qed.

Lemma safe_try_except {A} (m : M D A) h :
  safe R m -> (forall e, is_Exception e = true -> safe R (h e)) ->
  safe R (try_except m h).
Proof.
  intros Hm Hh st r st' H. unfold try_except in H.
  destruct (m st) as [[a|e] st1] eqn:Em.
  - inversion H; subst. exact (Hm _ _ _ Em).
  - destruct (Hm _ _ _ Em) as [H1 H2]. rewrite (H2 e eq_refl) in H.
    destruct (Hh e (H2 e eq_refl) _ _ _ H) as [H3 H4].
    split; [eapply R_trans; eassumption | exact H4].
Qed.

Lemma safe_try_finally {A} (m : M D A) fin :
  safe R m -> safe R fin -> safe R (try_finally m fin).
Proof.
  intros Hm Hf st r st' H. unfold try_finally in H.
  destruct (m st) as [r1 st1] eqn:Em. destruct (Hm _ _ _ Em) as [H1 H2].
  destruct (fin st1) as [[u|e] st2] eqn:Ef; destruct (Hf _ _ _ Ef) as [H3 H4];
    inversion H; subst.
  - split; [eapply R_trans; eassumption | exact H2].
  - split; [eapply R_trans; eassumption | intros e' [= <-]; exact (H4 e eq_refl)].
Qed.

Lemma safe_for_each {A} (body : A -> M D unit) l :
  (forall x, safe R (body x)) -> safe R (for_each body l).
Proof.
  intros Hb. induction l as [|x l IH]; cbn [for_each].
  - apply safe_ret.
  - apply safe_bind; [apply Hb | intros _; exact IH].
Qed.

Lemma safe_map_m {A B} (f : A -> M D B) l :
  (forall x, safe R (f x)) -> safe R (map_m f l).
Proof.
  intros Hf. induction l as [|x l IH]; cbn [map_m].
  - apply safe_ret.
  - apply safe_bind; [apply Hf | intros y].
    apply safe_bind; [exact IH | intros ys; apply safe_ret].
Qed.

Lemma safe_fold_m {A S} (step : S -> A -> M D S) l :
  (forall acc x, safe R (step acc x)) -> forall acc, safe R (fold_m step l acc).
Proof.
  intros Hs. induction l as [|x l IH]; intros acc; cbn [fold_m].
  - apply safe_ret.
  - apply safe_bind; [apply Hs | intros acc'; apply IH].
Qed.
End Safe.

(** *** Computations whose result does not depend on the state *)

Lemma stateless_const {A} (m : M D A) (r : result A) :
  (forall st, (m st).1 = r) -> stateless m.
Proof. intros H st. unfold pure_of. rewrite !H. reflexivity. Qed.

Lemma stateless_ret {A} (a : A) : stateless (D:=D) (ret a).
Proof. apply (stateless_const _ (Ok a)). reflexivity. Qed.

Lemma stateless_raise {A} e : stateless (D:=D) (raise (A:=A) e).
Proof. apply (stateless_const _ (Raise e)). reflexivity. Qed.

Lemma stateless_lift_result {A} (r : result A) : stateless (D:=D) (lift_result r).
Proof. apply (stateless_const _ r). reflexivity. Qed.

Lemma stateless_log l msg args : stateless (D:=D) (log l msg args).
Proof. apply (stateless_const _ (Ok tt)). reflexivity. Qed.

Lemma stateless_getitem (r : row) k : stateless (D:=D) (getitem r k).
Proof.
  unfold getitem. destruct (r !! k); [apply stateless_ret | apply stateless_raise].
Qed.

Lemma stateless_bind {A B} (m : M D A) (f : A -> M D B) :
  stateless m -> (forall a, stateless (f a)) -> stateless (bind m f).
Proof.
  intros Hm Hf st. unfold pure_of, bind.
  pose proof (Hm st) as H1. unfold pure_of in H1.
  destruct (m st) as [r1 st1], (m init_state) as [r2 st2]. cbn in H1. subst r2.
  destruct r1 as [a|e]; [|reflexivity].
  rewrite (Hf a st1), (Hf a st2). reflexivity.
Qed.

Lemma stateless_try_except {A} (m : M D A) h :
  stateless m -> (forall e, stateless (h e)) -> stateless (try_except m h).
Proof.
  intros Hm Hh st. unfold pure_of, try_except.
  pose proof (Hm st) as H1. unfold pure_of in H1.
  destruct (m st) as [r1 st1], (m init_state) as [r2 st2]. cbn in H1. subst r2.
  destruct r1 as [a|e]; [reflexivity|].
  destruct (is_Exception e); [|reflexivity].
  rewrite (Hh e st1), (Hh e st2). reflexivity.
Qed.

Lemma stateless_map_m {A B} (f : A -> M D B) l :
  (forall x, stateless (f x)) -> stateless (map_m f l).
Proof.
  intros Hf. induction l as [|x l IH]; cbn [map_m].
  - apply stateless_ret.
  - apply stateless_bind; [apply Hf | intros y].
    apply stateless_bind; [exact IH | intros ys; apply stateless_ret].
Qed.

(** A stateless computation run from any state. *)
Lemma stateless_run {A} (m : M D A) st :
  stateless m -> exists st', m st = (pure_of m, st').
Proof.
  intros H. exists (m st).2. rewrite <- (H st). destruct (m st); reflexivity.
Qed.
End MonadFacts.

(** ** Date normalisation *)

Lemma Z_range_Forall (P : Z -> Prop) (lo len : Z) :
  Forall P (seqZ lo len) -> forall m, (lo <= m < lo + len)%Z -> P m.
Proof.
  intros H m Hm. rewrite Forall_forall in H. apply H. apply elem_of_seqZ. lia.
Qed.

Lemma in_range_true (lo hi n : Z) :
  (lo <= n <= hi)%Z -> ((lo <=? n) && (n <=? hi))%Z = true.
Proof. intros [H1 H2]. apply andb_true_iff. split; apply Z.leb_le; assumption. Qed.

Lemma digit_val_digit_char n : (0 <= n <= 9)%Z -> digit_val (digit_char n) = Some n.
Proof.
  intros Hn.
  apply (Z_range_Forall (fun n => digit_val (digit_char n) = Some n) 0 10); [|lia].
  repeat constructor.
Qed.

Lemma two_digits_two_digit n rest :
  (0 <= n <= 99)%Z ->
  two_digits 0 9 0 9 (two_digit_string n +:+ rest) = Some (n, rest).
Proof.
  intros Hn.
  assert (H1 : (0 <= n / 10 < 10)%Z)
    by (split; [apply Z.div_pos; lia | apply Z.div_lt_upper_bound; lia]).
  assert (H2 : (0 <= n mod 10 <= 9)%Z) by (pose proof (Z.mod_pos_bound n 10); lia).
  unfold two_digit_string.
  change (String ?a (String ?b "") +:+ rest) with (String a (String b rest)).
  unfold two_digits, digit_in.
  rewrite !digit_val_digit_char by lia. cbn [mbind option_bind].
  rewrite !in_range_true by lia.
  cbn [mbind option_bind]. f_equal. f_equal. pose proof (Z.div_mod n 10). lia.
Qed.

Lemma match_month_two_digit m rest :
  (1 <= m <= 12)%Z -> match_month (two_digit_string m +:+ rest) = Some (m, rest).
Proof.
  intros Hm. revert rest.
  apply (Z_range_Forall
           (fun m => forall rest, match_month (two_digit_string m +:+ rest) = Some (m, rest))
           1 12); [|lia].
  repeat constructor.
Qed.

Lemma match_day_two_digit d :
  (1 <= d <= 31)%Z -> match_day (two_digit_string d) = Some (d, "").
Proof.
  intros Hd.
  apply (Z_range_Forall (fun d => match_day (two_digit_string d) = Some (d, "")) 1 31); [|lia].
  repeat constructor.
Qed.

(** Parsing the zero-padded form of a date that exists gives that date at
    midnight. *)
Lemma strptime_ymd_isoformat y m d :
  valid_date y m d = true ->
  strptime_ymd (isoformat y m d) = Some (PDateTime y m d 0 0 0).
Proof.
  intros Hv. pose proof Hv as Hv'. unfold valid_date in Hv'.
  repeat (apply andb_true_iff in Hv' as [Hv' ?]).
  assert (d <= 31)%Z.
  { assert (days_in_month y m <= 31)%Z; [|lia].
    unfold days_in_month. repeat case_match; lia. }
  assert (0 <= y / 100 < 100)%Z
    by (split; [apply Z.div_pos; lia | apply Z.div_lt_upper_bound; lia]).
  assert (0 <= y mod 100 <= 99)%Z by (pose proof (Z.mod_pos_bound y 100); lia).
  unfold strptime_ymd, isoformat, match_year.
  rewrite two_digits_two_digit by lia. cbn [mbind option_bind].
  rewrite two_digits_two_digit by lia. cbn [mbind option_bind].
  replace (100 * (y / 100) + y mod 100)%Z with y by (pose proof (Z.div_mod y 100); lia).
  change ("-" +:+ ?s) with (String "-"%char s). cbn [match_dash mbind option_bind].
  rewrite match_month_two_digit by lia. cbn [mbind option_bind].
  change ("-" +:+ ?s) with (String "-"%char s). cbn [match_dash mbind option_bind].
  rewrite match_day_two_digit by lia. cbn [mbind option_bind String.eqb andb].
  rewrite Hv. reflexivity.
Qed.

(** Whatever [strptime] returns is a [datetime]. *)
Lemma strptime_ymd_is_date s d :
  strptime_ymd s = Some d -> is_date_instance d = true.
Proof.
  unfold strptime_ymd. intros H.
  repeat (match type of H with
          | context [mbind ?f ?x] => destruct x as [[]|] eqn:?; cbn [mbind option_bind] in H
          | context [mbind ?f ?x] => destruct x eqn:?; cbn [mbind option_bind] in H
          end; try discriminate H).
  destruct (_ && _) in H; [|discriminate H]. inversion H. reflexivity.
Qed.

Lemma strptime_ymd_nonempty s d : strptime_ymd s = Some d -> truthy (PStr s) = true.
Proof. destruct s; [discriminate | reflexivity]. Qed.

Section Dates.
Context {D : Type} `{!Bson D}.
Implicit Types st : state D.

Lemma convert_date_date v st :
  is_date_instance v = true ->
  DBMigration.DataTransformer.convert_date v st = (Ok v, st).
Proof.
  intros H. unfold DBMigration.DataTransformer.convert_date, try_except.
  rewrite H. reflexivity.
Qed.

Lemma convert_date_str s d st :
  strptime_ymd s = Some d ->
  DBMigration.DataTransformer.convert_date (PStr s) st = (Ok d, st).
Proof.
  intros H. unfold DBMigration.DataTransformer.convert_date, try_except, lift_result.
  cbn. rewrite H. reflexivity.
Qed.

Lemma convert_date_inv_Ok v w st st' :
  DBMigration.DataTransformer.convert_date v st = (Ok w, st') ->
  st' = st /\
  ((is_date_instance v = true /\ w = v) \/
   (exists s, v = PStr s /\ strptime_ymd s = Some w)).
Proof.
  unfold DBMigration.DataTransformer.convert_date, try_except, lift_result, bind, log, raise, ret.
  destruct v as [| n | s | y m d | y m d hh mi ss]; cbn; intros H;
    try (inversion H; subst; split; [reflexivity | left; split; reflexivity]);
    try discriminate H.
  destruct (strptime_ymd s) as [d|] eqn:Es; cbn in H; inversion H; subst.
  split; [reflexivity|]. right. exists s. split; [reflexivity | exact Es].
Qed.

Lemma transform_date_falsy v st :
  truthy v = false -> Pipeline.DataTransformer.transform_date v st = (Ok PNone, st).
Proof.
  intros H. unfold Pipeline.DataTransformer.transform_date, try_except.
  rewrite H. reflexivity.
Qed.

Lemma transform_date_str s d st :
  strptime_ymd s = Some d ->
  Pipeline.DataTransformer.transform_date (PStr s) st = (Ok d, st).
Proof.
  intros H. unfold Pipeline.DataTransformer.transform_date, try_except, lift_result.
  rewrite (strptime_ymd_nonempty s d H). cbn. rewrite H. reflexivity.
Qed.

Lemma transform_date_date v st :
  is_date_instance v = true ->
  Pipeline.DataTransformer.transform_date v st =
    (Ok PNone, logged ERROR "Error converting date {date_str}: {e}" [AVal v; AExn TypeError] st).
Proof.
  destruct v; try discriminate; intros _; reflexivity.
Qed.
End Dates.

(** C3 (as amended).  [convert_date] returns a [date] or [datetime]
    unchanged, so it is idempotent on what it returns, and returns the
    parsed date for a string in [YYYY-MM-DD] form; given [None] it logs and
    raises [TypeError].  [transform_date] returns [None] for [None] and the
    parsed date for such a string; given a value that is already a date it
    logs an error and returns [None]. *)
Theorem C3_date_normalization :
  forall (D : Type) (v : pyval) (st : state D),
    (is_date_instance v = true ->
     DBMigration.DataTransformer.convert_date v st = (Ok v, st)) /\
    (forall w st', DBMigration.DataTransformer.convert_date v st = (Ok w, st') ->
                   DBMigration.DataTransformer.convert_date w st' = (Ok w, st')) /\
    (forall y m d, valid_date y m d = true ->
       DBMigration.DataTransformer.convert_date (PStr (isoformat y m d)) st
       = (Ok (PDateTime y m d 0 0 0), st)) /\
    (forall s d, strptime_ymd s = Some d ->
       DBMigration.DataTransformer.convert_date (PStr s) st = (Ok d, st)) /\
    DBMigration.DataTransformer.convert_date PNone st
    = (Raise TypeError,
       logged ERROR "Date conversion error for value %s: %s" [AVal PNone; AExn TypeError] st) /\
    Pipeline.DataTransformer.transform_date PNone st = (Ok PNone, st) /\
    (forall y m d, valid_date y m d = true ->
       Pipeline.DataTransformer.transform_date (PStr (isoformat y m d)) st
       = (Ok (PDateTime y m d 0 0 0), st)) /\
    (forall s d, strptime_ymd s = Some d ->
       Pipeline.DataTransformer.transform_date (PStr s) st = (Ok d, st)) /\
    (is_date_instance v = true ->
     Pipeline.DataTransformer.transform_date v st
     = (Ok PNone,
        logged ERROR "Error converting date {date_str}: {e}" [AVal v; AExn TypeError] st)).
Proof.
  intros D v st. repeat apply conj.
  - apply convert_date_date.
  - intros w st' H. apply convert_date_inv_Ok in H as [-> [[Hd ->] | (s & -> & Hs)]].
    + apply convert_date_date, Hd.
    + apply convert_date_date. eapply strptime_ymd_is_date, Hs.
  - intros y m d Hv. apply convert_date_str, strptime_ymd_isoformat, Hv.
  - intros s d. apply convert_date_str.
  - reflexivity.
  - apply transform_date_falsy. reflexivity.
  - intros y m d Hv. apply transform_date_str, strptime_ymd_isoformat, Hv.
  - intros s d. apply transform_date_str.
  - apply transform_date_date.
Qed.

(** The theorem at a date, at the string "2020-01-05" and at [None]. *)
Lemma C3_date_normalization_witness :
  DBMigration.DataTransformer.convert_date (D:=unit) (PDate 2020 1 5) init_state
  = (Ok (PDate 2020 1 5), init_state) /\
  DBMigration.DataTransformer.convert_date (D:=unit) (PStr (isoformat 2020 1 5)) init_state
  = (Ok (PDateTime 2020 1 5 0 0 0), init_state) /\
  Pipeline.DataTransformer.transform_date (D:=unit) (PStr "2020-01-05") init_state
  = (Ok (PDateTime 2020 1 5 0 0 0), init_state).
Proof.
  destruct (C3_date_normalization unit (PDate 2020 1 5) init_state)
    as (H1 & _ & H3 & _ & _ & _ & _ & H8 & _).
  split; [apply H1; reflexivity|].
  split; [apply (H3 2020 1 5)%Z; reflexivity|].
  apply H8. reflexivity.
Defined.

(** C3 as stated fails: [convert_date] does not return [None] for [None],
    it raises; and [transform_date] does not return a date unchanged. *)
Lemma C3_counterexample :
  (DBMigration.DataTransformer.convert_date (D:=unit) PNone init_state).1 = Raise TypeError /\
  (Pipeline.DataTransformer.transform_date (D:=unit) (PDate 2020 1 5) init_state).1 = Ok PNone.
Proof. split; reflexivity. Qed.

(** ** The bulk writer *)

Lemma py_slice_take_drop {A} (l : list A) (i b : Z) :
  (0 <= i <= Z.of_nat (length l))%Z -> (0 <= b)%Z ->
  py_slice l i (i + b) = take (Z.to_nat b) (drop (Z.to_nat i) l).
Proof.
  intros Hi Hb. unfold py_slice, clamp_index.
  destruct (Z.ltb_spec i 0); [lia|]. destruct (Z.ltb_spec (i + b) 0); [lia|].
  rewrite (Z.min_l i) by lia.
  destruct (Z.le_ge_cases (i + b) (Z.of_nat (length l))) as [Hle|Hge].
  - rewrite Z.min_l by lia. f_equal. lia.
  - rewrite Z.min_r by lia.
    rewrite !take_ge; [reflexivity | rewrite length_drop; lia | rewrite length_drop; lia].
Qed.

Lemma ceil_div_step (n b : Z) :
  (0 < b)%Z -> (0 < n)%Z ->
  ((Z.max 0 n + b - 1) / b = 1 + (Z.max 0 (n - b) + b - 1) / b)%Z.
Proof.
  intros Hb Hn. rewrite Z.max_r by lia.
  destruct (Z.le_gt_cases b n) as [Hle|Hgt].
  - rewrite (Z.max_r 0 (n - b)) by lia.
    replace (n + b - 1)%Z with ((n - b + b - 1) + 1 * b)%Z by lia.
    rewrite Z.div_add by lia. lia.
  - rewrite (Z.max_l 0 (n - b)) by lia.
    rewrite (Z.div_small (0 + b - 1) b) by lia.
    symmetry. apply Z.div_unique with (r := (n - 1)%Z); lia.
Qed.

Section Loading.
Context {D : Type} `{!Bson D}.
Implicit Types (st : state D) (E : env D).

Lemma batches_from_spec (docs : list D) (B : Z) :
  (0 < B)%Z ->
  forall fuel i,
    (0 <= i)%Z -> (Z.of_nat (length docs) - i <= Z.of_nat fuel)%Z ->
    let bs := (fun i => py_slice docs i (i + B)) <$>
                range_from fuel i (Z.of_nat (length docs)) B in
    concat bs = drop (Z.to_nat i) docs /\
    Forall (fun b => (Z.of_nat (length b) <= B)%Z /\ b <> []) bs /\
    Z.of_nat (length bs) = ((Z.max 0 (Z.of_nat (length docs) - i) + B - 1) / B)%Z.
Proof.
  intros HB. induction fuel as [|fuel IH]; intros i Hi Hfuel; cbn [range_from].
  - cbn. split; [|split].
    + rewrite drop_ge; [reflexivity | lia].
    + constructor.
    + rewrite Z.max_l by lia. rewrite Z.div_small; lia.
  - destruct (Z.ltb_spec 0 B) as [_|?]; [|lia].
    destruct (Z.ltb_spec i (Z.of_nat (length docs))) as [Hlt|Hge].
    + destruct (IH (i + B)%Z) as (Hc & Hf & Hl); [lia | lia |].
      cbn [fmap list_fmap concat length]. fold (@fmap list _ Z (list D)).
      rewrite py_slice_take_drop by lia.
      split; [|split].
      * rewrite Hc. rewrite Z2Nat.inj_add by lia. rewrite <- drop_drop.
        apply take_drop.
      * constructor; [|exact Hf]. split.
        -- rewrite length_take. lia.
        -- intros Hnil. apply (f_equal length) in Hnil.
           rewrite length_take, length_drop in Hnil. cbn in Hnil. lia.
      * rewrite Nat2Z.inj_succ, Hl.
        rewrite (ceil_div_step (Z.of_nat (length docs) - i) B) by lia.
        replace (Z.of_nat (length docs) - (i + B))%Z with (Z.of_nat (length docs) - i - B)%Z by lia.
        lia.
    + cbn. split; [|split].
      * rewrite drop_ge; [reflexivity | lia].
      * constructor.
      * rewrite Z.max_l by lia. rewrite Z.div_small; lia.
Qed.

Lemma batches_spec (docs : list D) (B : Z) :
  (0 < B)%Z ->
  concat (batches docs B) = docs /\
  Forall (fun b => (Z.of_nat (length b) <= B)%Z /\ b <> []) (batches docs B) /\
  Z.of_nat (length (batches docs B)) = ((Z.of_nat (length docs) + B - 1) / B)%Z.
Proof.
  intros HB. unfold batches.
  destruct (batches_from_spec docs B HB (length docs) 0%Z) as (Hc & Hf & Hl); [lia | lia |].
  split; [exact Hc | split; [exact Hf|]].
  rewrite Hl. rewrite Z.max_r by lia. f_equal. lia.
Qed.

Lemma rejected_from_nil (rej : D -> bool) batch :
  forall i, rejected_from rej i batch = [] <-> Forall (fun d => rej d = false) batch.
Proof.
  induction batch as [|d batch IH]; intros i; cbn.
  - split; [constructor | reflexivity].
  - destruct (rej d) eqn:Ed.
    + split; [discriminate | intros H; inversion H; congruence].
    + rewrite IH. split; [intros H; constructor; assumption | intros H; inversion H; assumption].
Qed.

Lemma encodable_forallb (batch : list D) :
  encodable batch <-> forallb bson_encodable batch = true.
Proof.
  unfold encodable. rewrite forallb_forall, Forall_forall.
  split; intros H d Hd; apply H; apply list_elem_of_In; exact Hd.
Qed.

Lemma insert_many_up E coll batch st :
  mongo_up E = true -> batch <> [] -> encodable batch ->
  insert_many E coll batch st =
    (match rejected_from (mongo_rejects E coll) 0 batch with
     | [] => Ok (length batch)
     | failed => Raise (BulkWriteError failed)
     end, after_insert E coll st batch).
Proof.
  intros Hup Hne Henc. apply encodable_forallb in Henc.
  unfold insert_many, after_insert. rewrite Hup, Henc.
  destruct batch as [|d batch]; [congruence|].
  destruct (rejected_from _ _ _); reflexivity.
Qed.

(** A batch with a document that the client cannot encode: the call
    raises before anything is sent. *)
Lemma insert_many_not_encodable E coll batch st :
  mongo_up E = true -> ~ encodable batch ->
  insert_many E coll batch st = (Raise BsonError, with_call (InsertMany coll batch) st).
Proof.
  intros Hup Henc. rewrite encodable_forallb in Henc. apply not_true_is_false in Henc.
  unfold insert_many. rewrite Hup, Henc.
  destruct batch as [|d batch]; [discriminate Henc | reflexivity].
Qed.

Lemma for_each_fmap {A B} (f : A -> B) (g : B -> M D unit) l :
  for_each (fun x => g (f x)) l = for_each g (f <$> l).
Proof. induction l as [|x l IH]; cbn; [reflexivity | rewrite IH; reflexivity]. Qed.

(** Inserting batches one after the other while none is rejected. *)
Lemma for_each_insert_ok E coll bs :
  mongo_up E = true ->
  Forall (fun b => b <> [] /\ encodable b /\
                   Forall (fun d => mongo_rejects E coll d = false) b) bs ->
  forall st,
    for_each (fun b => insert_many E coll b ;;; ret tt) bs st
    = (Ok tt, foldl (after_insert E coll) st bs).
Proof.
  intros Hup. induction 1 as [|b bs (Hne & Henc & Hb) _ IH]; intros st; cbn [for_each foldl].
  - reflexivity.
  - unfold bind at 1. unfold bind at 1. rewrite insert_many_up by assumption.
    apply (rejected_from_nil _ _ 0) in Hb. rewrite Hb. cbn. apply IH.
Qed.

(** The first batch with a rejected document ends the loop. *)
Lemma for_each_insert_fail E coll pre b post :
  mongo_up E = true ->
  Forall (fun b => b <> [] /\ encodable b /\
                   Forall (fun d => mongo_rejects E coll d = false) b) pre ->
  b <> [] -> encodable b -> rejected_from (mongo_rejects E coll) 0 b <> [] ->
  forall st,
    for_each (fun b => insert_many E coll b ;;; ret tt) (pre ++ b :: post) st
    = (Raise (BulkWriteError (rejected_from (mongo_rejects E coll) 0 b)),
       foldl (after_insert E coll) st (pre ++ [b])).
Proof.
  intros Hup Hpre Hne Henc Hrej.
  induction Hpre as [|b' pre (Hne' & Henc' & Hb') _ IH]; intros st.
  - cbn [app for_each foldl]. unfold bind at 1. unfold bind at 1.
    rewrite insert_many_up by assumption.
    destruct (rejected_from _ _ _) eqn:Er; [congruence | reflexivity].
  - cbn [app for_each foldl]. unfold bind at 1. unfold bind at 1.
    rewrite insert_many_up by assumption.
    apply (rejected_from_nil _ _ 0) in Hb'. rewrite Hb'. cbn. apply IH.
Qed.

(** The first batch with a document that the client cannot encode ends the
    loop, with the batches before it inserted. *)
Lemma for_each_insert_not_encodable E coll pre b post :
  mongo_up E = true ->
  Forall (fun b => b <> [] /\ encodable b /\
                   Forall (fun d => mongo_rejects E coll d = false) b) pre ->
  ~ encodable b ->
  forall st,
    for_each (fun b => insert_many E coll b ;;; ret tt) (pre ++ b :: post) st
    = (Raise BsonError,
       with_call (InsertMany coll b) (foldl (after_insert E coll) st pre)).
Proof.
  intros Hup Hpre Henc.
  induction Hpre as [|b' pre (Hne' & Henc' & Hb') _ IH]; intros st.
  - cbn [app for_each foldl]. unfold bind at 1. unfold bind at 1.
    rewrite insert_many_not_encodable by assumption. reflexivity.
  - cbn [app for_each foldl]. unfold bind at 1. unfold bind at 1.
    rewrite insert_many_up by assumption.
    apply (rejected_from_nil _ _ 0) in Hb'. rewrite Hb'. cbn. apply IH.
Qed.

Lemma foldl_after_insert_calls E coll bs : forall st,
  st_calls (foldl (after_insert E coll) st bs) = st_calls st ++ (InsertMany coll <$> bs).
Proof.
  induction bs as [|b bs IH]; intros st; cbn [foldl fmap list_fmap].
  - rewrite app_nil_r. reflexivity.
  - rewrite IH. cbn. rewrite <- app_assoc. reflexivity.
Qed.

Lemma foldl_after_insert_log E coll bs : forall st,
  st_log (foldl (after_insert E coll) st bs) = st_log st.
Proof. induction bs as [|b bs IH]; intros st; cbn [foldl]; [reflexivity | rewrite IH; reflexivity]. Qed.

Lemma foldl_after_insert_mysql E coll bs : forall st,
  st_mysql (foldl (after_insert E coll) st bs) = st_mysql st.
Proof. induction bs as [|b bs IH]; intros st; cbn [foldl]; [reflexivity | rewrite IH; reflexivity]. Qed.

Lemma foldl_after_insert_store E coll bs : forall st old,
  st_store st !! coll = Some old ->
  st_store (foldl (after_insert E coll) st bs) !! coll
  = Some (old ++ filter (fun d => mongo_rejects E coll d = false) (concat bs)).
Proof.
  induction bs as [|b bs IH]; intros st old Hold; cbn [foldl concat].
  - rewrite filter_nil, app_nil_r. exact Hold.
  - rewrite (IH _ (old ++ filter (fun d => mongo_rejects E coll d = false) b)).
    + rewrite filter_app, app_assoc. reflexivity.
    + cbn. rewrite Hold. cbn. apply lookup_insert_eq.
Qed.

Lemma foldl_after_insert_store_ne E coll bs other : forall st,
  other <> coll ->
  st_store (foldl (after_insert E coll) st bs) !! other = st_store st !! other.
Proof.
  induction bs as [|b bs IH]; intros st Hne; cbn [foldl]; [reflexivity|].
  rewrite IH by assumption. cbn. apply lookup_insert_ne. congruence.
Qed.

Lemma filter_all_accepted (rej : D -> bool) l :
  Forall (fun d => rej d = false) l -> filter (fun d => rej d = false) l = l.
Proof.
  induction 1 as [|d l Hd _ IH]; [reflexivity|].
  rewrite filter_cons. destruct (decide (rej d = false)); [rewrite IH; reflexivity | contradiction].
Qed.

(** When every document encodes and is accepted, so is every batch. *)
Lemma batches_all_ok E coll docs B :
  Forall (fun b => (Z.of_nat (length b) <= B)%Z /\ b <> []) (batches docs B) ->
  concat (batches docs B) = docs ->
  encodable docs -> Forall (fun d => mongo_rejects E coll d = false) docs ->
  Forall (fun b => b <> [] /\ encodable b /\
                   Forall (fun d => mongo_rejects E coll d = false) b) (batches docs B).
Proof.
  intros Hf Hc Henc Hacc. unfold encodable in *.
  rewrite <- Hc in Hacc, Henc. rewrite Forall_concat in Hacc, Henc.
  rewrite Forall_forall in *. intros b Hb.
  split; [apply Hf, Hb | split; [apply Henc, Hb | apply Hacc, Hb]].
Qed.

(** [load_collection] with documents, a positive batch size and the server
    up, in terms of its loop over the batches. *)
Lemma load_collection_loop E coll docs B st :
  mongo_up E = true -> (0 < B)%Z -> docs <> [] ->
  DBMigration.MongoLoader.load_collection E coll docs B st =
    try_except
      (for_each (fun b => insert_many E coll b ;;; ret tt) (batches docs B) ;;;
       log INFO "Loaded %d documents into collection '%s'" [ANat (length docs); AText coll])
      (fun exc =>
         match exc with
         | BulkWriteError _ => log ERROR "Bulk write error: %s" [AExn exc] ;;; raise exc
         | _ => log ERROR "Error loading documents into collection '%s': %s"
                  [AText coll; AExn exc] ;;; raise exc
         end)
      (after_delete coll st).
Proof.
  intros Hup HB Hne. unfold DBMigration.MongoLoader.load_collection.
  destruct docs as [|d docs]; [congruence|].
  unfold try_except at 1 2. unfold bind at 1, delete_many at 1. rewrite Hup.
  fold (after_delete coll st).
  unfold bind at 1. unfold lift_result, py_range.
  destruct (Z.eqb_spec B 0); [lia|].
  rewrite Z.sub_0_r, Z.abs_eq, Nat2Z.id by lia.
  unfold batches.
  rewrite <- (for_each_fmap (fun i => py_slice (d :: docs) i (i + B))
                (fun b => insert_many E coll b ;;; ret tt)).
  reflexivity.
Qed.
(** Every [insert_many] adds one call, whatever the server answers. *)
Lemma insert_many_calls E coll batch st :
  st_calls (insert_many E coll batch st).2 = st_calls st ++ [InsertMany coll batch].
Proof.
  unfold insert_many.
  destruct batch; [reflexivity|].
  destruct (mongo_up E); [destruct (forallb _ _); [destruct (rejected_from _ _ _)|]|]; reflexivity.
Qed.

(** In every run the loop has inserted the first batches, in order, and
    all of them if it returned. *)
Lemma for_each_insert_prefix E coll bs : forall st,
  exists n,
    n <= length bs /\
    st_calls (for_each (fun b => insert_many E coll b ;;; ret tt) bs st).2
    = st_calls st ++ (InsertMany coll <$> take n bs) /\
    ((for_each (fun b => insert_many E coll b ;;; ret tt) bs st).1 = Ok tt -> n = length bs).
Proof.
  induction bs as [|b bs IH]; intros st.
  - exists 0. cbn. rewrite app_nil_r. auto.
  - cbn [for_each].
    pose proof (insert_many_calls E coll b st) as Hc.
    destruct (insert_many E coll b st) as [[n0|e] st1] eqn:Hi; cbn [snd] in Hc.
    + assert (Hb : (insert_many E coll b ;;; ret tt) st = (Ok tt, st1))
        by (rewrite (bind_Ok _ _ _ _ _ Hi); reflexivity).
      rewrite (bind_Ok _ _ _ _ _ Hb).
      destruct (IH st1) as (n & Hn & Hcalls & Hok).
      exists (S n). split; [cbn; lia|]. split.
      * rewrite Hcalls, Hc. cbn. rewrite <- app_assoc. reflexivity.
      * intros H. cbn. f_equal. apply Hok, H.
    + rewrite (bind_Raise _ _ _ _ _ (bind_Raise _ _ _ _ _ Hi)).
      exists 1. split; [cbn; lia|]. split; [cbn; rewrite take_0; exact Hc | discriminate].
Qed.

Lemma load_collection_calls_prefix E coll docs B st :
  (0 < B)%Z ->
  exists n,
    n <= length (batches docs B) /\
    st_calls (DBMigration.MongoLoader.load_collection E coll docs B st).2
    = st_calls st ++ DeleteMany coll :: (InsertMany coll <$> take n (batches docs B)) /\
    ((DBMigration.MongoLoader.load_collection E coll docs B st).1 = Ok tt ->
     n = length (batches docs B)).
Proof.
  intros HB. destruct (mongo_up E) eqn:Hup.
  - destruct (decide (docs = [])) as [->|Hne].
    + exists 0. unfold DBMigration.MongoLoader.load_collection, try_except, bind, delete_many.
      rewrite Hup. cbn. auto.
    + rewrite load_collection_loop by assumption.
      destruct (for_each_insert_prefix E coll (batches docs B) (after_delete coll st))
        as (k & Hk & Hcalls & Hok).
      exists k. split; [exact Hk|].
      unfold try_except, bind.
      destruct (for_each _ (batches docs B) (after_delete coll st)) as [[[]|e] st1];
        cbn [fst snd] in *.
      * split; [|intros _; apply Hok; reflexivity].
        cbn. rewrite Hcalls. cbn. rewrite <- app_assoc. reflexivity.
      * split; [|destruct (is_Exception e), e; discriminate].
        destruct (is_Exception e), e; cbn; rewrite Hcalls; cbn;
          rewrite <- app_assoc; reflexivity.
  - exists 0. unfold DBMigration.MongoLoader.load_collection, try_except, bind, delete_many.
    rewrite Hup. cbn. rewrite take_0. split; [lia|]. split; [reflexivity | discriminate].
Qed.

End Loading.

(** C1 (as amended).  With an empty documents sequence [load_collection]
    issues exactly one [delete_many] on the named collection and no insert.
    When the delete succeeds the collection is left empty, nothing is logged
    and the call returns; when it fails the error is logged and raised
    again. *)
Theorem C1_load_collection_empty :
  forall (D : Type) (HB : Bson D) (E : env D) (coll : string) (batch_size : Z)
         (st : state D),
    let r := DBMigration.MongoLoader.load_collection E coll [] batch_size st in
    st_calls r.2 = st_calls st ++ [DeleteMany coll] /\
    st_mysql r.2 = st_mysql st /\
    if mongo_up E
    then r.1 = Ok tt /\ st_log r.2 = st_log st /\
         st_store r.2 = <[coll := []]> (st_store st)
    else r.1 = Raise PyMongoError /\ st_store r.2 = st_store st /\
         st_log r.2 = st_log st ++
           [LogRecord ERROR "Error loading documents into collection '%s': %s"
              [AText coll; AExn PyMongoError]].
Proof.
  intros D HB E coll B st.
  unfold DBMigration.MongoLoader.load_collection, try_except, bind, delete_many.
  destruct (mongo_up E); cbn; repeat split; reflexivity.
Qed.

(** C1 as stated fails: on a collection that holds documents, the call with
    no documents issues a delete and leaves the collection empty. *)
Lemma C1_counterexample :
  let st' := (DBMigration.MongoLoader.load_collection
                (sample_env (fun _ _ => false)) "employees" [] 1000 sample_state).2 in
  st_store sample_state !! "employees" = Some [7; 8]%nat /\
  st_calls st' = [DeleteMany "employees"] /\
  st_store st' !! "employees" = Some [] /\
  st_store st' !! "employees" <> st_store sample_state !! "employees".
Proof. vm_compute. repeat split; try reflexivity. discriminate. Qed.

(** C7 (as amended).  For a positive batch size the loop of
    [load_collection] runs over [ceil(D/B)] batches, each non-empty and of
    at most [B] documents, whose concatenation is the documents sequence.
    In every run the calls issued after the delete are one [insert_many]
    per batch for the first batches in order, so at most [ceil(D/B)] of
    them, and all of them if the call returns.  When the server is up, the
    client can encode every document and the server rejects none, the call
    returns: [ceil(D/B)] inserts are issued and the collection then holds
    the documents, each once. *)
Theorem C7_batch_partition :
  forall (D : Type) (HB : Bson D) (E : env D) (coll : string) (docs : list D) (B : Z)
         (st : state D),
    (0 < B)%Z ->
    Z.of_nat (length (batches docs B)) = ((Z.of_nat (length docs) + B - 1) / B)%Z /\
    Forall (fun b => (Z.of_nat (length b) <= B)%Z /\ b <> []) (batches docs B) /\
    concat (batches docs B) = docs /\
    (exists n,
       n <= length (batches docs B) /\
       st_calls (DBMigration.MongoLoader.load_collection E coll docs B st).2
       = st_calls st ++ DeleteMany coll :: (InsertMany coll <$> take n (batches docs B)) /\
       ((DBMigration.MongoLoader.load_collection E coll docs B st).1 = Ok tt ->
        n = length (batches docs B))) /\
    (mongo_up E = true -> encodable docs ->
     Forall (fun d => mongo_rejects E coll d = false) docs ->
     exists st',
       DBMigration.MongoLoader.load_collection E coll docs B st = (Ok tt, st') /\
       st_calls st' = st_calls st ++ DeleteMany coll :: (InsertMany coll <$> batches docs B) /\
       st_store st' !! coll = Some docs).
Proof.
  intros D HB E coll docs B st HpB.
  destruct (batches_spec docs B HpB) as (Hc & Hf & Hl).
  split; [exact Hl | split; [exact Hf | split; [exact Hc|]]].
  split; [apply load_collection_calls_prefix, HpB|].
  intros Hup Henc Hacc.
  destruct (decide (docs = [])) as [->|Hne].
  - eexists. split; [|split].
    + unfold DBMigration.MongoLoader.load_collection, try_except, bind, delete_many.
      rewrite Hup. reflexivity.
    + reflexivity.
    + cbn. apply lookup_insert_eq.
  - rewrite load_collection_loop by assumption.
    pose proof (batches_all_ok E coll docs B Hf Hc Henc Hacc) as Hbs.
    eexists. split; [|split].
    + unfold try_except, bind.
      rewrite (for_each_insert_ok E coll _ Hup Hbs). reflexivity.
    + cbn. rewrite foldl_after_insert_calls. cbn. rewrite <- app_assoc. reflexivity.
    + cbn. rewrite (foldl_after_insert_store E coll _ _ []).
      * rewrite Hc, filter_all_accepted by assumption. reflexivity.
      * cbn. apply lookup_insert_eq.
Qed.

(** Five documents in batches of two: three inserts. *)
Lemma C7_batch_partition_witness :
  Z.of_nat (length (batches [1; 2; 3; 4; 5]%nat 2)) = ((5 + 2 - 1) / 2)%Z /\
  exists st',
    DBMigration.MongoLoader.load_collection (sample_env (fun _ _ => false)) "employees"
      [1; 2; 3; 4; 5]%nat 2 sample_state = (Ok tt, st') /\
    st_calls st' = st_calls sample_state ++
      DeleteMany "employees" :: (InsertMany "employees" <$> batches [1; 2; 3; 4; 5]%nat 2) /\
    st_store st' !! "employees" = Some [1; 2; 3; 4; 5]%nat.
Proof.
  destruct (C7_batch_partition nat _ (sample_env (fun _ _ => false)) "employees"
              [1; 2; 3; 4; 5]%nat 2 sample_state ltac:(lia)) as (H1 & _ & _ & _ & H4).
  split; [exact H1|].
  apply H4; [reflexivity | repeat constructor | repeat constructor].
Defined.

(** C7 as stated fails: with five documents in batches of two and the
    third document rejected, [ceil(5/2)] is 3 but only two inserts are
    issued, and the fifth document is in no batch that is inserted. *)
Lemma C7_counterexample :
  let r := DBMigration.MongoLoader.load_collection
             (sample_env (fun _ d => Nat.eqb d 3)) "employees" [1; 2; 3; 4; 5]%nat 2
             sample_state in
  ((5 + 2 - 1) / 2 = 3)%Z /\
  st_calls r.2 = [DeleteMany "employees"; InsertMany "employees" [1; 2]%nat;
                  InsertMany "employees" [3; 4]%nat] /\
  st_store r.2 !! "employees" = Some [1; 2; 4]%nat.
Proof. vm_compute. repeat split; reflexivity. Qed.

(** ** The transformer of [DB_Migration/pipeline.py] *)

Section TransformEmployee.
Context {D : Type} `{!Bson D}.
Implicit Types st : state D.

Lemma any_step_refl st : any_step st st.
Proof. exact I. Qed.

Lemma any_step_trans (s1 s2 s3 : state D) : any_step s1 s2 -> any_step s2 s3 -> any_step s1 s3.
Proof. intros _ _. exact I. Qed.

Lemma safe_log (R : state D -> state D -> Prop) l msg args :
  (forall st, R st (logged l msg args st)) -> safe R (log l msg args).
Proof.
  intros HR st r st' H. inversion H; subst. split; [apply HR | discriminate].
Qed.

Lemma strptime_raises v e : strptime v = Raise e -> is_Exception e = true.
Proof.
  destruct v; cbn; try (intros [= <-]; reflexivity).
  destruct (strptime_ymd s); [discriminate | intros [= <-]; reflexivity].
Qed.

Lemma try_except_inv_Ok {A} (m : M D A) h st a st' :
  (forall e s, (h e s).1 = Raise e) ->
  try_except m h st = (Ok a, st') -> m st = (Ok a, st').
Proof.
  intros Hh. unfold try_except. destruct (m st) as [[a'|e] st1]; [auto|].
  destruct (is_Exception e); [|discriminate].
  intros H. specialize (Hh e st1). rewrite H in Hh. discriminate Hh.
Qed.

Lemma try_except_reraise {A} (m : M D A) l msg (args : exn -> list log_arg) st e st1 :
  m st = (Raise e, st1) -> is_Exception e = true ->
  try_except m (fun exc => log l msg (args exc) ;;; raise exc) st
  = (Raise e, logged l msg (args e) st1).
Proof. intros Hm He. unfold try_except. rewrite Hm, He. reflexivity. Qed.

Ltac safe_any :=
  repeat first
    [ apply safe_ret; exact any_step_refl
    | apply safe_raise; [exact any_step_refl | first [assumption | reflexivity]]
    | apply safe_getitem; exact any_step_refl
    | apply safe_log; intros; exact I
    | apply safe_lift_result; [exact any_step_refl | apply strptime_raises]
    | apply safe_bind; [exact any_step_trans | | intros ?]
    | apply safe_try_except; [exact any_step_trans | | intros ? ?]
    | apply safe_map_m; [exact any_step_refl | exact any_step_trans | intros ?]
    | match goal with
      | |- safe _ (match ?x with _ => _ end) => destruct x
      end ].

Ltac stateless_all :=
  repeat first
    [ apply stateless_ret | apply stateless_raise | apply stateless_getitem
    | apply stateless_log | apply stateless_lift_result
    | apply stateless_bind; [| intros ?]
    | apply stateless_try_except; [| intros ?]
    | apply stateless_map_m; intros ?
    | match goal with
      | |- stateless (match ?x with _ => _ end) => destruct x
      end ].

Lemma safe_convert_date v : safe (D:=D) any_step (DBMigration.DataTransformer.convert_date v).
Proof. unfold DBMigration.DataTransformer.convert_date. safe_any. Qed.

Lemma stateless_convert_date v : stateless (D:=D) (DBMigration.DataTransformer.convert_date v).
Proof. unfold DBMigration.DataTransformer.convert_date. stateless_all. Qed.

Lemma safe_transform_employee emp des dms sals tits lk :
  safe (D:=D) any_step (DBMigration.DataTransformer.transform_employee emp des dms sals tits lk).
Proof.
  unfold DBMigration.DataTransformer.transform_employee,
    DBMigration.DataTransformer.department_of, DBMigration.DataTransformer.salary_of,
    DBMigration.DataTransformer.title_of, DBMigration.DataTransformer.management_of.
  safe_any; apply safe_convert_date.
Qed.

Lemma stateless_management_of mgr :
  stateless (D:=D) (DBMigration.DataTransformer.management_of mgr).
Proof.
  unfold DBMigration.DataTransformer.management_of.
  stateless_all; apply stateless_convert_date.
Qed.

Lemma stateless_transform_employee emp des dms sals tits lk :
  stateless (D:=D) (DBMigration.DataTransformer.transform_employee emp des dms sals tits lk).
Proof.
  unfold DBMigration.DataTransformer.transform_employee,
    DBMigration.DataTransformer.department_of, DBMigration.DataTransformer.salary_of,
    DBMigration.DataTransformer.title_of, DBMigration.DataTransformer.management_of.
  stateless_all; apply stateless_convert_date.
Qed.
End TransformEmployee.

Section TransformEmployeeResults.
Context {D : Type} `{!Bson D}.
Implicit Types st : state D.

Lemma convert_date_ok v w st :
  converts_to v w -> DBMigration.DataTransformer.convert_date v st = (Ok w, st).
Proof.
  intros [[Hd ->] | (s & -> & Hs)].
  - apply convert_date_date, Hd.
  - apply convert_date_str, Hs.
Qed.

Lemma unknown_department_lookup (dept_no : pyval) :
  ({[ "dept_no" := dept_no; "dept_name" := PStr "Unknown" ]} : row) !! "dept_no" = Some dept_no /\
  ({[ "dept_no" := dept_no; "dept_name" := PStr "Unknown" ]} : row) !! "dept_name"
  = Some (PStr "Unknown").
Proof.
  split.
  - apply lookup_insert_eq.
  - rewrite lookup_insert_ne by discriminate. apply lookup_singleton_eq.
Qed.

Lemma department_of_unknown_inv (lk : gmap pyval row) de dept_no entry st st' :
  DBMigration.DataTransformer.department_of lk de st = (Ok entry, st') ->
  de !! "dept_no" = Some dept_no -> lk !! dept_no = None ->
  DBMigration.de_dept_no entry = dept_no /\
  DBMigration.de_dept_name entry = PStr "Unknown".
Proof.
  intros H Hde Hlk. unfold DBMigration.DataTransformer.department_of in H.
  rewrite (bind_Ok _ _ _ _ _ (getitem_Some _ _ _ _ Hde)) in H.
  rewrite Hlk in H. cbn [default] in H.
  destruct (unknown_department_lookup dept_no) as [H1 H2].
  rewrite (bind_Ok _ _ _ _ _ (getitem_Some _ _ _ _ H1)) in H.
  rewrite (bind_Ok _ _ _ _ _ (getitem_Some _ _ _ _ H2)) in H.
  repeat (apply bind_inv_Ok in H as (? & ? & _ & H)).
  inversion H; subst. split; reflexivity.
Qed.

Lemma department_of_unknown_ok (lk : gmap pyval row) de dept_no f t f' t' st :
  de !! "dept_no" = Some dept_no -> lk !! dept_no = None ->
  de !! "from_date" = Some f -> de !! "to_date" = Some t ->
  converts_to f f' -> converts_to t t' ->
  DBMigration.DataTransformer.department_of lk de st
  = (Ok (DBMigration.DepartmentEntry dept_no (PStr "Unknown") f' t'), st).
Proof.
  intros Hde Hlk Hf Ht Hf' Ht'. unfold DBMigration.DataTransformer.department_of.
  rewrite (bind_Ok _ _ _ _ _ (getitem_Some _ _ _ _ Hde)).
  rewrite Hlk. cbn [default].
  destruct (unknown_department_lookup dept_no) as [H1 H2].
  rewrite (bind_Ok _ _ _ _ _ (getitem_Some _ _ _ _ H1)).
  rewrite (bind_Ok _ _ _ _ _ (getitem_Some _ _ _ _ H2)).
  rewrite (bind_Ok _ _ _ _ _ (getitem_Some _ _ _ _ Hf)).
  rewrite (bind_Ok _ _ _ _ _ (convert_date_ok _ _ _ Hf')).
  rewrite (bind_Ok _ _ _ _ _ (getitem_Some _ _ _ _ Ht)).
  rewrite (bind_Ok _ _ _ _ _ (convert_date_ok _ _ _ Ht')).
  reflexivity.
Qed.

(** What a document returned by [transform_employee] is made of. *)
Lemma transform_employee_inv_Ok emp des dms sals tits lk st doc st' :
  DBMigration.DataTransformer.transform_employee emp des dms sals tits lk st = (Ok doc, st') ->
  emp !! "emp_no" = Some (DBMigration.doc_emp_no doc) /\
  (exists s1 s2 : state D, map_m (DBMigration.DataTransformer.department_of lk) des s1
                 = (Ok (DBMigration.doc_departments doc), s2)) /\
  (exists s1 s2 : state D, map_m DBMigration.DataTransformer.salary_of sals s1
                 = (Ok (DBMigration.doc_salaries doc), s2)) /\
  (exists s1 s2 : state D, map_m DBMigration.DataTransformer.title_of tits s1
                 = (Ok (DBMigration.doc_titles doc), s2)) /\
  match dms with
  | [] => DBMigration.doc_management doc = None
  | mgr :: _ =>
      exists me (s1 s2 : state D),
        DBMigration.DataTransformer.management_of mgr s1 = (Ok me, s2) /\
        DBMigration.doc_management doc = Some me
  end.
Proof.
  intros H. unfold DBMigration.DataTransformer.transform_employee in H.
  apply try_except_inv_Ok in H; [|reflexivity].
  apply bind_inv_Ok in H as (n & s1 & Hn & H). apply getitem_inv_Ok in Hn as [Hn _].
  do 7 (apply bind_inv_Ok in H as (? & ? & _ & H)).
  apply bind_inv_Ok in H as (deps & s2 & Hdeps & H).
  apply bind_inv_Ok in H as (ss & s3 & Hss & H).
  apply bind_inv_Ok in H as (ts & s4 & Hts & H).
  apply bind_inv_Ok in H as (mg & s5 & Hmg & H).
  inversion H; subst. cbn.
  split; [exact Hn|]. split; [eauto|]. split; [eauto|]. split; [eauto|].
  destruct dms as [|mgr dms].
  - inversion Hmg. reflexivity.
  - apply bind_inv_Ok in Hmg as (me & s6 & Hme & Hmg). inversion Hmg; subst. eauto.
Qed.
(** The index built by [setdefault(...).append(...)] lists, under each
    [emp_no], the rows with that [emp_no] in source order. *)
Lemma index_by_emp_fold records : forall (idx0 idx : gmap pyval (list row)) st st',
  fold_m (fun idx record =>
            emp_no <- getitem record "emp_no" ;;
            ret (<[emp_no := default [] (idx !! emp_no) ++ [record]]> idx))
         records idx0 st = (Ok idx, st') ->
  forall n, default [] (idx !! n)
            = default [] (idx0 !! n) ++ filter (fun r : row => r !! "emp_no" = Some n) records.
Proof.
  induction records as [|r records IH]; intros idx0 idx st st' H n.
  - inversion H; subst. rewrite filter_nil, app_nil_r. reflexivity.
  - cbn [fold_m] in H. apply bind_inv_Ok in H as (idx1 & st1 & H1 & H).
    apply bind_inv_Ok in H1 as (k & st2 & Hk & H1). apply getitem_inv_Ok in Hk as [Hk _].
    inversion H1; subst idx1 st1. rewrite (IH _ _ _ _ H n). rewrite filter_cons.
    destruct (decide (r !! "emp_no" = Some n)) as [Heq|Hne].
    + assert (k = n) by congruence. subst k. rewrite lookup_insert_eq. cbn.
      rewrite <- app_assoc. reflexivity.
    + rewrite lookup_insert_ne by congruence. reflexivity.
Qed.

Lemma index_by_emp_spec records (idx : gmap pyval (list row)) st st' :
  DBMigration.index_by_emp records st = (Ok idx, st') ->
  forall n, default [] (idx !! n) = filter (fun r : row => r !! "emp_no" = Some n) records.
Proof.
  intros H n. unfold DBMigration.index_by_emp in H.
  rewrite (index_by_emp_fold records ∅ idx st st' H n). rewrite lookup_empty. reflexivity.
Qed.

(** What [management_of] returns: the row's [dept_no] and its two dates
    converted. *)
Lemma management_of_inv_Ok mgr entry st st' :
  DBMigration.DataTransformer.management_of mgr st = (Ok entry, st') ->
  mgr !! "dept_no" = Some (DBMigration.me_dept_no entry) /\
  (exists f, mgr !! "from_date" = Some f /\ converts_to f (DBMigration.me_from_date entry)) /\
  (exists t, mgr !! "to_date" = Some t /\ converts_to t (DBMigration.me_to_date entry)).
Proof.
  unfold DBMigration.DataTransformer.management_of. intros H.
  apply bind_inv_Ok in H as (v & s1 & Hv & H). apply getitem_inv_Ok in Hv as [Hv ->].
  apply bind_inv_Ok in H as (f & s2 & Hf & H). apply getitem_inv_Ok in Hf as [Hf ->].
  apply bind_inv_Ok in H as (f' & s3 & Hf' & H). apply convert_date_inv_Ok in Hf' as [-> Hf'].
  apply bind_inv_Ok in H as (t & s4 & Ht & H). apply getitem_inv_Ok in Ht as [Ht ->].
  apply bind_inv_Ok in H as (t' & s5 & Ht' & H). apply convert_date_inv_Ok in Ht' as [-> Ht'].
  inversion H; subst. cbn. eauto 10.
Qed.

Lemma management_of_ok mgr dept_no f t f' t' st :
  mgr !! "dept_no" = Some dept_no ->
  mgr !! "from_date" = Some f -> mgr !! "to_date" = Some t ->
  converts_to f f' -> converts_to t t' ->
  DBMigration.DataTransformer.management_of mgr st
  = (Ok (DBMigration.ManagementEntry dept_no f' t'), st).
Proof.
  intros Hd Hf Ht Hf' Ht'. unfold DBMigration.DataTransformer.management_of.
  rewrite (bind_Ok _ _ _ _ _ (getitem_Some _ _ _ _ Hd)).
  rewrite (bind_Ok _ _ _ _ _ (getitem_Some _ _ _ _ Hf)).
  rewrite (bind_Ok _ _ _ _ _ (convert_date_ok _ _ _ Hf')).
  rewrite (bind_Ok _ _ _ _ _ (getitem_Some _ _ _ _ Ht)).
  rewrite (bind_Ok _ _ _ _ _ (convert_date_ok _ _ _ Ht')).
  reflexivity.
Qed.
End TransformEmployeeResults.

(** C5.  When an employee has two or more [dept_manager] rows,
    [transform_employee] behaves as if only the first were given, and the
    [management] field of the document it returns is the mapping of that
    first row: it carries the row's [dept_no] and the row's [from_date] and
    [to_date] converted.  Mapping a row succeeds, with exactly these three
    values, whenever its two dates convert.  The list that [main] passes
    for an employee holds the rows of the employee in source order, so the
    first row is the first in source iteration order. *)
Theorem C5_first_manager_wins :
  forall (D : Type) (employee : row) (dept_emps dept_managers salaries titles : list row)
         (departments_lookup : gmap pyval row) (mgr : row) (st : state D),
    2 <= length dept_managers ->
    dept_managers !! 0 = Some mgr ->
    (DBMigration.DataTransformer.transform_employee employee dept_emps dept_managers
       salaries titles departments_lookup st
     = DBMigration.DataTransformer.transform_employee employee dept_emps [mgr]
         salaries titles departments_lookup st) /\
    (forall doc st',
      DBMigration.DataTransformer.transform_employee employee dept_emps dept_managers
        salaries titles departments_lookup st = (Ok doc, st') ->
      exists me,
        pure_of (D:=D) (DBMigration.DataTransformer.management_of mgr) = Ok me /\
        DBMigration.doc_management doc = Some me /\
        mgr !! "dept_no" = Some (DBMigration.me_dept_no me) /\
        (exists f, mgr !! "from_date" = Some f /\
                   converts_to f (DBMigration.me_from_date me)) /\
        (exists t, mgr !! "to_date" = Some t /\
                   converts_to t (DBMigration.me_to_date me))) /\
    (forall dept_no f t f' t',
       mgr !! "dept_no" = Some dept_no ->
       mgr !! "from_date" = Some f -> mgr !! "to_date" = Some t ->
       converts_to f f' -> converts_to t t' ->
       DBMigration.DataTransformer.management_of mgr st
       = (Ok (DBMigration.ManagementEntry dept_no f' t'), st)) /\
    (forall (dept_manager : list row) (dept_manager_by_emp : gmap pyval (list row))
            (st0 st1 : state D),
       DBMigration.index_by_emp dept_manager st0 = (Ok dept_manager_by_emp, st1) ->
       forall emp_no,
         default [] (dept_manager_by_emp !! emp_no)
         = filter (fun r : row => r !! "emp_no" = Some emp_no) dept_manager).
Proof.
  intros D employee des dms sals tits lk mgr st Hlen Hhd.
  destruct dms as [|m dms]; [discriminate Hhd|]. inversion Hhd; subst m.
  split; [reflexivity|]. split; [|split].
  - intros doc st' H. apply transform_employee_inv_Ok in H as (_ & _ & _ & _ & Hm).
    destruct Hm as (me & s1 & s2 & Hme & Hdoc). exists me.
    split; [rewrite <- (stateless_management_of mgr s1), Hme; reflexivity|].
    split; [exact Hdoc|]. eapply management_of_inv_Ok, Hme.
  - intros dept_no f t f' t'. apply management_of_ok.
  - intros records idx st0 st1. apply index_by_emp_spec.
Qed.

(** C6.  In a document returned by [transform_employee] there is one
    departments entry per [dept_emp] row, at the same position; the entry of
    a row whose [dept_no] is absent from the department lookup carries that
    [dept_no] and the name "Unknown".  Mapping such a row succeeds whenever
    its two dates convert. *)
Theorem C6_unknown_department :
  forall (D : Type) (employee : row) (dept_emps dept_managers salaries titles : list row)
         (departments_lookup : gmap pyval row) (st : state D),
    (forall doc st',
       DBMigration.DataTransformer.transform_employee employee dept_emps dept_managers
         salaries titles departments_lookup st = (Ok doc, st') ->
       length (DBMigration.doc_departments doc) = length dept_emps /\
       forall i de dept_no,
         dept_emps !! i = Some de -> de !! "dept_no" = Some dept_no ->
         departments_lookup !! dept_no = None ->
         exists entry,
           DBMigration.doc_departments doc !! i = Some entry /\
           DBMigration.de_dept_no entry = dept_no /\
           DBMigration.de_dept_name entry = PStr "Unknown") /\
    (forall de dept_no f t f' t',
       de !! "dept_no" = Some dept_no -> departments_lookup !! dept_no = None ->
       de !! "from_date" = Some f -> de !! "to_date" = Some t ->
       converts_to f f' -> converts_to t t' ->
       DBMigration.DataTransformer.department_of departments_lookup de st
       = (Ok (DBMigration.DepartmentEntry dept_no (PStr "Unknown") f' t'), st)).
Proof.
  intros D employee des dms sals tits lk st. split.
  - intros doc st' H. apply transform_employee_inv_Ok in H as (_ & (s1 & s2 & Hd) & _).
    apply map_m_inv_Ok in Hd as [Hlen Hall]. split; [exact Hlen|].
    intros i de dept_no Hi Hde Hlk.
    destruct (Hall i de Hi) as (entry & t1 & t2 & Hentry & Hlook).
    exists entry. split; [exact Hlook|].
    eapply department_of_unknown_inv; eassumption.
  - intros de dept_no f t f' t'. apply department_of_unknown_ok.
Qed.

(** An employee with two management rows: the management of the document
    is the one of department [d001], from the first row. *)
Lemma C5_first_manager_wins_witness :
  exists doc,
    (DBMigration.DataTransformer.transform_employee (D:=unit)
       (sample_employee 1 (PDate 1960 1 1)) []
       [sample_interval 1 "d001" (PDate 1991 1 1) (PDate 1995 1 1);
        sample_interval 1 "d002" (PDate 1996 1 1) (PDate 1999 1 1)]
       [] [] ∅ init_state).1 = Ok doc /\
    DBMigration.doc_management doc
    = Some (DBMigration.ManagementEntry (PStr "d001") (PDate 1991 1 1) (PDate 1995 1 1)).
Proof.
  destruct (C5_first_manager_wins unit (sample_employee 1 (PDate 1960 1 1)) []
              [sample_interval 1 "d001" (PDate 1991 1 1) (PDate 1995 1 1);
               sample_interval 1 "d002" (PDate 1996 1 1) (PDate 1999 1 1)]
              [] [] ∅ (sample_interval 1 "d001" (PDate 1991 1 1) (PDate 1995 1 1))
              init_state ltac:(cbn; lia) eq_refl) as (_ & H & Hval & _).
  edestruct H as (me & H1 & H2 & _); [vm_compute; reflexivity|].
  eexists. split; [vm_compute; reflexivity|]. rewrite H2. f_equal.
  assert (Hme : pure_of (D:=unit)
                  (DBMigration.DataTransformer.management_of
                     (sample_interval 1 "d001" (PDate 1991 1 1) (PDate 1995 1 1)))
                = Ok (DBMigration.ManagementEntry (PStr "d001") (PDate 1991 1 1)
                        (PDate 1995 1 1))).
  { unfold pure_of.
    rewrite (Hval (PStr "d001") (PDate 1991 1 1) (PDate 1995 1 1) (PDate 1991 1 1)
               (PDate 1995 1 1) eq_refl eq_refl eq_refl
               ltac:(left; split; reflexivity) ltac:(left; split; reflexivity)).
    reflexivity. }
  rewrite Hme in H1. injection H1 as <-. reflexivity.
Defined.

(** An assignment to a department that the lookup does not know. *)
Lemma C6_unknown_department_witness :
  exists doc entry,
    (DBMigration.DataTransformer.transform_employee (D:=unit)
       (sample_employee 1 (PDate 1960 1 1))
       [sample_interval 1 "d009" (PDate 1991 1 1) (PDate 1995 1 1)]
       [] [] [] ∅ init_state).1 = Ok doc /\
    DBMigration.doc_departments doc !! 0 = Some entry /\
    DBMigration.de_dept_no entry = PStr "d009" /\
    DBMigration.de_dept_name entry = PStr "Unknown".
Proof.
  destruct (C6_unknown_department unit (sample_employee 1 (PDate 1960 1 1))
              [sample_interval 1 "d009" (PDate 1991 1 1) (PDate 1995 1 1)]
              [] [] [] ∅ init_state) as [H _].
  edestruct H as [_ H']; [vm_compute; reflexivity|].
  destruct (H' 0 (sample_interval 1 "d009" (PDate 1991 1 1) (PDate 1995 1 1)) (PStr "d009")
              eq_refl ltac:(vm_compute; reflexivity) ltac:(apply lookup_empty))
    as (entry & H1 & H2 & H3).
  eexists _, entry. split; [vm_compute; reflexivity | auto].
Defined.

(** ** The aggregation loop of [main] *)

Section Aggregate.
Context {D : Type} `{!Bson D}.
Implicit Types st : state D.
Variables dept_emp_by_emp dept_manager_by_emp salaries_by_emp titles_by_emp
  : gmap pyval (list row).
Variable departments_lookup : gmap pyval row.

Local Abbreviation step :=
  (DBMigration.aggregate_step (D:=D) dept_emp_by_emp dept_manager_by_emp salaries_by_emp
     titles_by_emp departments_lookup).
Local Abbreviation transform_of emp emp_no :=
  (DBMigration.DataTransformer.transform_employee (D:=D) emp
     (default [] (dept_emp_by_emp !! emp_no))
     (default [] (dept_manager_by_emp !! emp_no))
     (default [] (salaries_by_emp !! emp_no))
     (default [] (titles_by_emp !! emp_no))
     departments_lookup).

Lemma aggregate_step_Ok acc emp emp_no doc st st1 :
  emp !! "emp_no" = Some emp_no ->
  transform_of emp emp_no st = (Ok doc, st1) ->
  step acc emp st = (Ok (acc ++ [doc]), st1).
Proof.
  intros Hn Ht. unfold DBMigration.aggregate_step.
  rewrite (bind_Ok _ _ _ _ _ (getitem_Some _ _ _ _ Hn)).
  unfold try_except. rewrite (bind_Ok _ _ _ _ _ Ht). reflexivity.
Qed.

Lemma aggregate_step_Raise acc emp emp_no e st st1 :
  emp !! "emp_no" = Some emp_no ->
  transform_of emp emp_no st = (Raise e, st1) ->
  step acc emp st
  = (Ok acc, logged ERROR "Skipping employee %s due to transformation error."
               [AVal emp_no] st1).
Proof.
  intros Hn Ht. unfold DBMigration.aggregate_step.
  rewrite (bind_Ok _ _ _ _ _ (getitem_Some _ _ _ _ Hn)).
  destruct (safe_transform_employee _ _ _ _ _ _ _ _ _ Ht) as [_ He].
  unfold try_except. rewrite (bind_Raise _ _ _ _ _ Ht), (He e eq_refl). reflexivity.
Qed.

Lemma aggregate_step_pure acc emp st :
  is_Some (emp !! "emp_no") ->
  exists st',
    step acc emp st
    = (Ok (acc ++ option_list
             (aggregated_doc (D:=D) dept_emp_by_emp dept_manager_by_emp salaries_by_emp
                titles_by_emp departments_lookup emp)), st').
Proof.
  intros [emp_no Hn]. unfold aggregated_doc. rewrite Hn.
  rewrite <- (stateless_transform_employee _ _ _ _ _ _ st).
  destruct (transform_of emp emp_no st) as [[doc|e] st1] eqn:Ht; cbn [fst option_list].
  - eexists. eapply aggregate_step_Ok; eassumption.
  - eexists. rewrite app_nil_r. eapply aggregate_step_Raise; eassumption.
Qed.

Lemma aggregate_fold_pure emps : forall acc st,
  Forall (fun emp : row => is_Some (emp !! "emp_no")) emps ->
  exists st',
    fold_m step emps acc st
    = (Ok (acc ++ omap (aggregated_doc (D:=D) dept_emp_by_emp dept_manager_by_emp
                          salaries_by_emp titles_by_emp departments_lookup) emps), st').
Proof.
  induction emps as [|emp emps IH]; intros acc st Hall; cbn [fold_m omap].
  - exists st. rewrite app_nil_r. reflexivity.
  - inversion Hall as [|? ? Hemp Hrest]; subst.
    destruct (aggregate_step_pure acc emp st Hemp) as [st1 H1].
    rewrite (bind_Ok _ _ _ _ _ H1).
    destruct (IH (acc ++ option_list (aggregated_doc (D:=D) dept_emp_by_emp dept_manager_by_emp
                          salaries_by_emp titles_by_emp departments_lookup emp)) st1 Hrest)
      as [st' H']. exists st'. rewrite H'. f_equal. f_equal. rewrite <- app_assoc. f_equal.
    cbn -[aggregated_doc]. destruct (aggregated_doc _ _ _ _ _ emp); reflexivity.
Qed.

Lemma transform_employee_bad_birth_date emp des dms sals tits s st emp_no :
  emp !! "emp_no" = Some emp_no ->
  emp !! "birth_date" = Some (PStr s) -> strptime_ymd s = None ->
  exists st1,
    DBMigration.DataTransformer.transform_employee (D:=D) emp des dms sals tits
      departments_lookup st = (Raise ValueError, st1).
Proof.
  intros Hn Hb Hs. unfold DBMigration.DataTransformer.transform_employee.
  eexists. apply try_except_reraise with (args := fun exc => [_; AExn exc]); [|reflexivity].
  rewrite (bind_Ok _ _ _ _ _ (getitem_Some _ _ _ _ Hn)).
  rewrite (bind_Ok _ _ _ _ _ (getitem_Some _ _ _ _ Hb)).
  apply bind_Raise.
  unfold DBMigration.DataTransformer.convert_date.
  apply try_except_reraise with (args := fun exc => [_; AExn exc]); [|reflexivity].
  cbn. unfold lift_result. rewrite Hs. reflexivity.
Qed.

Lemma transform_employee_no_children emp n b f l g h b' h' st :
  emp !! "emp_no" = Some n -> emp !! "birth_date" = Some b ->
  emp !! "first_name" = Some f -> emp !! "last_name" = Some l ->
  emp !! "gender" = Some g -> emp !! "hire_date" = Some h ->
  converts_to b b' -> converts_to h h' ->
  DBMigration.DataTransformer.transform_employee (D:=D) emp [] [] [] [] departments_lookup st
  = (Ok (DBMigration.EmpDoc n b' f l g h' [] [] [] None), st).
Proof.
  intros Hn Hb Hf Hl Hg Hh Hb' Hh'.
  unfold DBMigration.DataTransformer.transform_employee.
  apply try_except_Ok.
  rewrite (bind_Ok _ _ _ _ _ (getitem_Some _ _ _ _ Hn)).
  rewrite (bind_Ok _ _ _ _ _ (getitem_Some _ _ _ _ Hb)).
  rewrite (bind_Ok _ _ _ _ _ (convert_date_ok _ _ _ Hb')).
  rewrite (bind_Ok _ _ _ _ _ (getitem_Some _ _ _ _ Hf)).
  rewrite (bind_Ok _ _ _ _ _ (getitem_Some _ _ _ _ Hl)).
  rewrite (bind_Ok _ _ _ _ _ (getitem_Some _ _ _ _ Hg)).
  rewrite (bind_Ok _ _ _ _ _ (getitem_Some _ _ _ _ Hh)).
  rewrite (bind_Ok _ _ _ _ _ (convert_date_ok _ _ _ Hh')).
  reflexivity.
Qed.
End Aggregate.

(** C4 (as amended).  When the transformation of an employee row raises,
    the loop of [main] logs "Skipping employee ..." at level ERROR, appends
    no document for that row, and goes on with the remaining rows exactly as
    it would without it.  A [birth_date] string that [strptime] rejects makes
    the transformation raise [ValueError]. *)
Theorem C4_failed_row_is_skipped :
  forall (D : Type)
         (dept_emp_by_emp dept_manager_by_emp salaries_by_emp titles_by_emp : gmap pyval (list row))
         (departments_lookup : gmap pyval row)
         (acc : list DBMigration.emp_doc) (emp : row) (rest : list row)
         (emp_no : pyval) (st : state D),
    emp !! "emp_no" = Some emp_no ->
    (forall e st1,
       DBMigration.DataTransformer.transform_employee emp
         (default [] (dept_emp_by_emp !! emp_no))
         (default [] (dept_manager_by_emp !! emp_no))
         (default [] (salaries_by_emp !! emp_no))
         (default [] (titles_by_emp !! emp_no))
         departments_lookup st = (Raise e, st1) ->
       let st2 := logged ERROR "Skipping employee %s due to transformation error."
                    [AVal emp_no] st1 in
       DBMigration.aggregate_step dept_emp_by_emp dept_manager_by_emp salaries_by_emp
         titles_by_emp departments_lookup acc emp st = (Ok acc, st2) /\
       fold_m (DBMigration.aggregate_step dept_emp_by_emp dept_manager_by_emp
                 salaries_by_emp titles_by_emp departments_lookup) (emp :: rest) acc st
       = fold_m (DBMigration.aggregate_step dept_emp_by_emp dept_manager_by_emp
                   salaries_by_emp titles_by_emp departments_lookup) rest acc st2) /\
    (forall s,
       emp !! "birth_date" = Some (PStr s) -> strptime_ymd s = None ->
       exists st1,
         DBMigration.DataTransformer.transform_employee emp
           (default [] (dept_emp_by_emp !! emp_no))
           (default [] (dept_manager_by_emp !! emp_no))
           (default [] (salaries_by_emp !! emp_no))
           (default [] (titles_by_emp !! emp_no))
           departments_lookup st = (Raise ValueError, st1)).
Proof.
  intros D de dm sal tit lk acc emp rest emp_no st Hn. split.
  - intros e st1 Ht st2.
    pose proof (aggregate_step_Raise de dm sal tit lk acc emp emp_no e st st1 Hn Ht) as Hs.
    split; [exact Hs|]. cbn [fold_m]. apply (bind_Ok _ _ _ _ _ Hs).
  - intros s Hb Hs. eapply transform_employee_bad_birth_date; eassumption.
Qed.

(** An employee whose [birth_date] is "not-a-date", followed by a good one:
    only the second has a document. *)
Lemma C4_failed_row_is_skipped_witness :
  exists doc st',
    DBMigration.aggregate (D:=unit)
      [sample_employee 1 (PStr "not-a-date"); sample_employee 2 (PDate 1960 1 1)]
      ∅ ∅ ∅ ∅ ∅ init_state = (Ok [doc], st') /\
    DBMigration.doc_emp_no doc = PInt 2.
Proof.
  destruct (C4_failed_row_is_skipped unit ∅ ∅ ∅ ∅ ∅ []
              (sample_employee 1 (PStr "not-a-date")) [sample_employee 2 (PDate 1960 1 1)]
              (PInt 1) init_state ltac:(vm_compute; reflexivity)) as [H1 H2].
  destruct (H2 "not-a-date" ltac:(vm_compute; reflexivity) ltac:(vm_compute; reflexivity))
    as [st1 Hr].
  destruct (H1 _ _ Hr) as [_ Hfold].
  unfold DBMigration.aggregate. rewrite Hfold.
  eexists _, _. split; [vm_compute; reflexivity | reflexivity].
Defined.

(** C4 as stated fails on the level of the log record: the skipped row is
    reported at level ERROR, and nothing is logged at level WARNING. *)
Lemma C4_counterexample :
  let r := DBMigration.aggregate (D:=unit)
             [sample_employee 1 (PStr "not-a-date"); sample_employee 2 (PDate 1960 1 1)]
             ∅ ∅ ∅ ∅ ∅ init_state in
  match r.1 with
  | Ok docs => DBMigration.doc_emp_no <$> docs = [PInt 2]
  | Raise _ => False
  end /\
  lr_level <$> st_log r.2 = [ERROR; ERROR; ERROR] /\
  last (st_log r.2)
  = Some (LogRecord ERROR "Skipping employee %s due to transformation error." [AVal (PInt 1)]).
Proof. vm_compute. repeat split; reflexivity. Qed.

(** C8 (as amended).  For an employee row that has its six columns, whose
    [birth_date] and [hire_date] convert, and that has no child rows in any
    of the four indexes, the loop of [main] appends a document with empty
    [departments], [salaries] and [titles] and no [management], and logs
    nothing. *)
Theorem C8_no_child_rows :
  forall (D : Type)
         (dept_emp_by_emp dept_manager_by_emp salaries_by_emp titles_by_emp : gmap pyval (list row))
         (departments_lookup : gmap pyval row)
         (acc : list DBMigration.emp_doc) (emp : row) (st : state D)
         (n b f l g h b' h' : pyval),
    emp !! "emp_no" = Some n -> emp !! "birth_date" = Some b ->
    emp !! "first_name" = Some f -> emp !! "last_name" = Some l ->
    emp !! "gender" = Some g -> emp !! "hire_date" = Some h ->
    converts_to b b' -> converts_to h h' ->
    default [] (dept_emp_by_emp !! n) = [] ->
    default [] (dept_manager_by_emp !! n) = [] ->
    default [] (salaries_by_emp !! n) = [] ->
    default [] (titles_by_emp !! n) = [] ->
    DBMigration.aggregate_step dept_emp_by_emp dept_manager_by_emp salaries_by_emp
      titles_by_emp departments_lookup acc emp st
    = (Ok (acc ++ [DBMigration.EmpDoc n b' f l g h' [] [] [] None]), st).
Proof.
  intros D de dm sal tit lk acc emp st n b f l g h b' h'
    Hn Hb Hf Hl Hg Hh Hb' Hh' Hde Hdm Hsal Htit.
  apply (aggregate_step_Ok de dm sal tit lk acc emp n _ st st Hn).
  rewrite Hde, Hdm, Hsal, Htit.
  eapply transform_employee_no_children; eassumption.
Qed.

(** An employee without child rows, in indexes that hold rows of another
    employee. *)
Lemma C8_no_child_rows_witness :
  DBMigration.aggregate_step (D:=unit)
    {[ PInt 2 := [sample_interval 2 "d001" (PDate 1991 1 1) (PDate 1995 1 1)] ]} ∅ ∅ ∅ ∅
    [] (sample_employee 1 (PDate 1960 1 1)) init_state
  = (Ok [DBMigration.EmpDoc (PInt 1) (PDate 1960 1 1) (PStr "Ann") (PStr "Lee") (PStr "F")
           (PDateTime 1990 5 1 0 0 0) [] [] [] None], init_state).
Proof.
  apply (C8_no_child_rows unit _ ∅ ∅ ∅ ∅ [] (sample_employee 1 (PDate 1960 1 1)) init_state
           (PInt 1) (PDate 1960 1 1) (PStr "Ann") (PStr "Lee") (PStr "F") (PStr "1990-05-01")
           (PDate 1960 1 1) (PDateTime 1990 5 1 0 0 0));
    try (vm_compute; reflexivity).
  - left. split; reflexivity.
  - right. exists "1990-05-01". split; [reflexivity | vm_compute; reflexivity].
Defined.

(** C8 as stated fails: an employee row without child rows whose
    [birth_date] does not convert gets no document. *)
Lemma C8_counterexample :
  (DBMigration.aggregate (D:=unit) [sample_employee 1 (PStr "not-a-date")]
     ∅ ∅ ∅ ∅ ∅ init_state).1 = Ok [].
Proof. vm_compute. reflexivity. Qed.

(** ** The employee dictionary of [ETLPipeline] *)

Section Dict.
Context {V : Type}.
Implicit Types d : list (pyval * V).

Lemma dict_get_set k v d k' :
  Pipeline.dict_get k' (Pipeline.dict_set k v d)
  = if decide (k' = k) then Some v else Pipeline.dict_get k' d.
Proof.
  induction d as [|[k0 v0] d IH]; cbn.
  - destruct (decide (k' = k)); reflexivity.
  - destruct (decide (k = k0)) as [->|Hne]; cbn.
    + destruct (decide (k' = k0)); reflexivity.
    + destruct (decide (k' = k0)) as [->|Hne'].
      * destruct (decide (k0 = k)); [congruence | reflexivity].
      * exact IH.
Qed.

Lemma dict_set_keys k v d :
  (Pipeline.dict_set k v d).*1 = if decide (k ∈ d.*1) then d.*1 else d.*1 ++ [k].
Proof.
  induction d as [|[k0 v0] d IH]; cbn.
  - destruct (decide (k ∈ [])) as [H|_]; [inversion H | reflexivity].
  - destruct (decide (k = k0)) as [->|Hne]; cbn.
    + destruct (decide (k0 ∈ k0 :: d.*1)) as [_|H]; [reflexivity|].
      exfalso. apply H. left.
    + rewrite IH. destruct (decide (k ∈ d.*1)) as [Hin|Hnin].
      * destruct (decide (k ∈ k0 :: d.*1)) as [_|H]; [reflexivity|].
        exfalso. apply H. right. exact Hin.
      * destruct (decide (k ∈ k0 :: d.*1)) as [H|_]; [|reflexivity].
        apply elem_of_cons in H as [?|?]; congruence.
Qed.

Lemma dict_update_keys k (f : V -> V) d : (Pipeline.dict_update k f d).*1 = d.*1.
Proof.
  induction d as [|[k0 v0] d IH]; cbn; [reflexivity|].
  destruct (decide (k = k0)); cbn; [reflexivity | rewrite IH; reflexivity].
Qed.

Lemma dict_get_elem_of k v d :
  NoDup d.*1 -> (k, v) ∈ d -> Pipeline.dict_get k d = Some v.
Proof.
  induction d as [|[k0 v0] d IH]; cbn; intros Hnd Hin.
  - inversion Hin.
  - apply NoDup_cons in Hnd as [Hk0 Hnd].
    apply elem_of_cons in Hin as [[= -> ->]|Hin].
    + destruct (decide (k0 = k0)); [reflexivity | congruence].
    + destruct (decide (k = k0)) as [->|Hne]; [|apply IH; assumption].
      exfalso. apply Hk0. apply list_elem_of_fmap. exists (k0, v). split; [reflexivity | exact Hin].
Qed.
End Dict.

Section NeverRaises.
Context {D : Type} `{!Bson D}.
Implicit Types st : state D.

Lemma never_raises_ret {A} (a : A) : never_raises (D:=D) (ret a).
Proof. intros st. exists a, st. reflexivity. Qed.

Lemma never_raises_log l msg args : never_raises (D:=D) (log l msg args).
Proof. intros st. eexists _, _. reflexivity. Qed.

Lemma never_raises_bind {A B} (m : M D A) (f : A -> M D B) :
  never_raises m -> (forall a, never_raises (f a)) -> never_raises (bind m f).
Proof.
  intros Hm Hf st. destruct (Hm st) as (a & st1 & H1).
  destruct (Hf a st1) as (b & st2 & H2). exists b, st2.
  rewrite (bind_Ok _ _ _ _ _ H1). exact H2.
Qed.

Lemma never_raises_fold_m {A S} (step : S -> A -> M D S) l :
  (forall acc x, never_raises (step acc x)) -> forall acc, never_raises (fold_m step l acc).
Proof.
  intros Hs. induction l as [|x l IH]; intros acc; cbn [fold_m].
  - apply never_raises_ret.
  - apply never_raises_bind; [apply Hs | intros acc'; apply IH].
Qed.

(** A handler that returns normally for every [Exception] makes the
    [try] statement return normally. *)
Lemma never_raises_try_except {A} (R : state D -> state D -> Prop) (m : M D A) h :
  safe R m -> (forall e, never_raises (h e)) -> never_raises (try_except m h).
Proof.
  intros Hm Hh st. unfold try_except.
  destruct (m st) as [[a|e] st1] eqn:Em.
  - exists a, st1. reflexivity.
  - destruct (Hm _ _ _ Em) as [_ He]. rewrite (He e eq_refl). apply Hh.
Qed.

(** What a loop does to its accumulator, from what one iteration does. *)
Lemma fold_m_rel {A S} (R : S -> S -> Prop) (step : S -> A -> M D S) l :
  (forall acc, R acc acc) ->
  (forall a b c, R a b -> R b c -> R a c) ->
  (forall acc x st acc' st', step acc x st = (Ok acc', st') -> R acc acc') ->
  forall acc st acc' st', fold_m step l acc st = (Ok acc', st') -> R acc acc'.
Proof.
  intros Hrefl Htrans Hstep. induction l as [|x l IH]; intros acc st acc' st' H.
  - inversion H; subst. apply Hrefl.
  - cbn [fold_m] in H. apply bind_inv_Ok in H as (acc1 & st1 & H1 & H2).
    eapply Htrans; [eapply Hstep, H1 | eapply IH, H2].
Qed.
End NeverRaises.

(** ** [ETLPipeline.transform] *)

Section TransformFacts.
Context {D : Type} `{!Bson D}.
Implicit Types st : state D.

Lemma safe_transform_date v : safe (D:=D) any_step (Pipeline.DataTransformer.transform_date v).
Proof.
  unfold Pipeline.DataTransformer.transform_date.
  apply safe_try_except; [exact any_step_trans | | intros e He].
  - destruct (truthy v).
    + apply safe_lift_result; [exact any_step_refl | apply strptime_raises].
    + apply safe_ret. exact any_step_refl.
  - apply safe_bind; [exact any_step_trans | apply safe_log; intros; exact I | intros _].
    apply safe_ret. exact any_step_refl.
Qed.

Lemma never_raises_transform_date v :
  never_raises (D:=D) (Pipeline.DataTransformer.transform_date v).
Proof.
  unfold Pipeline.DataTransformer.transform_date.
  apply (never_raises_try_except any_step).
  - destruct (truthy v).
    + apply safe_lift_result; [exact any_step_refl | apply strptime_raises].
    + apply safe_ret. exact any_step_refl.
  - intros e. apply never_raises_bind; [apply never_raises_log | intros _; apply never_raises_ret].
Qed.

Lemma stateless_transform_date v :
  stateless (D:=D) (Pipeline.DataTransformer.transform_date v).
Proof.
  unfold Pipeline.DataTransformer.transform_date.
  apply stateless_try_except.
  - destruct (truthy v); [apply stateless_lift_result | apply stateless_ret].
  - intros e. apply stateless_bind; [apply stateless_log | intros _; apply stateless_ret].
Qed.

Lemma stateless_transform_employee_B r :
  stateless (D:=D) (Pipeline.DataTransformer.transform_employee r).
Proof.
  unfold Pipeline.DataTransformer.transform_employee.
  apply stateless_bind; [apply stateless_transform_date | intros b].
  apply stateless_bind; [apply stateless_transform_date | intros h].
  apply stateless_ret.
Qed.

(** [transform_employee] of [src/pipeline.py] always returns a document,
    with the row's [emp_no] and empty embedded lists. *)
Lemma transform_employee_B_spec r st :
  exists doc st',
    Pipeline.DataTransformer.transform_employee r st = (Ok doc, st') /\
    pure_of (D:=D) (Pipeline.DataTransformer.transform_employee r) = Ok doc /\
    Pipeline.doc_emp_no doc = row_emp_no r.
Proof.
  pose proof (stateless_transform_employee_B r st) as Hp.
  unfold Pipeline.DataTransformer.transform_employee in *.
  destruct (never_raises_transform_date (row_get r "birth_date") st) as (b & st1 & Hb).
  destruct (never_raises_transform_date (row_get r "hire_date") st1) as (h & st2 & Hh).
  rewrite (bind_Ok _ _ _ _ _ Hb), (bind_Ok _ _ _ _ _ Hh) in Hp |- *.
  eexists _, _. split; [reflexivity|]. split; [symmetry; exact Hp | reflexivity].
Qed.

Lemma last_wins_empty : last_wins (D:=D) [] [].
Proof.
  split; [constructor|]. split.
  - intros k. reflexivity.
  - intros k v H. discriminate H.
Qed.

Lemma last_wins_step rs d r v :
  last_wins (D:=D) rs d ->
  pure_of (D:=D) (Pipeline.DataTransformer.transform_employee r) = Ok v ->
  last_wins (D:=D) (rs ++ [r]) (Pipeline.dict_set (row_emp_no r) v d).
Proof.
  intros (Hnd & Hkeys & Hlast) Hv. split; [|split].
  - rewrite dict_set_keys. destruct (decide (row_emp_no r ∈ d.*1)) as [Hin|Hnin]; [exact Hnd|].
    apply NoDup_app. split; [exact Hnd|]. split; [|apply NoDup_singleton].
    intros k Hk Hk'. apply list_elem_of_singleton in Hk'. subst k. contradiction.
  - intros k. rewrite dict_set_keys, fmap_app, elem_of_app. cbn [fmap list_fmap].
    rewrite list_elem_of_singleton, <- Hkeys.
    destruct (decide (row_emp_no r ∈ d.*1)) as [Hin|Hnin].
    + split; [auto | intros [H| ->]; assumption].
    + rewrite elem_of_app, list_elem_of_singleton. reflexivity.
  - intros k v' Hget. rewrite dict_get_set in Hget.
    destruct (decide (k = row_emp_no r)) as [->|Hne].
    + inversion Hget; subst v'. exists rs, r, []. repeat split; try assumption.
      intros H. inversion H.
    + destruct (Hlast k v' Hget) as (pre & r0 & post & -> & Hr0 & Hpost & Hpure).
      exists pre, r0, (post ++ [r]). rewrite <- app_assoc. repeat split; try assumption.
      rewrite fmap_app, elem_of_app. intros [H|H]; [contradiction|].
      apply list_elem_of_singleton in H. congruence.
Qed.

(** The loop over the employee rows. *)
Lemma employee_loop rs : forall done self st,
  last_wins (D:=D) done (Pipeline.ETLPipeline.employees self) ->
  exists self' st',
    fold_m Pipeline.ETLPipeline.employee_step rs self st = (Ok self', st') /\
    last_wins (D:=D) (done ++ rs) (Pipeline.ETLPipeline.employees self').
Proof.
  induction rs as [|r rs IH]; intros done self st Hinv; cbn [fold_m].
  - exists self, st. rewrite app_nil_r. split; [reflexivity | exact Hinv].
  - destruct (transform_employee_B_spec r st) as (doc & st1 & Hr & Hp & Hno).
    unfold Pipeline.ETLPipeline.employee_step at 1.
    rewrite (bind_Ok _ _ _ _ _ (bind_Ok _ _ _ _ _ Hr)). cbn [ret]. rewrite Hno.
    destruct (IH (done ++ [r])
                (Pipeline.ETLPipeline.with_employees
                   (Pipeline.dict_set (row_emp_no r) doc (Pipeline.ETLPipeline.employees self))
                   self) st1) as (self' & st' & Hf & Hinv').
    { cbn. apply last_wins_step; assumption. }
    exists self', st'. rewrite <- app_assoc in Hinv'. split; [exact Hf | exact Hinv'].
Qed.

Lemma same_scalars_refl d : same_scalars d d.
Proof. repeat split. Qed.

Lemma same_scalars_trans a b c : same_scalars a b -> same_scalars b c -> same_scalars a c.
Proof.
  intros (H1 & H2 & H3 & H4 & H5 & H6) (G1 & G2 & G3 & G4 & G5 & G6).
  repeat split; congruence.
Qed.

Lemma dict_sim_refl d : dict_sim d d.
Proof.
  unfold dict_sim. induction d as [|x d IH]; constructor; [|exact IH].
  split; [reflexivity | apply same_scalars_refl].
Qed.

Lemma dict_sim_trans a b c : dict_sim a b -> dict_sim b c -> dict_sim a c.
Proof.
  unfold dict_sim. intros Hab. revert c. induction Hab as [|x y a b [Hk Hs] _ IH]; intros c Hbc.
  - inversion Hbc. constructor.
  - inversion Hbc as [|? z ? c' [Hk' Hs'] Hbc']; subst. constructor.
    + split; [congruence | eapply same_scalars_trans; eassumption].
    + apply IH, Hbc'.
Qed.

Lemma dict_sim_update k f d :
  (forall v, same_scalars v (f v)) -> dict_sim d (Pipeline.dict_update k f d).
Proof.
  intros Hf. unfold dict_sim. induction d as [|[k0 v0] d IH]; cbn; [constructor|].
  destruct (decide (k = k0)).
  - constructor; [split; [reflexivity | apply Hf] | apply dict_sim_refl].
  - constructor; [split; [reflexivity | apply same_scalars_refl] | exact IH].
Qed.

Lemma keeps_employees_refl self : keeps_employees self self.
Proof. apply dict_sim_refl. Qed.

Lemma keeps_employees_trans a b c :
  keeps_employees a b -> keeps_employees b c -> keeps_employees a c.
Proof. apply dict_sim_trans. Qed.

Lemma title_step_keeps self x st self' st' :
  Pipeline.ETLPipeline.title_step self x st = (Ok self', st') -> keeps_employees self self'.
Proof.
  unfold Pipeline.ETLPipeline.title_step.
  destruct (Pipeline.dict_get _ _); intros H.
  - apply bind_inv_Ok in H as (t & s1 & _ & H). inversion H; subst.
    apply dict_sim_update. intros v. repeat split.
  - apply bind_inv_Ok in H as (u & s1 & _ & H). inversion H; subst.
    apply keeps_employees_refl.
Qed.

Lemma salary_step_keeps self x st self' st' :
  Pipeline.ETLPipeline.salary_step self x st = (Ok self', st') -> keeps_employees self self'.
Proof.
  unfold Pipeline.ETLPipeline.salary_step.
  destruct (Pipeline.dict_get _ _); intros H.
  - apply bind_inv_Ok in H as (t & s1 & _ & H). inversion H; subst.
    apply dict_sim_update. intros v. repeat split.
  - apply bind_inv_Ok in H as (u & s1 & _ & H). inversion H; subst.
    apply keeps_employees_refl.
Qed.

Lemma dept_emp_step_keeps self x st self' st' :
  Pipeline.ETLPipeline.dept_emp_step self x st = (Ok self', st') -> keeps_employees self self'.
Proof.
  unfold Pipeline.ETLPipeline.dept_emp_step.
  destruct (Pipeline.dict_get _ _); intros H.
  - apply bind_inv_Ok in H as (t & s1 & _ & H). inversion H; subst.
    apply dict_sim_update. intros v. repeat split.
  - apply bind_inv_Ok in H as (u & s1 & _ & H). inversion H; subst.
    apply keeps_employees_refl.
Qed.

Lemma department_step_keeps self x st self' st' :
  Pipeline.ETLPipeline.department_step (D:=D) self x st = (Ok self', st') ->
  keeps_employees self self'.
Proof. intros H. inversion H; subst. apply dict_sim_refl. Qed.

Lemma dept_manager_step_keeps self x st self' st' :
  Pipeline.ETLPipeline.dept_manager_step self x st = (Ok self', st') ->
  keeps_employees self self'.
Proof.
  unfold Pipeline.ETLPipeline.dept_manager_step. intros H.
  apply bind_inv_Ok in H as (t & s1 & _ & H). inversion H; subst.
  apply dict_sim_refl.
Qed.

Ltac never_raises_all :=
  repeat first
    [ apply never_raises_ret | apply never_raises_log | apply never_raises_transform_date
    | apply never_raises_bind; [| intros ?]
    | match goal with
      | |- never_raises (match ?x with _ => _ end) => destruct x
      end ].

Lemma never_raises_title_step self x :
  never_raises (D:=D) (Pipeline.ETLPipeline.title_step self x).
Proof.
  unfold Pipeline.ETLPipeline.title_step, Pipeline.DataTransformer.transform_title.
  never_raises_all.
Qed.

Lemma never_raises_salary_step self x :
  never_raises (D:=D) (Pipeline.ETLPipeline.salary_step self x).
Proof.
  unfold Pipeline.ETLPipeline.salary_step, Pipeline.DataTransformer.transform_salary.
  never_raises_all.
Qed.

Lemma never_raises_dept_emp_step self x :
  never_raises (D:=D) (Pipeline.ETLPipeline.dept_emp_step self x).
Proof.
  unfold Pipeline.ETLPipeline.dept_emp_step,
    Pipeline.DataTransformer.transform_department_assignment.
  never_raises_all.
Qed.

Lemma never_raises_department_step self x :
  never_raises (D:=D) (Pipeline.ETLPipeline.department_step self x).
Proof. unfold Pipeline.ETLPipeline.department_step. never_raises_all. Qed.

Lemma never_raises_dept_manager_step self x :
  never_raises (D:=D) (Pipeline.ETLPipeline.dept_manager_step self x).
Proof.
  unfold Pipeline.ETLPipeline.dept_manager_step,
    Pipeline.DataTransformer.transform_dept_manager.
  never_raises_all.
Qed.

(** [transform] on a fresh object returns normally; the employee
    dictionary is the one of the first loop up to the embedded lists. *)
Lemma transform_spec data st :
  exists self' d1 st',
    Pipeline.ETLPipeline.transform (D:=D) (Pipeline.ETLPipeline.Fields [] [] []) data st
    = (Ok (self', Pipeline.ETLPipeline.Transformed
                    (Pipeline.dict_values (Pipeline.ETLPipeline.employees self'))
                    (Pipeline.ETLPipeline.departments self')
                    (Pipeline.ETLPipeline.dept_managers self')), st') /\
    last_wins (D:=D) (Pipeline.ETLPipeline.x_employees data) d1 /\
    dict_sim d1 (Pipeline.ETLPipeline.employees self').
Proof.
  destruct (employee_loop (Pipeline.ETLPipeline.x_employees data) []
              (Pipeline.ETLPipeline.Fields [] [] []) st last_wins_empty)
    as (self1 & st1 & H1 & Hinv).
  destruct (never_raises_fold_m _ (Pipeline.ETLPipeline.x_titles data)
              never_raises_title_step self1 st1) as (self2 & st2 & H2).
  destruct (never_raises_fold_m _ (Pipeline.ETLPipeline.x_salaries data)
              never_raises_salary_step self2 st2) as (self3 & st3 & H3).
  destruct (never_raises_fold_m _ (Pipeline.ETLPipeline.x_dept_emp data)
              never_raises_dept_emp_step self3 st3) as (self4 & st4 & H4).
  destruct (never_raises_fold_m _ (Pipeline.ETLPipeline.x_departments data)
              never_raises_department_step self4 st4) as (self5 & st5 & H5).
  destruct (never_raises_fold_m _ (Pipeline.ETLPipeline.x_dept_manager data)
              never_raises_dept_manager_step self5 st5) as (self6 & st6 & H6).
  exists self6, (Pipeline.ETLPipeline.employees self1), st6. split; [|split].
  - unfold Pipeline.ETLPipeline.transform. apply try_except_Ok.
    rewrite (bind_Ok _ _ _ _ _ H1), (bind_Ok _ _ _ _ _ H2), (bind_Ok _ _ _ _ _ H3),
      (bind_Ok _ _ _ _ _ H4), (bind_Ok _ _ _ _ _ H5), (bind_Ok _ _ _ _ _ H6).
    reflexivity.
  - exact Hinv.
  - pose proof (fold_m_rel keeps_employees _ _ keeps_employees_refl keeps_employees_trans
                  title_step_keeps _ _ _ _ H2) as K2.
    pose proof (fold_m_rel keeps_employees _ _ keeps_employees_refl keeps_employees_trans
                  salary_step_keeps _ _ _ _ H3) as K3.
    pose proof (fold_m_rel keeps_employees _ _ keeps_employees_refl keeps_employees_trans
                  dept_emp_step_keeps _ _ _ _ H4) as K4.
    pose proof (fold_m_rel keeps_employees _ _ keeps_employees_refl keeps_employees_trans
                  department_step_keeps _ _ _ _ H5) as K5.
    pose proof (fold_m_rel keeps_employees _ _ keeps_employees_refl keeps_employees_trans
                  dept_manager_step_keeps _ _ _ _ H6) as K6.
    unfold keeps_employees in *.
    eapply dict_sim_trans; [exact K2|]. eapply dict_sim_trans; [exact K3|].
    eapply dict_sim_trans; [exact K4|]. eapply dict_sim_trans; [exact K5 | exact K6].
Qed.
End TransformFacts.

Section OneDocumentPerEmployee.
Context {D : Type} `{!Bson D}.

Lemma pure_transform_employee_emp_no r v :
  pure_of (D:=D) (Pipeline.DataTransformer.transform_employee r) = Ok v ->
  Pipeline.doc_emp_no v = row_emp_no r.
Proof.
  intros Hv. destruct (transform_employee_B_spec (D:=D) r init_state) as (doc & st' & _ & Hp & Hno).
  rewrite Hp in Hv. inversion Hv; subst. exact Hno.
Qed.

Lemma last_wins_keys rs d :
  last_wins (D:=D) rs d -> Forall (fun x => Pipeline.doc_emp_no x.2 = x.1) d.
Proof.
  intros (Hnd & _ & Hlast). apply Forall_forall. intros [k v] Hin. cbn.
  destruct (Hlast k v (dict_get_elem_of k v d Hnd Hin)) as (pre & r & post & _ & Hr & _ & Hp).
  rewrite <- Hr. eapply pure_transform_employee_emp_no, Hp.
Qed.

Lemma dict_sim_emp_nos d d' :
  Forall (fun x => Pipeline.doc_emp_no x.2 = x.1) d -> dict_sim d d' ->
  Pipeline.doc_emp_no <$> d'.*2 = d.*1.
Proof.
  intros Hk Hsim. induction Hsim as [|x y d d' [_ Hs] _ IH]; [reflexivity|].
  inversion Hk as [|? ? Hx Hd]; subst. cbn. f_equal; [|apply IH, Hd].
  destruct Hs as [Hs _]. congruence.
Qed.

Lemma dict_sim_values rs d d' doc :
  last_wins (D:=D) rs d -> dict_sim d d' -> doc ∈ d'.*2 ->
  exists v, Pipeline.dict_get (Pipeline.doc_emp_no doc) d = Some v /\ same_scalars v doc.
Proof.
  intros Hlw Hsim Hin.
  apply list_elem_of_fmap in Hin as ([k' doc'] & -> & Hin). cbn.
  apply list_elem_of_lookup in Hin as [i Hi].
  destruct (Forall2_lookup_r _ _ _ _ _ Hsim Hi) as ([k v] & Hv & Hk & Hs). cbn in Hk, Hs.
  exists v. split; [|exact Hs].
  pose proof (last_wins_keys rs d Hlw) as Hkeys.
  rewrite Forall_forall in Hkeys.
  assert (Hin : (k, v) ∈ d) by (eapply list_elem_of_lookup_2, Hv).
  specialize (Hkeys _ Hin). cbn in Hkeys.
  destruct Hs as [Hno _]. rewrite <- Hno, Hkeys.
  destruct Hlw as (Hnd & _). apply dict_get_elem_of; assumption.
Qed.
End OneDocumentPerEmployee.

(** C9 (as amended).  [ETLPipeline.transform] of [src/pipeline.py] returns
    exactly one employee document per distinct [emp_no] of the source rows,
    and the scalar fields of that document are those of the last row with
    that [emp_no].  The loop of [main] in [DB_Migration/pipeline.py] keeps no
    employee index: it appends one document for every source row whose
    transformation succeeds, also when an [emp_no] repeats. *)
Theorem C9_one_document_per_emp_no :
  forall (D : Type) (data : Pipeline.ETLPipeline.extracted) (st : state D),
    (exists self' t st',
       Pipeline.ETLPipeline.transform (Pipeline.ETLPipeline.Fields [] [] []) data st
       = (Ok (self', t), st') /\
       NoDup (Pipeline.doc_emp_no <$> Pipeline.ETLPipeline.t_employees t) /\
       (forall n, n ∈ (Pipeline.doc_emp_no <$> Pipeline.ETLPipeline.t_employees t)
                  <-> n ∈ (row_emp_no <$> Pipeline.ETLPipeline.x_employees data)) /\
       (forall doc, doc ∈ Pipeline.ETLPipeline.t_employees t ->
          exists pre r post d0,
            Pipeline.ETLPipeline.x_employees data = pre ++ r :: post /\
            row_emp_no r = Pipeline.doc_emp_no doc /\
            (Pipeline.doc_emp_no doc ∉ row_emp_no <$> post) /\
            pure_of (D:=D) (Pipeline.DataTransformer.transform_employee r) = Ok d0 /\
            same_scalars d0 doc)) /\
    (forall (employees : list row)
            (dept_emp_by_emp dept_manager_by_emp salaries_by_emp titles_by_emp
               : gmap pyval (list row))
            (departments_lookup : gmap pyval row),
       Forall (fun emp : row => is_Some (emp !! "emp_no")) employees ->
       exists st',
         DBMigration.aggregate employees dept_emp_by_emp dept_manager_by_emp
           salaries_by_emp titles_by_emp departments_lookup st
         = (Ok (omap (aggregated_doc (D:=D) dept_emp_by_emp dept_manager_by_emp
                        salaries_by_emp titles_by_emp departments_lookup) employees), st')).
Proof.
  intros D data st. split.
  - destruct (transform_spec data st) as (self' & d1 & st' & Ht & Hlw & Hsim).
    eexists self', _, st'. split; [exact Ht|]. cbn [Pipeline.ETLPipeline.t_employees].
    unfold Pipeline.dict_values.
    pose proof (dict_sim_emp_nos _ _ (last_wins_keys _ _ Hlw) Hsim) as Hkeys.
    destruct Hlw as (Hnd & Hdom & Hlast). split; [|split].
    + rewrite Hkeys. exact Hnd.
    + intros n. rewrite Hkeys. apply Hdom.
    + intros doc Hdoc.
      destruct (dict_sim_values _ _ _ doc (conj Hnd (conj Hdom Hlast)) Hsim Hdoc)
        as (v & Hget & Hs).
      destruct (Hlast _ _ Hget) as (pre & r & post & Hrs & Hr & Hpost & Hp).
      exists pre, r, post, v. repeat split; try assumption; apply Hs.
  - intros employees de dm sal tit lk Hall.
    destruct (aggregate_fold_pure de dm sal tit lk employees [] st Hall) as [st' H].
    exists st'. exact H.
Qed.

(** Two source rows with the same [emp_no] in the loop of [main]. *)
Lemma C9_one_document_per_emp_no_witness :
  exists st',
    DBMigration.aggregate (D:=unit)
      [sample_employee 1 (PDate 1960 1 1); sample_employee 1 (PDate 1970 2 2)]
      ∅ ∅ ∅ ∅ ∅ init_state
    = (Ok (omap (aggregated_doc (D:=unit) ∅ ∅ ∅ ∅ ∅)
             [sample_employee 1 (PDate 1960 1 1); sample_employee 1 (PDate 1970 2 2)]), st').
Proof.
  destruct (C9_one_document_per_emp_no unit
              (Pipeline.ETLPipeline.Extracted [] [] [] [] [] []) init_state) as [_ H].
  apply H.
  repeat (constructor; [eexists; vm_compute; reflexivity|]). constructor.
Defined.

(** C9 as stated fails for the loop of [main]: two source rows with the
    same [emp_no] give two documents. *)
Lemma C9_counterexample :
  match (DBMigration.aggregate (D:=unit)
           [sample_employee 1 (PDate 1960 1 1); sample_employee 1 (PDate 1970 2 2)]
           ∅ ∅ ∅ ∅ ∅ init_state).1 with
  | Ok docs => DBMigration.doc_emp_no <$> docs = [PInt 1; PInt 1]
  | Raise _ => False
  end.
Proof. vm_compute. reflexivity. Qed.

(** The same two rows (with dates as strings) through
    [ETLPipeline.transform]: one document, from the later row. *)
Example transform_duplicate_employee :
  match (Pipeline.ETLPipeline.transform (D:=unit) (Pipeline.ETLPipeline.Fields [] [] [])
           (Pipeline.ETLPipeline.Extracted
              [sample_employee 1 (PStr "1960-01-01"); sample_employee 1 (PStr "1970-02-02")]
              [] [] [] [] []) init_state).1 with
  | Ok (_, t) =>
      (fun d => (Pipeline.doc_emp_no d, Pipeline.doc_birth_date d))
        <$> Pipeline.ETLPipeline.t_employees t = [(PInt 1, PDateTime 1970 2 2 0 0 0)]
  | Raise _ => False
  end.
Proof. vm_compute. reflexivity. Qed.

(** ** Partial write failures *)

Section PartialWrites.
Context {D : Type} `{!Bson D}.
Implicit Types (st : state D) (E : env D).

Lemma batches_nil (B : Z) : batches ([] : list D) B = [].
Proof. reflexivity. Qed.


Lemma load_collection_partial_failure E coll docs B st k b :
  mongo_up E = true -> (0 < B)%Z ->
  batches docs B !! k = Some b ->
  encodable (concat (take (S k) (batches docs B))) ->
  Forall (fun d => mongo_rejects E coll d = false) (concat (take k (batches docs B))) ->
  ~ Forall (fun d => mongo_rejects E coll d = false) b ->
  DBMigration.MongoLoader.load_collection E coll docs B st
  = (Raise (BulkWriteError (rejected_from (mongo_rejects E coll) 0 b)),
     logged ERROR "Bulk write error: %s"
       [AExn (BulkWriteError (rejected_from (mongo_rejects E coll) 0 b))]
       (foldl (after_insert E coll) (after_delete coll st) (take (S k) (batches docs B)))).
Proof.
  intros Hup HB Hk Henc Hpre Hb.
  assert (Hne : docs <> []).
  { intros ->. rewrite batches_nil in Hk. discriminate Hk. }
  destruct (batches_spec docs B HB) as (_ & Hf & _).
  rewrite load_collection_loop by assumption.
  unfold encodable in Henc. rewrite (take_S_r _ _ _ Hk), concat_app, Forall_app in Henc.
  destruct Henc as [Hencpre Hencb]. cbn in Hencb. rewrite app_nil_r in Hencb.
  assert (Hpre' : Forall (fun b => b <> [] /\ encodable b /\
                                   Forall (fun d => mongo_rejects E coll d = false) b)
                    (take k (batches docs B))).
  { rewrite Forall_concat in Hpre, Hencpre. rewrite Forall_forall in *. intros b' Hb'.
    split; [|split; [apply Hencpre, Hb' | apply Hpre, Hb']].
    apply Hf. apply elem_of_take in Hb' as (i & Hi & _). eapply list_elem_of_lookup_2, Hi. }
  assert (Hbne : b <> []).
  { rewrite Forall_forall in Hf. apply Hf. eapply list_elem_of_lookup_2, Hk. }
  assert (Hrej : rejected_from (mongo_rejects E coll) 0 b <> []).
  { intros H. apply Hb. apply (rejected_from_nil _ _ 0), H. }
  pose proof (for_each_insert_fail E coll (take k (batches docs B)) b
                (drop (S k) (batches docs B)) Hup Hpre' Hbne Hencb Hrej (after_delete coll st))
    as Hloop.
  rewrite (take_drop_middle _ _ _ Hk) in Hloop. rewrite <- (take_S_r _ _ _ Hk) in Hloop.
  rewrite (try_except_Raise _ _ _ _ _ (bind_Raise _ _ _ _ _ Hloop) eq_refl).
  reflexivity.
Qed.


End PartialWrites.

(** ** What the phases of the pipelines leave alone *)

Section Frames.
Context {D : Type} `{!Bson D}.
Variable R : state D -> state D -> Prop.
Hypothesis R_refl : forall st, R st st.
Hypothesis R_trans : forall s1 s2 s3, R s1 s2 -> R s2 s3 -> R s1 s3.
Hypothesis R_log : forall l msg args st, R st (logged l msg args st).

Ltac frame :=
  repeat first
    [ apply safe_ret; exact R_refl
    | apply safe_raise; [exact R_refl | first [assumption | reflexivity]]
    | apply safe_getitem; exact R_refl
    | apply safe_log; intros; apply R_log
    | apply safe_lift_result; [exact R_refl | apply strptime_raises]
    | apply safe_bind; [exact R_trans | | intros ?]
    | apply safe_try_except; [exact R_trans | | intros ? ?]
    | apply safe_map_m; [exact R_refl | exact R_trans | intros ?]
    | apply safe_fold_m; [exact R_refl | exact R_trans | intros ? ?]
    | match goal with
      | |- safe _ (match ?x with _ => _ end) => destruct x
      end ].

Lemma frame_transform_employee emp des dms sals tits lk :
  safe R (DBMigration.DataTransformer.transform_employee emp des dms sals tits lk).
Proof.
  unfold DBMigration.DataTransformer.transform_employee,
    DBMigration.DataTransformer.department_of, DBMigration.DataTransformer.salary_of,
    DBMigration.DataTransformer.title_of, DBMigration.DataTransformer.management_of,
    DBMigration.DataTransformer.convert_date.
  frame.
Qed.

Lemma frame_departments_lookup_of departments :
  safe R (DBMigration.departments_lookup_of departments).
Proof. unfold DBMigration.departments_lookup_of. frame. Qed.

Lemma frame_index_by_emp records : safe R (DBMigration.index_by_emp records).
Proof. unfold DBMigration.index_by_emp. frame. Qed.

Lemma frame_aggregate employees de dm sal tit lk :
  safe R (DBMigration.aggregate employees de dm sal tit lk).
Proof.
  unfold DBMigration.aggregate, DBMigration.aggregate_step.
  frame.
Qed.

End Frames.

Section FrameInstances.
Context {D : Type} `{!Bson D}.
Implicit Types st : state D.

Lemma only_logs_refl st : only_logs st st.
Proof. repeat split. Qed.

Lemma only_logs_trans (s1 s2 s3 : state D) :
  only_logs s1 s2 -> only_logs s2 s3 -> only_logs s1 s3.
Proof. intros (H1 & H2 & H3) (G1 & G2 & G3). repeat split; congruence. Qed.

Lemma only_logs_log l msg args st : only_logs st (logged l msg args st).
Proof. repeat split. Qed.

Lemma keeps_open_refl st : keeps_open st st.
Proof. intros H. exact H. Qed.

Lemma keeps_open_trans (s1 s2 s3 : state D) :
  keeps_open s1 s2 -> keeps_open s2 s3 -> keeps_open s1 s3.
Proof. unfold keeps_open. auto. Qed.

Lemma keeps_open_same st st' : st_mysql st' = st_mysql st -> keeps_open st st'.
Proof. unfold keeps_open. intros ->. auto. Qed.

Lemma keeps_open_log l msg args st : keeps_open st (logged l msg args st).
Proof. apply keeps_open_same. reflexivity. Qed.

Lemma never_raises_transform self data :
  never_raises (D:=D) (Pipeline.ETLPipeline.transform self data).
Proof.
  unfold Pipeline.ETLPipeline.transform.
  intros st. unfold try_except.
  match goal with
  | |- context [match ?m st with _ => _ end] =>
      assert (Hm : never_raises m); [|destruct (Hm st) as (a & st' & ->); eauto]
  end.
  apply never_raises_bind; [apply never_raises_fold_m; intros acc x|intros self1].
  { unfold Pipeline.ETLPipeline.employee_step, Pipeline.DataTransformer.transform_employee.
    repeat first [apply never_raises_ret | apply never_raises_transform_date
                 | apply never_raises_bind; [|intros ?]]. }
  apply never_raises_bind; [apply never_raises_fold_m, never_raises_title_step|intros self2].
  apply never_raises_bind; [apply never_raises_fold_m, never_raises_salary_step|intros self3].
  apply never_raises_bind; [apply never_raises_fold_m, never_raises_dept_emp_step|intros self4].
  apply never_raises_bind; [apply never_raises_fold_m, never_raises_department_step|intros self5].
  apply never_raises_bind; [apply never_raises_fold_m, never_raises_dept_manager_step|intros self6].
  apply never_raises_ret.
Qed.
End FrameInstances.

(** ** [main] of [DB_Migration/pipeline.py] *)

Section MainFacts.
Context {D : Type} `{!Bson D}.
Implicit Types (st : state D) (E : env D).


Ltac prim_frame :=
  split;
  [ first [ apply keeps_open_refl | apply keeps_open_same; reflexivity
          | intros _; cbn; discriminate ]
  | let e := fresh "e" in let He := fresh "He" in
    intros e He; first [ discriminate He | injection He as <-; reflexivity ] ].

Lemma keeps_open_pymysql_connect E : safe keeps_open (pymysql_connect E).
Proof.
  intros st r st' H. unfold pymysql_connect in H.
  destruct (mysql_connect_ok E); inversion H; subst; prim_frame.
Qed.

Lemma keeps_open_cursor_fetchall E query : safe keeps_open (cursor_fetchall E query).
Proof.
  intros st r st' H. unfold cursor_fetchall in H.
  destruct (st_mysql st); [| destruct (mysql_table E query) |]; inversion H; subst; prim_frame.
Qed.




End MainFacts.

Section MainRuns.
Implicit Types (st : state DBMigration.document) (E : env DBMigration.document).

Lemma keeps_open_extract E query : safe keeps_open (DBMigration.MySQLExtractor.extract E query).
Proof.
  unfold DBMigration.MySQLExtractor.extract.
  apply safe_try_except; [exact keeps_open_trans | apply keeps_open_cursor_fetchall|].
  intros e He. apply safe_bind; [exact keeps_open_trans | | intros _].
  - apply safe_log. intros. apply keeps_open_log.
  - apply safe_raise; [exact keeps_open_refl | exact He].
Qed.

Lemma keeps_open_main_extract_transform E :
  safe keeps_open (DBMigration.main_extract_transform E).
Proof.
  unfold DBMigration.main_extract_transform.
  apply safe_bind; [exact keeps_open_trans | | intros _].
  { unfold DBMigration.MySQLExtractor.connect.
    apply safe_try_except; [exact keeps_open_trans | | intros e He].
    - apply safe_bind; [exact keeps_open_trans | apply keeps_open_pymysql_connect | intros _].
      apply safe_log. intros. apply keeps_open_log.
    - apply safe_bind; [exact keeps_open_trans | | intros _].
      + apply safe_log. intros. apply keeps_open_log.
      + apply safe_raise; [exact keeps_open_refl | exact He]. }
  do 6 (apply safe_bind; [exact keeps_open_trans | apply keeps_open_extract | intros ?]).
  apply safe_bind; [exact keeps_open_trans | | intros ?].
  { apply frame_departments_lookup_of;
      first [exact keeps_open_refl | exact keeps_open_trans | exact keeps_open_log]. }
  do 4 (apply safe_bind; [exact keeps_open_trans | | intros ?];
        [apply frame_index_by_emp;
           first [exact keeps_open_refl | exact keeps_open_trans | exact keeps_open_log]|]).
  apply safe_bind; [exact keeps_open_trans | | intros ?].
  { apply frame_aggregate;
      first [exact keeps_open_refl | exact keeps_open_trans | exact keeps_open_log]. }
  apply safe_ret. exact keeps_open_refl.
Qed.


(** Closing the source connection when it was not closed before. *)
Lemma extractor_close_spec st :
  st_mysql st <> ConnClosed ->
  exists st',
    DBMigration.MySQLExtractor.close st = (Ok tt, st') /\
    st_mysql st' <> ConnOpen /\ st_calls st' = st_calls st /\ st_store st' = st_store st /\
    exists recs, st_log st' = st_log st ++ recs.
Proof.
  intros Hc. unfold DBMigration.MySQLExtractor.close.
  destruct (st_mysql st) eqn:Es; [| |congruence].
  - exists st. rewrite Es. repeat split; [discriminate|]. exists []. rewrite app_nil_r. reflexivity.
  - unfold bind, connection_close. rewrite Es. eexists. split; [reflexivity|].
    cbn. repeat split; [discriminate|]. eexists. reflexivity.
Qed.


End MainRuns.

(** ** Loading and running in [src/pipeline.py] *)

Section PipelineRuns.
Implicit Types (st : state Pipeline.document) (E : env Pipeline.document).

Lemma insert_employees_spec E emps st :
  exists st',
    Pipeline.MongoDBLoader.insert_employees E emps st = (Ok tt, st') /\
    st_calls st' = st_calls st ++ insert_calls "employees" (Pipeline.DEmployee <$> emps) /\
    st_mysql st' = st_mysql st.
Proof.
  destruct emps as [|e emps].
  - eexists. split; [reflexivity|]. cbn. rewrite app_nil_r. split; reflexivity.
  - unfold Pipeline.MongoDBLoader.insert_employees, try_except, bind, insert_many.
    cbn [fmap list_fmap].
    destruct (mongo_up E); [destruct (forallb _ _); [destruct (rejected_from _ _ _)|]|];
      eexists; (split; [reflexivity|]); split; reflexivity.
Qed.

Lemma insert_departments_spec E deps st :
  exists st',
    Pipeline.MongoDBLoader.insert_departments E deps st = (Ok tt, st') /\
    st_calls st' = st_calls st ++ insert_calls "departments" (Pipeline.DDepartment <$> deps) /\
    st_mysql st' = st_mysql st.
Proof.
  destruct deps as [|e deps].
  - eexists. split; [reflexivity|]. cbn. rewrite app_nil_r. split; reflexivity.
  - unfold Pipeline.MongoDBLoader.insert_departments, try_except, bind, insert_many.
    cbn [fmap list_fmap].
    destruct (mongo_up E); [destruct (forallb _ _); [destruct (rejected_from _ _ _)|]|];
      eexists; (split; [reflexivity|]); split; reflexivity.
Qed.

Lemma insert_dept_managers_spec E dms st :
  exists st',
    Pipeline.MongoDBLoader.insert_dept_managers E dms st = (Ok tt, st') /\
    st_calls st' = st_calls st ++ insert_calls "dept_manager" (Pipeline.DDeptManager <$> dms) /\
    st_mysql st' = st_mysql st.
Proof.
  destruct dms as [|e dms].
  - eexists. split; [reflexivity|]. cbn. rewrite app_nil_r. split; reflexivity.
  - unfold Pipeline.MongoDBLoader.insert_dept_managers, try_except, bind, insert_many.
    cbn [fmap list_fmap].
    destruct (mongo_up E); [destruct (forallb _ _); [destruct (rejected_from _ _ _)|]|];
      eexists; (split; [reflexivity|]); split; reflexivity.
Qed.




End PipelineRuns.

Section PipelineRun.
Implicit Types (st : state Pipeline.document) (E : env Pipeline.document).

End PipelineRun.







(** * Further properties *)

(** ** [load_collection]: batch sizes, frame, partial content *)

Section LoadingEdges.
Context {D : Type} `{!Bson D}.
Implicit Types (st : state D) (E : env D).

Lemma touches_only_refl coll st : touches_only coll st st.
Proof.
  split; [reflexivity|]. split; [reflexivity|].
  exists []. rewrite app_nil_r. split; [reflexivity | constructor].
Qed.

Lemma touches_only_trans coll (s1 s2 s3 : state D) :
  touches_only coll s1 s2 -> touches_only coll s2 s3 -> touches_only coll s1 s3.
Proof.
  intros (M1 & S1 & c1 & C1 & F1) (M2 & S2 & c2 & C2 & F2).
  split; [congruence|]. split.
  - intros other Hne. rewrite S2, S1 by assumption. reflexivity.
  - exists (c1 ++ c2). split; [rewrite C2, C1, app_assoc; reflexivity|].
    apply Forall_app. split; assumption.
Qed.

Lemma touches_only_log coll l msg args st : touches_only coll st (logged l msg args st).
Proof.
  split; [reflexivity|]. split; [reflexivity|].
  exists []. cbn. rewrite app_nil_r. split; [reflexivity | constructor].
Qed.

Lemma touches_only_delete_many E coll : safe (touches_only coll) (delete_many E coll).
Proof.
  intros st r st' H. unfold delete_many in H.
  destruct (mongo_up E); inversion H; subst; (split; [|intros e He; first [discriminate He | injection He as <-; reflexivity]]).
  - split; [reflexivity|]. split.
    + intros other Hne. cbn. apply lookup_insert_ne. congruence.
    + exists [DeleteMany coll]. split; [reflexivity|].
      constructor; [|constructor]. cbn. apply bool_decide_eq_true_2. reflexivity.
  - split; [reflexivity|]. split; [reflexivity|].
    exists [DeleteMany coll]. split; [reflexivity|].
    constructor; [|constructor]. cbn. apply bool_decide_eq_true_2. reflexivity.
Qed.

Lemma touches_only_insert_many E coll batch : safe (touches_only coll) (insert_many E coll batch).
Proof.
  assert (Hcall : Forall (fun c => on_collection coll c = true) [InsertMany coll batch]).
  { constructor; [|constructor]. cbn. apply bool_decide_eq_true_2. reflexivity. }
  intros st r st' H. unfold insert_many in H.
  destruct batch; [|destruct (mongo_up E); [destruct (forallb _ _); [destruct (rejected_from _ _ _)|]|]];
    inversion H; subst;
    (split; [|intros e He; first [discriminate He | injection He as <-; reflexivity]]);
    (split; [reflexivity|]); split;
    try (intros other Hne; cbn; first [reflexivity | apply lookup_insert_ne; congruence]);
    eexists; (split; [reflexivity | exact Hcall]).
Qed.

Lemma safe_load_collection_touches_only E coll docs B :
  safe (touches_only coll) (DBMigration.MongoLoader.load_collection E coll docs B).
Proof.
  pose proof (touches_only_refl coll) as Hr. pose proof (touches_only_trans coll) as Ht.
  unfold DBMigration.MongoLoader.load_collection.
  apply safe_try_except; [exact Ht | | intros e He].
  - apply safe_bind; [exact Ht | apply touches_only_delete_many | intros _].
    destruct docs; [apply safe_ret; exact Hr|].
    apply safe_bind; [exact Ht | | intros starts].
    + apply safe_lift_result; [exact Hr|].
      unfold py_range. destruct (_ =? _)%Z; [intros e [= <-]; reflexivity | discriminate].
    + apply safe_bind; [exact Ht | | intros _].
      * apply safe_for_each; [exact Hr | exact Ht | intros i].
        apply safe_bind; [exact Ht | apply touches_only_insert_many | intros _].
        apply safe_ret; exact Hr.
      * apply safe_log. intros. apply touches_only_log.
  - destruct e;
      (apply safe_bind; [exact Ht | apply safe_log; intros; apply touches_only_log | intros _];
       apply safe_raise; [exact Hr | exact He]).
Qed.

Lemma batches_from_full (docs : list D) (B : Z) :
  (0 < B)%Z ->
  forall fuel i j b,
    (0 <= i)%Z ->
    let bs := (fun i => py_slice docs i (i + B)) <$>
                range_from fuel i (Z.of_nat (length docs)) B in
    bs !! j = Some b -> S j < length bs -> Z.of_nat (length b) = B.
Proof.
  intros HB. induction fuel as [|fuel IH]; intros i j b Hi bs Hj Hlt; subst bs.
  - cbn in Hj. discriminate Hj.
  - cbn [range_from] in Hj, Hlt.
    destruct (Z.ltb_spec 0 B) as [_|?]; [|lia].
    destruct (Z.ltb_spec i (Z.of_nat (length docs))) as [Hin|Hout];
      [|cbn in Hj; discriminate Hj].
    cbn [fmap list_fmap] in Hj, Hlt. fold (@fmap list _ Z (list D)) in Hj, Hlt.
    destruct j as [|j].
    + cbn in Hj. inversion Hj; subst b. clear Hj.
      cbn [length] in Hlt.
      assert (Hnext : (i + B < Z.of_nat (length docs))%Z).
      { destruct fuel as [|fuel']; [cbn in Hlt; lia|]. cbn [range_from] in Hlt.
        destruct (Z.ltb_spec 0 B) as [_|?]; [|lia].
        destruct (Z.ltb_spec (i + B) (Z.of_nat (length docs))); [assumption|].
        cbn in Hlt. lia. }
      rewrite py_slice_take_drop by lia. rewrite length_take, length_drop. lia.
    + cbn in Hj. cbn [length] in Hlt.
      apply (IH (i + B)%Z j b); [lia | exact Hj | lia].
Qed.
End LoadingEdges.

(** X1.  A batch size of zero with documents to load: [load_collection]
    has already emptied the collection when [range] raises [ValueError]; the
    error is logged and raised, and nothing is inserted. *)
Theorem load_collection_zero_batch_size :
  forall (D : Type) (HB : Bson D) (E : env D) (coll : string) (docs : list D)
         (st : state D),
    mongo_up E = true -> docs <> [] ->
    let r := DBMigration.MongoLoader.load_collection E coll docs 0 st in
    r.1 = Raise ValueError /\
    st_calls r.2 = st_calls st ++ [DeleteMany coll] /\
    st_store r.2 = <[coll := []]> (st_store st) /\
    st_log r.2 = st_log st ++
      [LogRecord ERROR "Error loading documents into collection '%s': %s"
         [AText coll; AExn ValueError]].
Proof.
  intros D HB E coll docs st Hup Hne r. subst r.
  unfold DBMigration.MongoLoader.load_collection, try_except, bind, delete_many.
  rewrite Hup. destruct docs as [|d docs]; [congruence|].
  cbn. repeat split; reflexivity.
Qed.

Lemma load_collection_zero_batch_size_witness :
  let r := DBMigration.MongoLoader.load_collection (sample_env (fun _ _ => false))
             "employees" [1; 2; 3]%nat 0 sample_state in
  r.1 = Raise ValueError /\ st_store r.2 !! "employees" = Some [].
Proof.
  destruct (load_collection_zero_batch_size nat _ (sample_env (fun _ _ => false)) "employees"
              [1; 2; 3]%nat sample_state eq_refl ltac:(discriminate)) as (H1 & _ & H3 & _).
  split; [exact H1|]. rewrite H3. apply lookup_insert_eq.
Defined.

(** X2.  A negative batch size with documents to load: [range] is empty,
    so [load_collection] empties the collection, inserts nothing, logs that
    it loaded the documents and returns normally. *)
Theorem load_collection_negative_batch_size :
  forall (D : Type) (HB : Bson D) (E : env D) (coll : string) (docs : list D) (B : Z)
         (st : state D),
    mongo_up E = true -> docs <> [] -> (B < 0)%Z ->
    let r := DBMigration.MongoLoader.load_collection E coll docs B st in
    r.1 = Ok tt /\
    st_calls r.2 = st_calls st ++ [DeleteMany coll] /\
    st_store r.2 = <[coll := []]> (st_store st) /\
    st_log r.2 = st_log st ++
      [LogRecord INFO "Loaded %d documents into collection '%s'"
         [ANat (length docs); AText coll]].
Proof.
  intros D HB E coll docs B st Hup Hne HnB r. subst r.
  unfold DBMigration.MongoLoader.load_collection, try_except, bind, delete_many.
  rewrite Hup. destruct docs as [|d docs]; [congruence|].
  unfold lift_result, py_range.
  destruct (Z.eqb_spec B 0); [lia|].
  rewrite Z.sub_0_r, Z.abs_eq, Nat2Z.id by lia.
  cbn [length range_from].
  destruct (Z.ltb_spec 0 B); [lia|].
  destruct (Z.ltb_spec (Z.of_nat (S (length docs))) 0); [lia|].
  cbn. repeat split; reflexivity.
Qed.

Lemma load_collection_negative_batch_size_witness :
  let r := DBMigration.MongoLoader.load_collection (sample_env (fun _ _ => false))
             "employees" [1; 2; 3]%nat (-5) sample_state in
  r.1 = Ok tt /\ st_calls r.2 = [DeleteMany "employees"].
Proof.
  destruct (load_collection_negative_batch_size nat _ (sample_env (fun _ _ => false))
              "employees" [1; 2; 3]%nat (-5) sample_state eq_refl ltac:(discriminate)
              ltac:(lia)) as (H1 & H2 & _).
  split; [exact H1 | exact H2].
Defined.

(** X3.  In every run, whatever the server answers and whatever the batch
    size, [load_collection] leaves every other collection and the source
    connection as they were, issues calls on the named collection only, and
    raises nothing but an [Exception]. *)
Theorem load_collection_touches_only_its_collection :
  forall (D : Type) (HB : Bson D) (E : env D) (coll : string) (docs : list D) (B : Z)
         (st : state D),
    let r := DBMigration.MongoLoader.load_collection E coll docs B st in
    touches_only coll st r.2 /\
    forall e, r.1 = Raise e -> is_Exception e = true.
Proof.
  intros D HB E coll docs B st r.
  apply (safe_load_collection_touches_only E coll docs B st r.1 r.2).
  subst r. destruct (DBMigration.MongoLoader.load_collection E coll docs B st); reflexivity.
Qed.

(** X4.  After a partial write failure (the client having encoded the
    documents up to the failing batch) the collection holds what the
    server accepted from the batches up to and including the failing one,
    and nothing else: its prior content is gone and the later documents are
    missing. *)
Theorem load_collection_content_after_failure :
  forall (D : Type) (HB : Bson D) (E : env D) (coll : string) (docs : list D) (B : Z)
         (st : state D) (k : nat) (b : list D),
    mongo_up E = true -> (0 < B)%Z ->
    batches docs B !! k = Some b ->
    encodable (concat (take (S k) (batches docs B))) ->
    Forall (fun d => mongo_rejects E coll d = false) (concat (take k (batches docs B))) ->
    ~ Forall (fun d => mongo_rejects E coll d = false) b ->
    st_store (DBMigration.MongoLoader.load_collection E coll docs B st).2 !! coll
    = Some (concat (take k (batches docs B))
            ++ filter (fun d => mongo_rejects E coll d = false) b).
Proof.
  intros D HB E coll docs B st k b Hup HpB Hk Henc Hpre Hb.
  rewrite (load_collection_partial_failure E coll docs B st k b Hup HpB Hk Henc Hpre Hb).
  cbn [snd]. change (st_store (logged ?l ?m ?a ?s)) with (st_store s).
  rewrite (foldl_after_insert_store E coll _ _ []).
  - rewrite (take_S_r _ _ _ Hk), concat_app, filter_app. cbn [concat].
    rewrite app_nil_r, (filter_all_accepted _ _ Hpre). reflexivity.
  - cbn. apply lookup_insert_eq.
Qed.

Lemma load_collection_content_after_failure_witness :
  st_store (DBMigration.MongoLoader.load_collection (sample_env (fun _ d => Nat.eqb d 3))
              "employees" [1; 2; 3; 4; 5]%nat 2 sample_state).2 !! "employees"
  = Some [1; 2; 4]%nat.
Proof.
  apply (load_collection_content_after_failure nat _ (sample_env (fun _ d => Nat.eqb d 3))
           "employees" [1; 2; 3; 4; 5]%nat 2%Z sample_state 1%nat [3; 4]%nat eq_refl
           ltac:(lia) eq_refl ltac:(repeat constructor) ltac:(repeat constructor)
           ltac:(intros Hf; inversion Hf as [|? ? Hd _]; discriminate Hd)).
Defined.

(** X5.  Every batch of the loop of [load_collection] but the last holds
    exactly [batch_size] documents. *)
Theorem batches_full_but_last :
  forall (D : Type) (docs : list D) (B : Z) (j : nat) (b : list D),
    (0 < B)%Z ->
    batches docs B !! j = Some b -> S j < length (batches docs B) ->
    Z.of_nat (length b) = B.
Proof.
  intros D docs B j b HB Hj Hlt.
  apply (batches_from_full docs B HB (length docs) 0%Z j b); [lia | exact Hj | exact Hlt].
Qed.

Lemma batches_full_but_last_witness :
  batches [1; 2; 3; 4; 5]%nat 2 !! 0 = Some [1; 2]%nat /\
  Z.of_nat (length [1; 2]%nat) = 2%Z.
Proof.
  split; [reflexivity|].
  apply (batches_full_but_last nat [1; 2; 3; 4; 5]%nat 2 0 [1; 2]%nat ltac:(lia) eq_refl).
  vm_compute. lia.
Defined.

(** ** [transform_employee] of [DB_Migration/pipeline.py]: embedded rows *)

Section EmbeddedRows.
Context {D : Type} `{!Bson D}.
Implicit Types st : state D.

Lemma not_converts_None w : ~ converts_to PNone w.
Proof. intros [[H _] | (s & H & _)]; discriminate H. Qed.

Lemma salary_of_inv_Ok sal entry st st' :
  DBMigration.DataTransformer.salary_of sal st = (Ok entry, st') ->
  sal !! "salary" = Some (DBMigration.se_salary entry) /\
  (exists f, sal !! "from_date" = Some f /\ converts_to f (DBMigration.se_from_date entry)) /\
  (exists t, sal !! "to_date" = Some t /\ converts_to t (DBMigration.se_to_date entry)).
Proof.
  unfold DBMigration.DataTransformer.salary_of. intros H.
  apply bind_inv_Ok in H as (v & s1 & Hv & H). apply getitem_inv_Ok in Hv as [Hv ->].
  apply bind_inv_Ok in H as (f & s2 & Hf & H). apply getitem_inv_Ok in Hf as [Hf ->].
  apply bind_inv_Ok in H as (f' & s3 & Hf' & H). apply convert_date_inv_Ok in Hf' as [-> Hf'].
  apply bind_inv_Ok in H as (t & s4 & Ht & H). apply getitem_inv_Ok in Ht as [Ht ->].
  apply bind_inv_Ok in H as (t' & s5 & Ht' & H). apply convert_date_inv_Ok in Ht' as [-> Ht'].
  inversion H; subst. cbn. split; [exact Hv|]. split; eauto.
Qed.

Lemma department_of_inv_Ok (lk : gmap pyval row) de entry st st' :
  DBMigration.DataTransformer.department_of lk de st = (Ok entry, st') ->
  exists dept_no department,
    de !! "dept_no" = Some dept_no /\
    department = default ({[ "dept_no" := dept_no; "dept_name" := PStr "Unknown" ]} : row)
                         (lk !! dept_no) /\
    department !! "dept_no" = Some (DBMigration.de_dept_no entry) /\
    department !! "dept_name" = Some (DBMigration.de_dept_name entry) /\
    (exists t, de !! "to_date" = Some t /\ converts_to t (DBMigration.de_to_date entry)).
Proof.
  unfold DBMigration.DataTransformer.department_of. intros H.
  apply bind_inv_Ok in H as (dno & s1 & Hd & H). apply getitem_inv_Ok in Hd as [Hd ->].
  apply bind_inv_Ok in H as (n1 & s2 & Hn1 & H). apply getitem_inv_Ok in Hn1 as [Hn1 ->].
  apply bind_inv_Ok in H as (n2 & s3 & Hn2 & H). apply getitem_inv_Ok in Hn2 as [Hn2 ->].
  apply bind_inv_Ok in H as (f & s4 & Hf & H). apply getitem_inv_Ok in Hf as [Hf ->].
  apply bind_inv_Ok in H as (f' & s5 & Hf' & H). apply convert_date_inv_Ok in Hf' as [-> Hf'].
  apply bind_inv_Ok in H as (t & s6 & Ht & H). apply getitem_inv_Ok in Ht as [Ht ->].
  apply bind_inv_Ok in H as (t' & s7 & Ht' & H). apply convert_date_inv_Ok in Ht' as [-> Ht'].
  inversion H; subst. cbn. eexists _, _. repeat split; eauto.
Qed.

Lemma title_of_inv_Ok tit entry st st' :
  DBMigration.DataTransformer.title_of tit st = (Ok entry, st') ->
  tit !! "title" = Some (DBMigration.te_title entry) /\
  (exists f, tit !! "from_date" = Some f /\ converts_to f (DBMigration.te_from_date entry)) /\
  (exists t, tit !! "to_date" = Some t /\
             if truthy t then converts_to t (DBMigration.te_to_date entry)
             else DBMigration.te_to_date entry = PNone).
Proof.
  unfold DBMigration.DataTransformer.title_of. intros H.
  apply bind_inv_Ok in H as (v & s1 & Hv & H). apply getitem_inv_Ok in Hv as [Hv ->].
  apply bind_inv_Ok in H as (f & s2 & Hf & H). apply getitem_inv_Ok in Hf as [Hf ->].
  apply bind_inv_Ok in H as (f' & s3 & Hf' & H). apply convert_date_inv_Ok in Hf' as [-> Hf'].
  apply bind_inv_Ok in H as (t & s4 & Ht & H). apply getitem_inv_Ok in Ht as [Ht ->].
  apply bind_inv_Ok in H as (t' & s5 & Ht' & H).
  inversion H; subst. cbn. split; [exact Hv|]. split; [eauto|].
  exists t. split; [exact Ht|].
  destruct (truthy t).
  - apply bind_inv_Ok in Ht' as (t0 & s6 & Ht0 & Ht').
    apply getitem_inv_Ok in Ht0 as [Ht0 ->]. apply convert_date_inv_Ok in Ht' as [_ Ht'].
    assert (t0 = t) by congruence. subst t0. exact Ht'.
  - inversion Ht'. reflexivity.
Qed.

Lemma title_of_open_interval tit t f f' v st :
  tit !! "title" = Some t -> tit !! "from_date" = Some f -> converts_to f f' ->
  tit !! "to_date" = Some v -> truthy v = false ->
  DBMigration.DataTransformer.title_of tit st = (Ok (DBMigration.TitleEntry t f' PNone), st).
Proof.
  intros Ht Hf Hf' Hv Hfalsy. unfold DBMigration.DataTransformer.title_of.
  rewrite (bind_Ok _ _ _ _ _ (getitem_Some _ _ _ _ Ht)).
  rewrite (bind_Ok _ _ _ _ _ (getitem_Some _ _ _ _ Hf)).
  rewrite (bind_Ok _ _ _ _ _ (convert_date_ok _ _ _ Hf')).
  rewrite (bind_Ok _ _ _ _ _ (getitem_Some _ _ _ _ Hv)).
  rewrite Hfalsy. reflexivity.
Qed.

(** Whatever [transform_employee] does, it returns or raises an
    [Exception]. *)
Lemma transform_employee_Ok_or_Raise emp des dms sals tits lk st :
  (exists doc st', DBMigration.DataTransformer.transform_employee emp des dms sals tits lk st
                   = (Ok doc, st')) \/
  (exists e st', DBMigration.DataTransformer.transform_employee emp des dms sals tits lk st
                 = (Raise e, st') /\ is_Exception e = true).
Proof.
  destruct (DBMigration.DataTransformer.transform_employee emp des dms sals tits lk st)
    as [[doc|e] st'] eqn:H.
  - left. eauto.
  - right. exists e, st'. split; [reflexivity|].
    destruct (safe_transform_employee _ _ _ _ _ _ _ _ _ H) as [_ He]. apply He. reflexivity.
Qed.

(** [departments_lookup_of] keeps, under each [dept_no], the last row with
    that [dept_no]. *)
Lemma departments_lookup_fold departments : forall (lk0 lk : gmap pyval row) st st',
  fold_m (fun lookup dept =>
            dept_no <- getitem dept "dept_no" ;; ret (<[dept_no := dept]> lookup))
         departments lk0 st = (Ok lk, st') ->
  forall k, lk !! k
            = match last (filter (fun d : row => d !! "dept_no" = Some k) departments) with
              | Some d => Some d
              | None => lk0 !! k
              end.
Proof.
  induction departments as [|d departments IH]; intros lk0 lk st st' H k.
  - inversion H; subst. reflexivity.
  - cbn [fold_m] in H. apply bind_inv_Ok in H as (lk1 & st1 & H1 & H).
    apply bind_inv_Ok in H1 as (dno & st2 & Hd & H1). apply getitem_inv_Ok in Hd as [Hd _].
    inversion H1; subst lk1 st1. rewrite (IH _ _ _ _ H k). rewrite filter_cons.
    destruct (decide (d !! "dept_no" = Some k)) as [Heq|Hne].
    + assert (dno = k) by congruence. subst dno.
      destruct (filter _ departments) as [|x l] eqn:Ef.
      * cbn. apply lookup_insert_eq.
      * change (last (d :: x :: l)) with (last (x :: l)).
        destruct (last (x :: l)) eqn:El; [reflexivity|].
        apply last_None in El. discriminate El.
    + destruct (last (filter _ departments)); [reflexivity|].
      apply lookup_insert_ne. congruence.
Qed.

Lemma departments_lookup_of_spec departments (lk : gmap pyval row) st st' :
  DBMigration.departments_lookup_of departments st = (Ok lk, st') ->
  forall k, lk !! k = last (filter (fun d : row => d !! "dept_no" = Some k) departments).
Proof.
  intros H k. unfold DBMigration.departments_lookup_of in H.
  rewrite (departments_lookup_fold departments ∅ lk st st' H k).
  destruct (last _); [reflexivity | apply lookup_empty].
Qed.
End EmbeddedRows.

(** X6.  In a document returned by [transform_employee] there is one
    titles entry per title row, at the same position, with the row's title;
    the entry of a row whose [to_date] is [None] (or otherwise falsy) has
    [to_date] [None], without conversion, and any other [to_date] is
    converted.  Mapping a title row with a falsy [to_date] succeeds when its
    [from_date] converts. *)
Theorem titles_keep_open_interval :
  forall (D : Type) (employee : row) (dept_emps dept_managers salaries titles : list row)
         (departments_lookup : gmap pyval row) (st : state D),
    (forall doc st',
       DBMigration.DataTransformer.transform_employee employee dept_emps dept_managers
         salaries titles departments_lookup st = (Ok doc, st') ->
       length (DBMigration.doc_titles doc) = length titles /\
       forall i tit,
         titles !! i = Some tit ->
         exists entry t,
           DBMigration.doc_titles doc !! i = Some entry /\
           tit !! "title" = Some (DBMigration.te_title entry) /\
           tit !! "to_date" = Some t /\
           if truthy t then converts_to t (DBMigration.te_to_date entry)
           else DBMigration.te_to_date entry = PNone) /\
    (forall tit t f f' v,
       tit !! "title" = Some t -> tit !! "from_date" = Some f -> converts_to f f' ->
       tit !! "to_date" = Some v -> truthy v = false ->
       DBMigration.DataTransformer.title_of tit st
       = (Ok (DBMigration.TitleEntry t f' PNone), st)).
Proof.
  intros D employee des dms sals tits lk st. split.
  - intros doc st' H.
    apply transform_employee_inv_Ok in H as (_ & _ & _ & (s1 & s2 & Ht) & _).
    apply map_m_inv_Ok in Ht as [Hlen Hall]. split; [exact Hlen|].
    intros i tit Hi. destruct (Hall i tit Hi) as (entry & t1 & t2 & Hentry & Hlook).
    apply title_of_inv_Ok in Hentry as (Htitle & _ & (t & Hto & Hconv)).
    exists entry, t. auto.
  - intros tit t f f' v. apply title_of_open_interval.
Qed.

Lemma titles_keep_open_interval_witness :
  exists doc entry,
    (DBMigration.DataTransformer.transform_employee (D:=unit)
       (sample_employee 1 (PDate 1960 1 1)) [] [] []
       [sample_title "Engineer" (PDate 1995 1 1) PNone] ∅ init_state).1 = Ok doc /\
    DBMigration.doc_titles doc !! 0 = Some entry /\
    DBMigration.te_to_date entry = PNone.
Proof.
  destruct (titles_keep_open_interval unit (sample_employee 1 (PDate 1960 1 1)) [] [] []
              [sample_title "Engineer" (PDate 1995 1 1) PNone] ∅ init_state) as [H _].
  edestruct H as [_ H']; [vm_compute; reflexivity|].
  destruct (H' 0 (sample_title "Engineer" (PDate 1995 1 1) PNone) eq_refl)
    as (entry & t & H1 & _ & H3 & H4).
  assert (t = PNone) by (vm_compute in H3; congruence). subst t.
  eexists _, entry. split; [vm_compute; reflexivity|]. split; [exact H1 | exact H4].
Defined.

(** X7.  In a document returned by [transform_employee] there is one
    salaries entry per salary row, at the same position, with the row's
    salary and with both dates of the row converted. *)
Theorem salaries_embedded_in_order :
  forall (D : Type) (employee : row) (dept_emps dept_managers salaries titles : list row)
         (departments_lookup : gmap pyval row) (st : state D) doc st',
    DBMigration.DataTransformer.transform_employee employee dept_emps dept_managers
      salaries titles departments_lookup st = (Ok doc, st') ->
    length (DBMigration.doc_salaries doc) = length salaries /\
    forall i sal,
      salaries !! i = Some sal ->
      exists entry,
        DBMigration.doc_salaries doc !! i = Some entry /\
        sal !! "salary" = Some (DBMigration.se_salary entry) /\
        (exists f, sal !! "from_date" = Some f /\
                   converts_to f (DBMigration.se_from_date entry)) /\
        (exists t, sal !! "to_date" = Some t /\
                   converts_to t (DBMigration.se_to_date entry)).
Proof.
  intros D employee des dms sals tits lk st doc st' H.
  apply transform_employee_inv_Ok in H as (_ & _ & (s1 & s2 & Hs) & _).
  apply map_m_inv_Ok in Hs as [Hlen Hall]. split; [exact Hlen|].
  intros i sal Hi. destruct (Hall i sal Hi) as (entry & t1 & t2 & Hentry & Hlook).
  exists entry. split; [exact Hlook|]. eapply salary_of_inv_Ok, Hentry.
Qed.

Lemma salaries_embedded_in_order_witness :
  exists doc entry,
    (DBMigration.DataTransformer.transform_employee (D:=unit)
       (sample_employee 1 (PDate 1960 1 1)) [] []
       [sample_salary 60000 (PDate 1995 1 1) (PDate 1996 1 1);
        sample_salary 65000 (PDate 1996 1 1) (PDate 9999 1 1)] [] ∅ init_state).1 = Ok doc /\
    DBMigration.doc_salaries doc !! 1 = Some entry /\
    DBMigration.se_salary entry = PInt 65000.
Proof.
  edestruct (salaries_embedded_in_order unit (sample_employee 1 (PDate 1960 1 1)) [] []
               [sample_salary 60000 (PDate 1995 1 1) (PDate 1996 1 1);
                sample_salary 65000 (PDate 1996 1 1) (PDate 9999 1 1)] [] ∅ init_state)
    as [_ H]; [vm_compute; reflexivity|].
  destruct (H 1 (sample_salary 65000 (PDate 1996 1 1) (PDate 9999 1 1)) eq_refl)
    as (entry & H1 & H2 & _).
  eexists _, entry. split; [vm_compute; reflexivity|]. split; [exact H1|].
  assert (Hs : sample_salary 65000 (PDate 1996 1 1) (PDate 9999 1 1) !! "salary"
               = Some (PInt 65000)) by (vm_compute; reflexivity).
  rewrite Hs in H2. injection H2 as H2. symmetry. exact H2.
Defined.

(** X8.  A [to_date] that is [None] in a [dept_emp] row, in a salary row
    or in the first [dept_manager] row makes [transform_employee] raise: no
    document is returned for that employee (only title rows have a guard
    for a missing [to_date]). *)
Theorem null_to_date_fails_employee :
  forall (D : Type) (employee : row) (dept_emps dept_managers salaries titles : list row)
         (departments_lookup : gmap pyval row) (st : state D),
    (exists r, r ∈ dept_emps /\ r !! "to_date" = Some PNone) \/
    (exists r, r ∈ salaries /\ r !! "to_date" = Some PNone) \/
    (exists r, dept_managers !! 0 = Some r /\ r !! "to_date" = Some PNone) ->
    exists e st',
      DBMigration.DataTransformer.transform_employee employee dept_emps dept_managers
        salaries titles departments_lookup st = (Raise e, st') /\
      is_Exception e = true.
Proof.
  intros D employee des dms sals tits lk st Hnull.
  destruct (transform_employee_Ok_or_Raise employee des dms sals tits lk st)
    as [(doc & st' & H)|H]; [exfalso|exact H].
  apply transform_employee_inv_Ok in H as (_ & (a1 & a2 & Hd) & (b1 & b2 & Hs) & _ & Hm).
  destruct Hnull as [(r & Hr & Hto)|[(r & Hr & Hto)|(r & Hr & Hto)]].
  - apply list_elem_of_lookup in Hr as [i Hi].
    apply map_m_inv_Ok in Hd as [_ Hall].
    destruct (Hall i r Hi) as (entry & t1 & t2 & Hentry & _).
    apply department_of_inv_Ok in Hentry as (? & ? & _ & _ & _ & _ & (t & Ht & Hc)).
    assert (t = PNone) by congruence. subst t. exact (not_converts_None _ Hc).
  - apply list_elem_of_lookup in Hr as [i Hi].
    apply map_m_inv_Ok in Hs as [_ Hall].
    destruct (Hall i r Hi) as (entry & t1 & t2 & Hentry & _).
    apply salary_of_inv_Ok in Hentry as (_ & _ & (t & Ht & Hc)).
    assert (t = PNone) by congruence. subst t. exact (not_converts_None _ Hc).
  - destruct dms as [|m dms]; [discriminate Hr|]. inversion Hr; subst m.
    destruct Hm as (me & s1 & s2 & Hme & _).
    apply management_of_inv_Ok in Hme as (_ & _ & t & Ht & Hc).
    assert (t = PNone) by congruence. subst t. exact (not_converts_None _ Hc).
Qed.

Lemma null_to_date_fails_employee_witness :
  exists e st',
    DBMigration.DataTransformer.transform_employee (D:=unit)
      (sample_employee 1 (PDate 1960 1 1)) [] []
      [sample_salary 60000 (PDate 1995 1 1) PNone] [] ∅ init_state = (Raise e, st') /\
    is_Exception e = true.
Proof.
  apply (null_to_date_fails_employee unit (sample_employee 1 (PDate 1960 1 1)) [] []
           [sample_salary 60000 (PDate 1995 1 1) PNone] [] ∅ init_state).
  right. left. exists (sample_salary 60000 (PDate 1995 1 1) PNone).
  split; [apply list_elem_of_here | vm_compute; reflexivity].
Defined.

(** X9.  The department lookup of [main] holds, under each [dept_no], the
    last department row with that [dept_no]; a departments entry of a
    returned document whose [dept_no] is in the lookup carries the
    [dept_no] and [dept_name] of that row. *)
Theorem department_name_from_last_row :
  forall (D : Type) (departments : list row) (lookup : gmap pyval row) (st0 st1 : state D),
    DBMigration.departments_lookup_of departments st0 = (Ok lookup, st1) ->
    (forall k,
       lookup !! k = last (filter (fun d : row => d !! "dept_no" = Some k) departments)) /\
    (forall de dept_no drow entry (st st' : state D),
       DBMigration.DataTransformer.department_of lookup de st = (Ok entry, st') ->
       de !! "dept_no" = Some dept_no ->
       last (filter (fun d : row => d !! "dept_no" = Some dept_no) departments) = Some drow ->
       drow !! "dept_no" = Some (DBMigration.de_dept_no entry) /\
       drow !! "dept_name" = Some (DBMigration.de_dept_name entry)).
Proof.
  intros D departments lookup st0 st1 Hlk.
  pose proof (departments_lookup_of_spec departments lookup st0 st1 Hlk) as Hspec.
  split; [exact Hspec|].
  intros de dept_no drow entry st st' Hentry Hde Hlast.
  apply department_of_inv_Ok in Hentry as (dno & dep & Hd & -> & H1 & H2 & _).
  assert (dno = dept_no) by congruence. subst dno.
  rewrite Hspec, Hlast in H1, H2. cbn in H1, H2. split; assumption.
Qed.

Lemma department_name_from_last_row_witness :
  exists lookup entry,
    (DBMigration.departments_lookup_of (D:=unit)
       [sample_department "d001" "Marketing"; sample_department "d001" "Sales"]
       init_state).1 = Ok lookup /\
    (DBMigration.DataTransformer.department_of (D:=unit) lookup
       (sample_interval 1 "d001" (PDate 1991 1 1) (PDate 1995 1 1)) init_state).1 = Ok entry /\
    sample_department "d001" "Sales" !! "dept_name" = Some (DBMigration.de_dept_name entry).
Proof.
  pose (lookup := <[PStr "d001" := sample_department "d001" "Sales"]>
                    (<[PStr "d001" := sample_department "d001" "Marketing"]>
                       (∅ : gmap pyval row))).
  pose (entry := DBMigration.DepartmentEntry (PStr "d001") (PStr "Sales")
                   (PDate 1991 1 1) (PDate 1995 1 1)).
  assert (Hlk : DBMigration.departments_lookup_of (D:=unit)
                  [sample_department "d001" "Marketing"; sample_department "d001" "Sales"]
                  init_state = (Ok lookup, init_state)) by reflexivity.
  assert (He : DBMigration.DataTransformer.department_of (D:=unit) lookup
                 (sample_interval 1 "d001" (PDate 1991 1 1) (PDate 1995 1 1)) init_state
               = (Ok entry, init_state)) by reflexivity.
  destruct (department_name_from_last_row unit _ lookup init_state init_state Hlk) as [_ H].
  destruct (H _ (PStr "d001") (sample_department "d001" "Sales") entry _ _ He
              eq_refl eq_refl) as [_ H2].
  exists lookup, entry. split; [rewrite Hlk; reflexivity|].
  split; [rewrite He; reflexivity | exact H2].
Defined.

(** ** [main] of [DB_Migration/pipeline.py]: preparation and destination *)

Section Weaken.
Context {D : Type} `{!Bson D}.

Lemma safe_weaken {A} (R R' : state D -> state D -> Prop) (m : M D A) :
  (forall st st', R st st' -> R' st st') -> safe R m -> safe R' m.
Proof.
  intros HR Hm st r st' H. destruct (Hm _ _ _ H) as [H1 H2]. split; [apply HR, H1 | exact H2].
Qed.

Lemma touches_within_refl colls (st : state D) : touches_within colls st st.
Proof.
  split; [reflexivity|].
  exists []. rewrite app_nil_r. split; [reflexivity | constructor].
Qed.

Lemma touches_within_trans colls (s1 s2 s3 : state D) :
  touches_within colls s1 s2 -> touches_within colls s2 s3 -> touches_within colls s1 s3.
Proof.
  intros (S1 & c1 & C1 & F1) (S2 & c2 & C2 & F2).
  split.
  - intros other Hne. rewrite S2, S1 by assumption. reflexivity.
  - exists (c1 ++ c2). split; [rewrite C2, C1, app_assoc; reflexivity|].
    apply Forall_app. split; assumption.
Qed.

Lemma touches_within_log colls l msg args (st : state D) :
  touches_within colls st (logged l msg args st).
Proof.
  split; [reflexivity|].
  exists []. cbn. rewrite app_nil_r. split; [reflexivity | constructor].
Qed.

Lemma touches_only_within coll colls (st st' : state D) :
  coll ∈ colls -> touches_only coll st st' -> touches_within colls st st'.
Proof.
  intros Hin (_ & Hs & cs & Hc & Hf). split.
  - intros other Ho. apply Hs. intros ->. exact (Ho Hin).
  - exists cs. split; [exact Hc|]. eapply Forall_impl; [exact Hf|].
    intros c Hon. cbn beta in *. apply existsb_exists. exists coll.
    split; [apply list_elem_of_In, Hin | exact Hon].
Qed.

Lemma keeps_destination_within colls (st st' : state D) :
  keeps_destination st st' -> touches_within colls st st'.
Proof.
  intros (Hc & Hs). split; [intros; rewrite Hs; reflexivity|].
  exists []. rewrite app_nil_r. split; [exact Hc | constructor].
Qed.

Lemma keeps_destination_refl (st : state D) : keeps_destination st st.
Proof. split; reflexivity. Qed.

Lemma keeps_destination_trans (s1 s2 s3 : state D) :
  keeps_destination s1 s2 -> keeps_destination s2 s3 -> keeps_destination s1 s3.
Proof. intros [H1 H2] [G1 G2]. split; congruence. Qed.

Lemma keeps_destination_log l msg args (st : state D) :
  keeps_destination st (logged l msg args st).
Proof. split; reflexivity. Qed.

Lemma only_logs_keeps_destination (st st' : state D) :
  only_logs st st' -> keeps_destination st st'.
Proof. intros (_ & Hc & Hs). split; assumption. Qed.
End Weaken.

Section MainPreparation.
Implicit Types (st : state DBMigration.document) (E : env DBMigration.document).

Lemma connect_keeps_destination E :
  safe keeps_destination (DBMigration.MySQLExtractor.connect E).
Proof.
  intros st r st' H.
  unfold DBMigration.MySQLExtractor.connect, try_except, bind, pymysql_connect in H.
  destruct (mysql_connect_ok E); cbn in H; inversion H; subst.
  - split; [split; reflexivity | discriminate].
  - split; [split; reflexivity | intros e [= <-]; reflexivity].
Qed.

Lemma connect_inv_Ok E st u st' :
  DBMigration.MySQLExtractor.connect E st = (Ok u, st') -> st_mysql st' = ConnOpen.
Proof.
  unfold DBMigration.MySQLExtractor.connect, try_except, bind, pymysql_connect.
  destruct (mysql_connect_ok E); cbn; intros H; inversion H; subst. reflexivity.
Qed.

Lemma extract_inv_Ok E query st rows st' :
  DBMigration.MySQLExtractor.extract E query st = (Ok rows, st') ->
  mysql_table E query = Some rows /\ st' = st /\ st_mysql st = ConnOpen.
Proof.
  unfold DBMigration.MySQLExtractor.extract, try_except, bind, cursor_fetchall.
  destruct (st_mysql st); cbn; try discriminate.
  destruct (mysql_table E query); cbn; intros H; inversion H; subst. auto.
Qed.

Lemma extract_only_logs E query : safe only_logs (DBMigration.MySQLExtractor.extract E query).
Proof.
  intros st r st' H.
  unfold DBMigration.MySQLExtractor.extract, try_except, bind, cursor_fetchall in H.
  destruct (st_mysql st); [| destruct (mysql_table E query) |]; cbn in H; inversion H; subst;
    (split; [repeat split | first [discriminate | intros e [= <-]; reflexivity]]).
Qed.

Lemma close_keeps_destination : safe keeps_destination (DBMigration.MySQLExtractor.close (D:=DBMigration.document)).
Proof.
  intros st r st' H.
  unfold DBMigration.MySQLExtractor.close, bind, connection_close in H.
  destruct (st_mysql st); cbn in H; inversion H; subst;
    (split; [split; reflexivity | first [discriminate | intros e [= <-]; reflexivity]]).
Qed.

Lemma main_extract_transform_keeps_destination E :
  safe keeps_destination (DBMigration.main_extract_transform E).
Proof.
  unfold DBMigration.main_extract_transform.
  apply safe_bind; [exact keeps_destination_trans | apply connect_keeps_destination | intros _].
  do 6 (apply safe_bind; [exact keeps_destination_trans
                         | eapply safe_weaken; [exact only_logs_keeps_destination
                                               | apply extract_only_logs]
                         | intros ?]).
  apply safe_bind; [exact keeps_destination_trans | | intros ?].
  { apply frame_departments_lookup_of;
      first [exact keeps_destination_refl | exact keeps_destination_trans
            | exact keeps_destination_log]. }
  do 4 (apply safe_bind; [exact keeps_destination_trans | | intros ?];
        [apply frame_index_by_emp;
           first [exact keeps_destination_refl | exact keeps_destination_trans
                 | exact keeps_destination_log]|]).
  apply safe_bind; [exact keeps_destination_trans | | intros ?].
  { apply frame_aggregate;
      first [exact keeps_destination_refl | exact keeps_destination_trans
            | exact keeps_destination_log]. }
  apply safe_ret. exact keeps_destination_refl.
Qed.
End MainPreparation.

Section MissingKeys.
Context {D : Type} `{!Bson D}.
Implicit Types st : state D.

Lemma index_by_emp_missing_fold records : forall (idx0 : gmap pyval (list row)) st,
  ~ Forall (fun r : row => is_Some (r !! "emp_no")) records ->
  fold_m (fun idx record =>
            emp_no <- getitem record "emp_no" ;;
            ret (<[emp_no := default [] (idx !! emp_no) ++ [record]]> idx))
         records idx0 st = (Raise (KeyError "emp_no"), st).
Proof.
  induction records as [|r records IH]; intros idx0 st Hn.
  - exfalso. apply Hn. constructor.
  - cbn [fold_m]. unfold bind at 1. unfold bind at 1. unfold getitem.
    destruct (r !! "emp_no") as [k|] eqn:Hk; cbn; [|reflexivity].
    apply IH. intros Hall. apply Hn. constructor; [eauto | exact Hall].
Qed.

Lemma departments_lookup_missing_fold departments : forall (lk0 : gmap pyval row) st,
  ~ Forall (fun r : row => is_Some (r !! "dept_no")) departments ->
  fold_m (fun lookup dept =>
            dept_no <- getitem dept "dept_no" ;; ret (<[dept_no := dept]> lookup))
         departments lk0 st = (Raise (KeyError "dept_no"), st).
Proof.
  induction departments as [|r departments IH]; intros lk0 st Hn.
  - exfalso. apply Hn. constructor.
  - cbn [fold_m]. unfold bind at 1. unfold bind at 1. unfold getitem.
    destruct (r !! "dept_no") as [k|] eqn:Hk; cbn; [|reflexivity].
    apply IH. intros Hall. apply Hn. constructor; [eauto | exact Hall].
Qed.

Lemma aggregate_missing_fold de dm sal tit lk employees : forall acc st,
  ~ Forall (fun r : row => is_Some (r !! "emp_no")) employees ->
  exists st',
    fold_m (DBMigration.aggregate_step de dm sal tit lk) employees acc st
    = (Raise (KeyError "emp_no"), st').
Proof.
  induction employees as [|emp employees IH]; intros acc st Hn.
  - exfalso. apply Hn. constructor.
  - cbn [fold_m]. destruct (emp !! "emp_no") as [k|] eqn:Hk.
    + destruct (aggregate_step_pure de dm sal tit lk acc emp st (mk_is_Some _ _ Hk))
        as [st1 H1].
      rewrite (bind_Ok _ _ _ _ _ H1). apply IH.
      intros Hall. apply Hn. constructor; [eauto | exact Hall].
    + exists st. apply bind_Raise. unfold DBMigration.aggregate_step.
      apply bind_Raise. unfold getitem. rewrite Hk. reflexivity.
Qed.

Lemma aggregate_inv_Ok de dm sal tit lk employees docs st st' :
  DBMigration.aggregate employees de dm sal tit lk st = (Ok docs, st') ->
  Forall (fun r : row => is_Some (r !! "emp_no")) employees /\
  docs = omap (aggregated_doc (D:=D) de dm sal tit lk) employees.
Proof.
  intros H. unfold DBMigration.aggregate in H.
  assert (Hall : Forall (fun r : row => is_Some (r !! "emp_no")) employees).
  { destruct (decide (Forall (fun r : row => is_Some (r !! "emp_no")) employees))
      as [Hall|Hn]; [exact Hall|].
    destruct (aggregate_missing_fold de dm sal tit lk employees [] st Hn) as [s Hs].
    rewrite Hs in H. discriminate H. }
  split; [exact Hall|].
  destruct (aggregate_fold_pure de dm sal tit lk employees [] st Hall) as [s Hs].
  rewrite Hs in H. inversion H. reflexivity.
Qed.
End MissingKeys.

(** X10.  A row without [emp_no] in a child table or in [employees], or a
    department row without [dept_no], is not skipped: building the index or
    the lookup, or the loop over the employees, raises [KeyError] (the
    handler that skips an employee covers only [transform_employee]). *)
Theorem missing_key_aborts_preparation :
  forall (D : Type) (st : state D),
    (forall records,
       ~ Forall (fun r : row => is_Some (r !! "emp_no")) records ->
       DBMigration.index_by_emp records st = (Raise (KeyError "emp_no"), st)) /\
    (forall departments,
       ~ Forall (fun r : row => is_Some (r !! "dept_no")) departments ->
       DBMigration.departments_lookup_of departments st = (Raise (KeyError "dept_no"), st)) /\
    (forall employees
            (dept_emp_by_emp dept_manager_by_emp salaries_by_emp titles_by_emp
               : gmap pyval (list row))
            (departments_lookup : gmap pyval row),
       ~ Forall (fun r : row => is_Some (r !! "emp_no")) employees ->
       exists st',
         DBMigration.aggregate employees dept_emp_by_emp dept_manager_by_emp
           salaries_by_emp titles_by_emp departments_lookup st
         = (Raise (KeyError "emp_no"), st')).
Proof.
  intros D st. split; [|split].
  - intros records Hn. apply index_by_emp_missing_fold, Hn.
  - intros departments Hn. apply departments_lookup_missing_fold, Hn.
  - intros employees de dm sal tit lk Hn. apply aggregate_missing_fold, Hn.
Qed.

Lemma missing_key_aborts_preparation_witness :
  exists st',
    DBMigration.aggregate (D:=unit)
      [sample_employee 1 (PDate 1960 1 1); sample_department "d001" "Marketing"]
      ∅ ∅ ∅ ∅ ∅ init_state
    = (Raise (KeyError "emp_no"), st').
Proof.
  destruct (missing_key_aborts_preparation unit init_state) as (_ & _ & H).
  apply H. intros Hall. apply Forall_cons in Hall as [_ Hall].
  apply Forall_cons in Hall as [[v Hv] _]. vm_compute in Hv. discriminate Hv.
Defined.

Section MainDestination.
Implicit Types (st : state DBMigration.document) (E : env DBMigration.document).

Lemma init_keeps_destination E : safe keeps_destination (DBMigration.MongoLoader.init E).
Proof.
  intros st r st' H.
  unfold DBMigration.MongoLoader.init, try_except, bind, mongo_client in H.
  destruct (mongo_client_ok E); cbn in H; inversion H; subst;
    (split; [split; reflexivity | first [discriminate | intros e [= <-]; reflexivity]]).
Qed.

Lemma main_touches_within E :
  safe (touches_within ["employees"; "departments"]) (DBMigration.main E).
Proof.
  pose proof (touches_within_refl (D:=DBMigration.document) ["employees"; "departments"]) as Hr.
  pose proof (touches_within_trans (D:=DBMigration.document) ["employees"; "departments"])
    as Ht.
  unfold DBMigration.main.
  apply safe_try_finally; [exact Ht | |].
  - apply safe_try_except; [exact Ht | | intros e _].
    + apply safe_bind; [exact Ht | | intros p].
      * eapply safe_weaken; [apply keeps_destination_within
                            | apply main_extract_transform_keeps_destination].
      * unfold DBMigration.main_load.
        apply safe_bind; [exact Ht | | intros _].
        { eapply safe_weaken; [apply keeps_destination_within | apply init_keeps_destination]. }
        apply safe_bind; [exact Ht | | intros _].
        { eapply safe_weaken; [|apply safe_load_collection_touches_only].
          intros s s'. apply touches_only_within, list_elem_of_here. }
        apply safe_bind; [exact Ht | | intros _].
        { eapply safe_weaken; [|apply safe_load_collection_touches_only].
          intros s s'. apply touches_only_within, list_elem_of_further, list_elem_of_here. }
        apply safe_log. intros. apply touches_within_log.
    + apply safe_log. intros. apply touches_within_log.
  - eapply safe_weaken; [apply keeps_destination_within | apply close_keeps_destination].
Qed.
End MainDestination.

(** X11.  When the preparation of [main] (connecting, the six queries,
    the indexes, the loop over the employees) raises, [main] logs
    "ETL pipeline failed" at level ERROR and returns without a call on the
    destination: no collection is deleted or written.  A source that does
    not connect is such a failure. *)
Theorem main_failed_preparation_loads_nothing :
  forall (E : env DBMigration.document) (st : state DBMigration.document),
    st_mysql st <> ConnClosed ->
    (forall e st1,
       DBMigration.main_extract_transform E st = (Raise e, st1) ->
       exists st',
         DBMigration.main E st = (Ok tt, st') /\
         st_calls st' = st_calls st /\ st_store st' = st_store st /\
         LogRecord ERROR "ETL pipeline failed: %s" [AExn e] ∈ st_log st') /\
    (mysql_connect_ok E = false ->
     exists st1, DBMigration.main_extract_transform E st = (Raise MySQLError, st1)).
Proof.
  intros E st Hc. split.
  - intros e st1 Hp.
    destruct (main_extract_transform_keeps_destination E _ _ _ Hp) as [[Hcalls Hstore] He].
    destruct (keeps_open_main_extract_transform E _ _ _ Hp) as [Hopen _].
    specialize (He e eq_refl). specialize (Hopen Hc).
    unfold DBMigration.main, try_finally.
    rewrite (try_except_Raise _ _ _ _ _ (bind_Raise _ _ _ _ _ Hp) He).
    cbn [log].
    destruct (extractor_close_spec
                (with_log (fun lg => lg ++ [LogRecord ERROR "ETL pipeline failed: %s" [AExn e]])
                   st1) Hopen) as (st' & Hclose & _ & Hcalls' & Hstore' & recs & Hlog).
    rewrite Hclose. exists st'. split; [reflexivity|].
    split; [rewrite Hcalls'; exact Hcalls|]. split; [rewrite Hstore'; exact Hstore|].
    rewrite Hlog. cbn. apply elem_of_app. left. apply elem_of_app. right.
    apply list_elem_of_here.
  - intros Hko. eexists. unfold DBMigration.main_extract_transform. apply bind_Raise.
    unfold DBMigration.MySQLExtractor.connect, try_except, bind, pymysql_connect.
    rewrite Hko. reflexivity.
Qed.

Lemma main_failed_preparation_loads_nothing_witness :
  exists st',
    DBMigration.main (sample_run_env false true rejects_employee_2) init_state = (Ok tt, st') /\
    st_calls st' = [] /\ st_store st' = ∅ /\
    LogRecord ERROR "ETL pipeline failed: %s" [AExn MySQLError] ∈ st_log st'.
Proof.
  destruct (main_failed_preparation_loads_nothing
              (sample_run_env false true rejects_employee_2) init_state
              ltac:(discriminate)) as [H1 H2].
  destruct (H2 eq_refl) as [st1 Hp].
  exact (H1 MySQLError st1 Hp).
Defined.

(** X12.  Whatever the source and the destination answer, every call
    that [main] issues on the destination is a [delete_many] or an
    [insert_many] on collection [employees] or [departments]; every other
    collection is left as it was, and the Mongo client is never closed. *)
Theorem main_touches_only_its_collections :
  forall (E : env DBMigration.document) (st : state DBMigration.document),
    touches_within ["employees"; "departments"] st (DBMigration.main E st).2 /\
    exists cs,
      st_calls (DBMigration.main E st).2 = st_calls st ++ cs /\ CloseClient ∉ cs.
Proof.
  intros E st.
  destruct (DBMigration.main E st) as [r st'] eqn:Hm.
  destruct (main_touches_within E _ _ _ Hm) as [Hw _]. split; [exact Hw|].
  destruct Hw as (_ & cs & Hcs & Hall). exists cs. split; [exact Hcs|].
  intros Hin. rewrite Forall_forall in Hall. specialize (Hall _ Hin). discriminate Hall.
Qed.

Section MainJoin.
Implicit Types (st : state DBMigration.document) (E : env DBMigration.document).

Lemma only_logs_departments_lookup_of departments :
  safe (D:=DBMigration.document) only_logs (DBMigration.departments_lookup_of departments).
Proof.
  apply frame_departments_lookup_of;
    first [exact only_logs_refl | exact only_logs_trans | exact only_logs_log].
Qed.

Lemma only_logs_index_by_emp records :
  safe (D:=DBMigration.document) only_logs (DBMigration.index_by_emp records).
Proof.
  apply frame_index_by_emp;
    first [exact only_logs_refl | exact only_logs_trans | exact only_logs_log].
Qed.

Lemma only_logs_aggregate employees de dm sal tit lk :
  safe (D:=DBMigration.document) only_logs (DBMigration.aggregate employees de dm sal tit lk).
Proof.
  apply frame_aggregate;
    first [exact only_logs_refl | exact only_logs_trans | exact only_logs_log].
Qed.

Lemma omap_ext_eq {A B} (f g : A -> option B) (l : list A) :
  (forall x, f x = g x) -> omap f l = omap g l.
Proof.
  intros Hfg. induction l as [|x l IH]; [reflexivity|].
  cbn. rewrite Hfg. cbn in IH. rewrite IH. reflexivity.
Qed.

(** What the preparation of [main] returns, in terms of the six tables. *)
Lemma main_extract_transform_inv_Ok E st docs departments st1 :
  DBMigration.main_extract_transform E st = (Ok (docs, departments), st1) ->
  st_mysql st1 = ConnOpen /\
  exists employees dept_emp dept_manager salaries titles (lookup : gmap pyval row),
    mysql_table E "SELECT * FROM employees" = Some employees /\
    mysql_table E "SELECT * FROM departments" = Some departments /\
    mysql_table E "SELECT * FROM dept_emp" = Some dept_emp /\
    mysql_table E "SELECT * FROM dept_manager" = Some dept_manager /\
    mysql_table E "SELECT * FROM salaries" = Some salaries /\
    mysql_table E "SELECT * FROM titles" = Some titles /\
    (forall k, lookup !! k = last (filter (fun d : row => d !! "dept_no" = Some k) departments)) /\
    docs = omap (joined_doc (D:=DBMigration.document) dept_emp dept_manager salaries titles
                   lookup) employees.
Proof.
  intros H. unfold DBMigration.main_extract_transform in H.
  apply bind_inv_Ok in H as (u & s0 & Hc & H). apply connect_inv_Ok in Hc.
  apply bind_inv_Ok in H as (employees & s1 & Hx & H).
  apply extract_inv_Ok in Hx as (T1 & -> & _).
  apply bind_inv_Ok in H as (deps & s2 & Hx & H).
  apply extract_inv_Ok in Hx as (T2 & -> & _).
  apply bind_inv_Ok in H as (dept_emp & s3 & Hx & H).
  apply extract_inv_Ok in Hx as (T3 & -> & _).
  apply bind_inv_Ok in H as (dept_manager & s4 & Hx & H).
  apply extract_inv_Ok in Hx as (T4 & -> & _).
  apply bind_inv_Ok in H as (salaries & s5 & Hx & H).
  apply extract_inv_Ok in Hx as (T5 & -> & _).
  apply bind_inv_Ok in H as (titles & s6 & Hx & H).
  apply extract_inv_Ok in Hx as (T6 & -> & _).
  apply bind_inv_Ok in H as (lk & s7 & Hlk & H).
  pose proof (departments_lookup_of_spec _ _ _ _ Hlk) as Hlks.
  destruct (only_logs_departments_lookup_of _ _ _ _ Hlk) as [(M7 & _) _].
  apply bind_inv_Ok in H as (de & s8 & Hde & H).
  pose proof (index_by_emp_spec _ _ _ _ Hde) as Sde.
  destruct (only_logs_index_by_emp _ _ _ _ Hde) as [(M8 & _) _].
  apply bind_inv_Ok in H as (dm & s9 & Hdm & H).
  pose proof (index_by_emp_spec _ _ _ _ Hdm) as Sdm.
  destruct (only_logs_index_by_emp _ _ _ _ Hdm) as [(M9 & _) _].
  apply bind_inv_Ok in H as (sal & s10 & Hsal & H).
  pose proof (index_by_emp_spec _ _ _ _ Hsal) as Ssal.
  destruct (only_logs_index_by_emp _ _ _ _ Hsal) as [(M10 & _) _].
  apply bind_inv_Ok in H as (tit & s11 & Htit & H).
  pose proof (index_by_emp_spec _ _ _ _ Htit) as Stit.
  destruct (only_logs_index_by_emp _ _ _ _ Htit) as [(M11 & _) _].
  apply bind_inv_Ok in H as (ds & s12 & Hagg & H).
  destruct (only_logs_aggregate _ _ _ _ _ _ _ _ _ Hagg) as [(M12 & _) _].
  apply aggregate_inv_Ok in Hagg as [_ Hds].
  inversion H; subst docs departments st1. clear H.
  split; [congruence|].
  exists employees, dept_emp, dept_manager, salaries, titles, lk.
  repeat (split; [assumption|]).
  rewrite Hds. apply omap_ext_eq. intros emp.
  unfold aggregated_doc, joined_doc. destruct (emp !! "emp_no") as [n|]; [|reflexivity].
  rewrite Sde, Sdm, Ssal, Stit. reflexivity.
Qed.

End MainJoin.

Section LoadAll.
Context {D : Type} `{!Bson D}.

Lemma load_collection_all_accepted (E : env D) coll docs B (st : state D) :
  mongo_up E = true -> (0 < B)%Z -> encodable docs ->
  Forall (fun d => mongo_rejects E coll d = false) docs ->
  exists st' : state D,
    DBMigration.MongoLoader.load_collection E coll docs B st = (Ok tt, st') /\
    st_calls st' = st_calls st ++ DeleteMany coll :: (InsertMany coll <$> batches docs B) /\
    st_store st' !! coll = Some docs /\
    (forall other, other <> coll -> st_store st' !! other = st_store st !! other) /\
    st_mysql st' = st_mysql st.
Proof.
  intros Hup HB Henc Hacc.
  destruct (batches_spec docs B HB) as (Hc & Hf & Hl).
  assert (Hex : exists st' : state D,
             DBMigration.MongoLoader.load_collection E coll docs B st = (Ok tt, st') /\
             st_calls st' = st_calls st ++ DeleteMany coll :: (InsertMany coll <$> batches docs B) /\
             st_store st' !! coll = Some docs).
  { destruct (decide (docs = [])) as [->|Hne].
    - eexists. split; [|split].
      + unfold DBMigration.MongoLoader.load_collection, try_except, bind, delete_many.
        rewrite Hup. reflexivity.
      + reflexivity.
      + cbn. apply lookup_insert_eq.
    - rewrite load_collection_loop by assumption.
      pose proof (batches_all_ok E coll docs B Hf Hc Henc Hacc) as Hbs.
      eexists. split; [|split].
      + unfold try_except, bind.
        rewrite (for_each_insert_ok E coll _ Hup Hbs). reflexivity.
      + cbn. rewrite foldl_after_insert_calls. cbn. rewrite <- app_assoc. reflexivity.
      + cbn. rewrite (foldl_after_insert_store E coll _ _ []).
        * rewrite Hc, filter_all_accepted by assumption. reflexivity.
        * cbn. apply lookup_insert_eq. }
  destruct Hex as (st' & Hrun & Hcalls & Hstore). exists st'.
  destruct (safe_load_collection_touches_only E coll docs B _ _ _ Hrun) as [(Hm & Ho & _) _].
  auto 10.
Qed.
End LoadAll.

(** X13.  When the preparation of [main] returns, the departments it
    hands to the loader are the rows of the departments table, and the
    employee documents are, in the order of the employees table, the
    documents of the rows whose transformation succeeds, each transformed
    with exactly the rows of [dept_emp], [dept_manager], [salaries] and
    [titles] that carry its [emp_no], in table order, and with a lookup
    that maps a [dept_no] to the last department row with it. *)
Theorem main_joins_child_rows_by_emp_no :
  forall (E : env DBMigration.document) (st st1 : state DBMigration.document)
         (docs : list DBMigration.emp_doc) (departments : list row),
    DBMigration.main_extract_transform E st = (Ok (docs, departments), st1) ->
    exists employees dept_emp dept_manager salaries titles (lookup : gmap pyval row),
      mysql_table E "SELECT * FROM employees" = Some employees /\
      mysql_table E "SELECT * FROM departments" = Some departments /\
      mysql_table E "SELECT * FROM dept_emp" = Some dept_emp /\
      mysql_table E "SELECT * FROM dept_manager" = Some dept_manager /\
      mysql_table E "SELECT * FROM salaries" = Some salaries /\
      mysql_table E "SELECT * FROM titles" = Some titles /\
      (forall k,
         lookup !! k = last (filter (fun d : row => d !! "dept_no" = Some k) departments)) /\
      docs = omap (joined_doc (D:=DBMigration.document) dept_emp dept_manager salaries titles
                     lookup) employees.
Proof.
  intros E st st1 docs departments H.
  exact (proj2 (main_extract_transform_inv_Ok E st docs departments st1 H)).
Qed.

(** A source whose child tables interleave the rows of two employees:
    employee 1 gets departments [d001] and [d002] and one salary, employee 2
    department [d002] and two salaries, each in table order. *)
Lemma main_joins_child_rows_by_emp_no_witness :
  exists docs (lookup : gmap pyval row),
    (DBMigration.main_extract_transform sample_joined_env init_state).1
    = Ok (docs, [sample_department "d001" "Marketing"; sample_department "d002" "Sales"]) /\
    docs = omap (joined_doc (D:=DBMigration.document) sample_dept_emp sample_dept_manager
                   sample_salaries sample_titles lookup)
             [sample_employee 1 (PStr "1960-01-01"); sample_employee 2 (PStr "1961-02-02")] /\
    (fun d => (DBMigration.doc_emp_no d,
               DBMigration.de_dept_no <$> DBMigration.doc_departments d,
               DBMigration.se_salary <$> DBMigration.doc_salaries d)) <$> docs
    = [(PInt 1, [PStr "d001"; PStr "d002"], [PInt 60000]);
       (PInt 2, [PStr "d002"], [PInt 50000; PInt 52000])].
Proof.
  assert (Hp : exists docs st1,
             DBMigration.main_extract_transform sample_joined_env init_state
             = (Ok (docs, [sample_department "d001" "Marketing";
                           sample_department "d002" "Sales"]), st1) /\
             (fun d => (DBMigration.doc_emp_no d,
                        DBMigration.de_dept_no <$> DBMigration.doc_departments d,
                        DBMigration.se_salary <$> DBMigration.doc_salaries d)) <$> docs
             = [(PInt 1, [PStr "d001"; PStr "d002"], [PInt 60000]);
                (PInt 2, [PStr "d002"], [PInt 50000; PInt 52000])]).
  { eexists _, _. split; [vm_compute; reflexivity|]. vm_compute. reflexivity. }
  destruct Hp as (docs & st1 & Hp & Hvals).
  destruct (main_joins_child_rows_by_emp_no _ _ _ _ _ Hp)
    as (employees & de & dm & sal & tit & lk & T1 & _ & T3 & T4 & T5 & T6 & _ & Hdocs).
  assert (E1 : mysql_table sample_joined_env "SELECT * FROM employees"
               = Some [sample_employee 1 (PStr "1960-01-01");
                       sample_employee 2 (PStr "1961-02-02")]) by reflexivity.
  assert (E3 : mysql_table sample_joined_env "SELECT * FROM dept_emp" = Some sample_dept_emp)
    by reflexivity.
  assert (E4 : mysql_table sample_joined_env "SELECT * FROM dept_manager"
               = Some sample_dept_manager) by reflexivity.
  assert (E5 : mysql_table sample_joined_env "SELECT * FROM salaries" = Some sample_salaries)
    by reflexivity.
  assert (E6 : mysql_table sample_joined_env "SELECT * FROM titles" = Some sample_titles)
    by reflexivity.
  rewrite E1 in T1. rewrite E3 in T3. rewrite E4 in T4. rewrite E5 in T5. rewrite E6 in T6.
  injection T1 as <-. injection T3 as <-. injection T4 as <-. injection T5 as <-.
  injection T6 as <-.
  exists docs, lk. split; [rewrite Hp; reflexivity|]. split; [exact Hdocs | exact Hvals].
Defined.

(** X14.  When the preparation of [main] returns, the destination is
    reachable, the client can encode every prepared document and every
    department row (none holds a [datetime.date] or an [int] beyond 8
    bytes) and the server rejects none of them, [main] returns with
    collection [employees] holding exactly the prepared employee documents
    and collection [departments] exactly the department rows, whatever the
    two collections held before; the calls are, in this order, the delete
    and the batch inserts on [employees], then the delete and the batch
    inserts on [departments], and the source connection ends closed. *)
Theorem main_loads_prepared_documents :
  forall (E : env DBMigration.document) (st st1 : state DBMigration.document)
         (docs : list DBMigration.emp_doc) (departments : list row),
    DBMigration.main_extract_transform E st = (Ok (docs, departments), st1) ->
    mongo_client_ok E = true -> mongo_up E = true ->
    encodable (DBMigration.EmployeeDoc <$> docs) ->
    encodable (DBMigration.RowDoc <$> departments) ->
    Forall (fun d => mongo_rejects E "employees" d = false) (DBMigration.EmployeeDoc <$> docs) ->
    Forall (fun d => mongo_rejects E "departments" d = false)
      (DBMigration.RowDoc <$> departments) ->
    exists st',
      DBMigration.main E st = (Ok tt, st') /\
      st_store st' !! "employees" = Some (DBMigration.EmployeeDoc <$> docs) /\
      st_store st' !! "departments" = Some (DBMigration.RowDoc <$> departments) /\
      st_calls st'
      = st_calls st
        ++ DeleteMany "employees"
           :: (InsertMany "employees" <$> batches (DBMigration.EmployeeDoc <$> docs) 1000)
        ++ DeleteMany "departments"
           :: (InsertMany "departments" <$> batches (DBMigration.RowDoc <$> departments) 1000) /\
      st_mysql st' = ConnClosed /\
      LogRecord INFO "ETL pipeline executed successfully" [] ∈ st_log st'.
Proof.
  intros E st st1 docs departments Hp Hc Hup Eemp Edep Hemp Hdep.
  destruct (main_extract_transform_inv_Ok E st docs departments st1 Hp) as [Hopen _].
  destruct (main_extract_transform_keeps_destination E _ _ _ Hp) as [[Hcalls Hstore] _].
  assert (Hinit : DBMigration.MongoLoader.init E st1
                  = (Ok tt, logged INFO "Connected to MongoDB" [] st1)).
  { unfold DBMigration.MongoLoader.init, try_except, bind, mongo_client. rewrite Hc.
    reflexivity. }
  destruct (load_collection_all_accepted E "employees" (DBMigration.EmployeeDoc <$> docs) 1000
              (logged INFO "Connected to MongoDB" [] st1) Hup ltac:(lia) Eemp Hemp)
    as (s2 & L2 & C2 & S2 & O2 & M2).
  destruct (load_collection_all_accepted E "departments" (DBMigration.RowDoc <$> departments)
              1000 s2 Hup ltac:(lia) Edep Hdep)
    as (s3 & L3 & C3 & S3 & O3 & M3).
  unfold DBMigration.main, try_finally.
  rewrite (try_except_Ok _ _ _ tt (logged INFO "ETL pipeline executed successfully" [] s3)).
  - unfold DBMigration.MySQLExtractor.close.
    assert (Hm3 : st_mysql (logged INFO "ETL pipeline executed successfully" [] s3) = ConnOpen).
    { cbn. rewrite M3, M2. exact Hopen. }
    rewrite Hm3. unfold bind, connection_close. rewrite Hm3. cbn.
    eexists. split; [reflexivity|]. cbn.
    split; [rewrite O3 by discriminate; exact S2|]. split; [exact S3|].
    split; [rewrite C3, C2; cbn; rewrite Hcalls, <- !app_assoc; reflexivity|].
    split; [reflexivity|].
    apply elem_of_app. left. apply elem_of_app. right. apply list_elem_of_here.
  - rewrite (bind_Ok _ _ _ _ _ Hp). cbn [fst snd]. unfold DBMigration.main_load.
    rewrite (bind_Ok _ _ _ _ _ Hinit), (bind_Ok _ _ _ _ _ L2), (bind_Ok _ _ _ _ _ L3).
    reflexivity.
Qed.

Lemma main_loads_prepared_documents_witness :
  exists docs st',
    DBMigration.main (sample_run_env true true (fun _ _ => false)) init_state = (Ok tt, st') /\
    st_store st' !! "employees" = Some (DBMigration.EmployeeDoc <$> docs) /\
    st_store st' !! "departments"
    = Some [DBMigration.RowDoc (sample_department "d001" "Marketing")].
Proof.
  assert (Hp : exists docs st1,
             DBMigration.main_extract_transform (sample_run_env true true (fun _ _ => false))
               init_state = (Ok (docs, [sample_department "d001" "Marketing"]), st1) /\
             forallb bson_encodable (DBMigration.EmployeeDoc <$> docs) = true).
  { eexists _, _. split; [vm_compute; reflexivity|]. vm_compute. reflexivity. }
  destruct Hp as (docs & st1 & Hp & Henc).
  destruct (main_loads_prepared_documents _ _ _ _ _ Hp eq_refl eq_refl)
    as (st' & Hm & He & Hd & _).
  - apply encodable_forallb, Henc.
  - apply encodable_forallb. vm_compute. reflexivity.
  - apply Forall_forall. intros; reflexivity.
  - apply Forall_forall. intros; reflexivity.
  - exists docs, st'. split; [exact Hm|]. split; [exact He | exact Hd].
Defined.

(** ** [ETLPipeline.transform] of [src/pipeline.py]: embedded child rows *)

Section DictUpdate.
Context {V : Type}.
Implicit Types d : list (pyval * V).

Lemma dict_get_update k k0 (f : V -> V) d :
  Pipeline.dict_get k (Pipeline.dict_update k0 f d)
  = if decide (k = k0) then f <$> Pipeline.dict_get k d else Pipeline.dict_get k d.
Proof.
  induction d as [|[k1 v1] d IH]; cbn.
  - destruct (decide (k = k0)); reflexivity.
  - destruct (decide (k0 = k1)) as [->|Hne]; cbn.
    + destruct (decide (k = k1)); reflexivity.
    + destruct (decide (k = k1)) as [->|Hne'].
      * destruct (decide (k1 = k0)); [congruence | reflexivity].
      * exact IH.
Qed.

Lemma dict_get_of_value v d :
  NoDup d.*1 -> v ∈ d.*2 -> exists k, Pipeline.dict_get k d = Some v.
Proof.
  intros Hnd Hin. apply list_elem_of_fmap in Hin as ([k v'] & -> & Hin).
  exists k. apply dict_get_elem_of; assumption.
Qed.
End DictUpdate.

Section EmbedLoops.
Context {D X : Type} `{!Bson D}.
Implicit Types (st : state D) (self : Pipeline.ETLPipeline.fields).
Variable tr : row -> M D X.
Variable app : X -> Pipeline.emp_doc -> Pipeline.emp_doc.
Variable proj : Pipeline.emp_doc -> list X.
Variable step : Pipeline.ETLPipeline.fields -> row -> M D Pipeline.ETLPipeline.fields.
Variable msg : string.
Hypothesis tr_stateless : forall r, stateless (tr r).
Hypothesis proj_app : forall x v, proj (app x v) = proj v ++ [x].
Hypothesis step_eq : forall self r,
  step self r =
  match Pipeline.dict_get (row_emp_no r) (Pipeline.ETLPipeline.employees self) with
  | Some _ =>
      x <- tr r ;;
      ret (Pipeline.ETLPipeline.with_employees
             (Pipeline.dict_update (row_emp_no r) (app x) (Pipeline.ETLPipeline.employees self))
             self)
  | None => log WARNING msg [AVal (row_emp_no r)] ;;; ret self
  end.

Local Abbreviation embedded rows self :=
  (forall k v, Pipeline.dict_get k (Pipeline.ETLPipeline.employees self) = Some v ->
               embeds tr rows k (proj v)).

Lemma embeds_skip rows r k (xs : list X) :
  row_emp_no r <> k -> embeds tr rows k xs -> embeds tr (rows ++ [r]) k xs.
Proof.
  intros Hne H. unfold embeds in *. rewrite filter_app, filter_cons, filter_nil.
  destruct (decide (row_emp_no r = k)); [contradiction|]. rewrite app_nil_r. exact H.
Qed.

Lemma embeds_snoc rows r (xs : list X) x :
  pure_of (tr r) = Ok x -> embeds tr rows (row_emp_no r) xs ->
  embeds tr (rows ++ [r]) (row_emp_no r) (xs ++ [x]).
Proof.
  intros Hx H. unfold embeds in *. rewrite filter_app, filter_cons, filter_nil.
  destruct (decide (row_emp_no r = row_emp_no r)); [|congruence].
  apply Forall2_app; [exact H|]. constructor; [exact Hx | constructor].
Qed.

Lemma embed_step_embedded rows self r st self' st' :
  embedded rows self -> step self r st = (Ok self', st') -> embedded (rows ++ [r]) self'.
Proof.
  intros Hinv H. rewrite step_eq in H.
  destruct (Pipeline.dict_get (row_emp_no r) (Pipeline.ETLPipeline.employees self)) as [v0|] eqn:Hg.
  - apply bind_inv_Ok in H as (x & s1 & Hx & H). inversion H; subst self' st'. clear H.
    assert (Hp : pure_of (tr r) = Ok x).
    { rewrite <- (tr_stateless r st), Hx. reflexivity. }
    intros k v Hk. cbn in Hk. rewrite dict_get_update in Hk.
    destruct (decide (k = row_emp_no r)) as [->|Hne].
    + rewrite Hg in Hk. cbn in Hk. inversion Hk; subst v. rewrite proj_app.
      apply embeds_snoc; [exact Hp | apply Hinv, Hg].
    + apply embeds_skip; [congruence | apply Hinv, Hk].
  - apply bind_inv_Ok in H as (u & s1 & _ & H). inversion H; subst self' st'. clear H.
    intros k v Hk. apply embeds_skip; [|apply Hinv, Hk]. intros Heq. subst k. congruence.
Qed.

Lemma embed_loop_embedded rs : forall done self st self' st',
  embedded done self -> fold_m step rs self st = (Ok self', st') ->
  embedded (done ++ rs) self'.
Proof.
  induction rs as [|r rs IH]; intros done self st self' st' Hinv H.
  - inversion H; subst. rewrite app_nil_r. exact Hinv.
  - cbn [fold_m] in H. apply bind_inv_Ok in H as (self1 & s1 & H1 & H).
    replace (done ++ r :: rs) with ((done ++ [r]) ++ rs) by (rewrite <- app_assoc; reflexivity).
    eapply IH; [|exact H]. eapply embed_step_embedded; eassumption.
Qed.

Section Keeps.
Context {Y : Type}.
Variable keep : Pipeline.emp_doc -> Y.
Hypothesis keep_app : forall x v, keep (app x v) = keep v.

Local Abbreviation kept self self' :=
  ((Pipeline.ETLPipeline.employees self').*1 = (Pipeline.ETLPipeline.employees self).*1 /\
   forall k v', Pipeline.dict_get k (Pipeline.ETLPipeline.employees self') = Some v' ->
     exists v, Pipeline.dict_get k (Pipeline.ETLPipeline.employees self) = Some v /\
               keep v' = keep v).

Lemma embed_step_kept self r st self' st' :
  step self r st = (Ok self', st') -> kept self self'.
Proof.
  intros H. rewrite step_eq in H.
  destruct (Pipeline.dict_get (row_emp_no r) (Pipeline.ETLPipeline.employees self)) as [v0|] eqn:Hg.
  - apply bind_inv_Ok in H as (x & s1 & Hx & H). inversion H; subst self' st'. clear H.
    split; [cbn; apply dict_update_keys|].
    intros k v' Hk. cbn in Hk. rewrite dict_get_update in Hk.
    destruct (decide (k = row_emp_no r)) as [->|Hne].
    + rewrite Hg in Hk. cbn in Hk. inversion Hk; subst v'. exists v0.
      split; [exact Hg | apply keep_app].
    + exists v'. split; [exact Hk | reflexivity].
  - apply bind_inv_Ok in H as (u & s1 & _ & H). inversion H; subst self' st'. clear H.
    split; [reflexivity|]. intros k v' Hk. exists v'. split; [exact Hk | reflexivity].
Qed.

Lemma embed_loop_kept rs self st self' st' :
  fold_m step rs self st = (Ok self', st') -> kept self self'.
Proof.
  revert self st. induction rs as [|r rs IH]; intros self st H.
  - inversion H; subst. split; [reflexivity|]. intros k v' Hk. exists v'. auto.
  - cbn [fold_m] in H. apply bind_inv_Ok in H as (self1 & s1 & H1 & H).
    destruct (embed_step_kept _ _ _ _ _ H1) as [K1 P1].
    destruct (IH _ _ H) as [K2 P2]. split; [congruence|].
    intros k v' Hk. destruct (P2 k v' Hk) as (v1 & Hv1 & E1).
    destruct (P1 k v1 Hv1) as (v & Hv & E). exists v. split; [exact Hv | congruence].
Qed.
End Keeps.
End EmbedLoops.

Section TransformChildren.
Context {D : Type} `{!Bson D}.
Implicit Types (st : state D) (self : Pipeline.ETLPipeline.fields).

Lemma stateless_transform_title r :
  stateless (D:=D) (Pipeline.DataTransformer.transform_title r).
Proof.
  unfold Pipeline.DataTransformer.transform_title.
  apply stateless_bind; [apply stateless_transform_date | intros b].
  apply stateless_bind; [apply stateless_transform_date | intros h].
  apply stateless_ret.
Qed.

Lemma stateless_transform_salary r :
  stateless (D:=D) (Pipeline.DataTransformer.transform_salary r).
Proof.
  unfold Pipeline.DataTransformer.transform_salary.
  apply stateless_bind; [apply stateless_transform_date | intros b].
  apply stateless_bind; [apply stateless_transform_date | intros h].
  apply stateless_ret.
Qed.

Lemma stateless_transform_department_assignment r :
  stateless (D:=D) (Pipeline.DataTransformer.transform_department_assignment r).
Proof.
  unfold Pipeline.DataTransformer.transform_department_assignment.
  apply stateless_bind; [apply stateless_transform_date | intros b].
  apply stateless_bind; [apply stateless_transform_date | intros h].
  apply stateless_ret.
Qed.

Lemma stateless_transform_dept_manager r :
  stateless (D:=D) (Pipeline.DataTransformer.transform_dept_manager r).
Proof.
  unfold Pipeline.DataTransformer.transform_dept_manager.
  apply stateless_bind; [apply stateless_transform_date | intros b].
  apply stateless_bind; [apply stateless_transform_date | intros h].
  apply stateless_ret.
Qed.

Lemma pure_transform_employee_lists r v :
  pure_of (D:=D) (Pipeline.DataTransformer.transform_employee r) = Ok v ->
  Pipeline.doc_titles v = [] /\ Pipeline.doc_salaries v = [] /\
  Pipeline.doc_departments v = [].
Proof.
  unfold pure_of, Pipeline.DataTransformer.transform_employee.
  destruct (never_raises_transform_date (D:=D) (row_get r "birth_date") init_state)
    as (b & st1 & Hb).
  destruct (never_raises_transform_date (D:=D) (row_get r "hire_date") st1) as (h & st2 & Hh).
  rewrite (bind_Ok _ _ _ _ _ Hb), (bind_Ok _ _ _ _ _ Hh). cbn.
  intros H. inversion H; subst. auto.
Qed.

Lemma embeds_nil {X} (tr : row -> M D X) k : embeds tr [] k [].
Proof. unfold embeds. rewrite filter_nil. constructor. Qed.

(** The loops over the child tables, from the dictionary that the loop
    over the employees leaves. *)
Lemma child_loops_spec self1 self2 self3 self4 titles salaries dept_emp st1 st2 st3 st4 :
  (forall k v, Pipeline.dict_get k (Pipeline.ETLPipeline.employees self1) = Some v ->
     Pipeline.doc_emp_no v = k /\ Pipeline.doc_titles v = [] /\
     Pipeline.doc_salaries v = [] /\ Pipeline.doc_departments v = []) ->
  fold_m Pipeline.ETLPipeline.title_step titles self1 st1 = (Ok self2, st2) ->
  fold_m Pipeline.ETLPipeline.salary_step salaries self2 st2 = (Ok self3, st3) ->
  fold_m Pipeline.ETLPipeline.dept_emp_step dept_emp self3 st3 = (Ok self4, st4) ->
  (Pipeline.ETLPipeline.employees self4).*1 = (Pipeline.ETLPipeline.employees self1).*1 /\
  forall k v, Pipeline.dict_get k (Pipeline.ETLPipeline.employees self4) = Some v ->
    Pipeline.doc_emp_no v = k /\
    embeds (D:=D) Pipeline.DataTransformer.transform_title titles k (Pipeline.doc_titles v) /\
    embeds (D:=D) Pipeline.DataTransformer.transform_salary salaries k
      (Pipeline.doc_salaries v) /\
    embeds (D:=D) Pipeline.DataTransformer.transform_department_assignment dept_emp k
      (Pipeline.doc_departments v).
Proof.
  intros B1 H2 H3 H4.
  (* titles *)
  pose proof (embed_loop_embedded Pipeline.DataTransformer.transform_title
                Pipeline.ETLPipeline.append_title Pipeline.doc_titles
                Pipeline.ETLPipeline.title_step _
                stateless_transform_title (fun x v => eq_refl) (fun self r => eq_refl)
                titles [] self1 st1 self2 st2) as T2.
  cbn [app] in T2.
  specialize (T2 ltac:(intros k v Hk; destruct (B1 k v Hk) as (_ & -> & _); apply embeds_nil) H2).
  destruct (embed_loop_kept Pipeline.DataTransformer.transform_title
              Pipeline.ETLPipeline.append_title Pipeline.ETLPipeline.title_step _
              (fun self r => eq_refl)
              (fun v => (Pipeline.doc_emp_no v, Pipeline.doc_salaries v,
                         Pipeline.doc_departments v))
              (fun x v => eq_refl) titles self1 st1 self2 st2 H2) as [K2 P2].
  (* salaries *)
  pose proof (embed_loop_embedded Pipeline.DataTransformer.transform_salary
                Pipeline.ETLPipeline.append_salary Pipeline.doc_salaries
                Pipeline.ETLPipeline.salary_step _
                stateless_transform_salary (fun x v => eq_refl) (fun self r => eq_refl)
                salaries [] self2 st2 self3 st3) as T3.
  cbn [app] in T3.
  assert (I3 : forall k v, Pipeline.dict_get k (Pipeline.ETLPipeline.employees self2) = Some v ->
                 embeds (D:=D) Pipeline.DataTransformer.transform_salary [] k
                   (Pipeline.doc_salaries v)).
  { intros k v Hk. destruct (P2 k v Hk) as (v1 & Hv1 & E).
    destruct (B1 k v1 Hv1) as (_ & _ & Hs & _). inversion E as [[E1 E2 E3]].
    rewrite E2, Hs. apply embeds_nil. }
  specialize (T3 I3 H3).
  destruct (embed_loop_kept Pipeline.DataTransformer.transform_salary
              Pipeline.ETLPipeline.append_salary Pipeline.ETLPipeline.salary_step _
              (fun self r => eq_refl)
              (fun v => (Pipeline.doc_emp_no v, Pipeline.doc_titles v,
                         Pipeline.doc_departments v))
              (fun x v => eq_refl) salaries self2 st2 self3 st3 H3) as [K3 P3].
  (* departments *)
  pose proof (embed_loop_embedded Pipeline.DataTransformer.transform_department_assignment
                Pipeline.ETLPipeline.append_department Pipeline.doc_departments
                Pipeline.ETLPipeline.dept_emp_step _
                stateless_transform_department_assignment (fun x v => eq_refl)
                (fun self r => eq_refl)
                dept_emp [] self3 st3 self4 st4) as T4.
  cbn [app] in T4.
  assert (I4 : forall k v, Pipeline.dict_get k (Pipeline.ETLPipeline.employees self3) = Some v ->
                 embeds (D:=D) Pipeline.DataTransformer.transform_department_assignment [] k
                   (Pipeline.doc_departments v)).
  { intros k v Hk. destruct (P3 k v Hk) as (v2 & Hv2 & E).
    destruct (P2 k v2 Hv2) as (v1 & Hv1 & E').
    destruct (B1 k v1 Hv1) as (_ & _ & _ & Hd).
    inversion E as [[E1 E2 E3]]. inversion E' as [[F1 F2 F3]].
    rewrite E3, F3, Hd. apply embeds_nil. }
  specialize (T4 I4 H4).
  destruct (embed_loop_kept Pipeline.DataTransformer.transform_department_assignment
              Pipeline.ETLPipeline.append_department Pipeline.ETLPipeline.dept_emp_step _
              (fun self r => eq_refl)
              (fun v => (Pipeline.doc_emp_no v, Pipeline.doc_titles v,
                         Pipeline.doc_salaries v))
              (fun x v => eq_refl) dept_emp self3 st3 self4 st4 H4) as [K4 P4].
  split; [congruence|].
  intros k v Hk.
  destruct (P4 k v Hk) as (v3 & Hv3 & E4). inversion E4 as [[E41 E42 E43]].
  destruct (P3 k v3 Hv3) as (v2 & Hv2 & E3). inversion E3 as [[E31 E32 E33]].
  destruct (P2 k v2 Hv2) as (v1 & Hv1 & E2). inversion E2 as [[E21 E22 E23]].
  destruct (B1 k v1 Hv1) as (Hno & _).
  split; [congruence|]. split; [|split].
  - rewrite E42, E32. apply T2, Hv2.
  - rewrite E43. apply T3, Hv3.
  - apply T4, Hk.
Qed.
End TransformChildren.

Section TransformLists.
Context {D : Type} `{!Bson D}.
Implicit Types (st : state D) (self : Pipeline.ETLPipeline.fields).

Local Abbreviation same_lists self self' :=
  (Pipeline.ETLPipeline.departments self' = Pipeline.ETLPipeline.departments self /\
   Pipeline.ETLPipeline.dept_managers self' = Pipeline.ETLPipeline.dept_managers self).

Lemma employee_step_same_lists self r st self' st' :
  Pipeline.ETLPipeline.employee_step self r st = (Ok self', st') -> same_lists self self'.
Proof.
  unfold Pipeline.ETLPipeline.employee_step. intros H.
  apply bind_inv_Ok in H as (x & s1 & _ & H). inversion H; subst. split; reflexivity.
Qed.

Lemma title_step_same_lists self r st self' st' :
  Pipeline.ETLPipeline.title_step self r st = (Ok self', st') -> same_lists self self'.
Proof.
  unfold Pipeline.ETLPipeline.title_step. destruct (Pipeline.dict_get _ _); intros H;
    apply bind_inv_Ok in H as (x & s1 & _ & H); inversion H; subst; split; reflexivity.
Qed.

Lemma salary_step_same_lists self r st self' st' :
  Pipeline.ETLPipeline.salary_step self r st = (Ok self', st') -> same_lists self self'.
Proof.
  unfold Pipeline.ETLPipeline.salary_step. destruct (Pipeline.dict_get _ _); intros H;
    apply bind_inv_Ok in H as (x & s1 & _ & H); inversion H; subst; split; reflexivity.
Qed.

Lemma dept_emp_step_same_lists self r st self' st' :
  Pipeline.ETLPipeline.dept_emp_step self r st = (Ok self', st') -> same_lists self self'.
Proof.
  unfold Pipeline.ETLPipeline.dept_emp_step. destruct (Pipeline.dict_get _ _); intros H;
    apply bind_inv_Ok in H as (x & s1 & _ & H); inversion H; subst; split; reflexivity.
Qed.

Lemma same_lists_loop {A} (step : Pipeline.ETLPipeline.fields -> A -> M D _) l :
  (forall self x st self' st', step self x st = (Ok self', st') -> same_lists self self') ->
  forall self st self' st', fold_m step l self st = (Ok self', st') -> same_lists self self'.
Proof.
  intros Hstep.
  apply (fold_m_rel (fun a b => same_lists a b)); [auto | | exact Hstep].
  intros a b c [H1 H2] [G1 G2]. split; congruence.
Qed.

Lemma department_loop rows : forall self st,
  fold_m (D:=D) Pipeline.ETLPipeline.department_step rows self st
  = (Ok (Pipeline.ETLPipeline.Fields
           (Pipeline.ETLPipeline.employees self)
           (Pipeline.ETLPipeline.departments self
              ++ (Pipeline.DataTransformer.transform_department <$> rows))
           (Pipeline.ETLPipeline.dept_managers self)), st).
Proof.
  induction rows as [|r rows IH]; intros self st; cbn [fold_m fmap list_fmap].
  - rewrite app_nil_r. destruct self; reflexivity.
  - unfold bind at 1. unfold Pipeline.ETLPipeline.department_step at 1. cbn [ret].
    rewrite IH. cbn. rewrite <- app_assoc. reflexivity.
Qed.

Lemma dept_manager_loop rows : forall self st self' st',
  fold_m Pipeline.ETLPipeline.dept_manager_step rows self st = (Ok self', st') ->
  Pipeline.ETLPipeline.employees self' = Pipeline.ETLPipeline.employees self /\
  Pipeline.ETLPipeline.departments self' = Pipeline.ETLPipeline.departments self /\
  exists dms,
    Pipeline.ETLPipeline.dept_managers self' = Pipeline.ETLPipeline.dept_managers self ++ dms /\
    Forall2 (fun r d => pure_of (D:=D) (Pipeline.DataTransformer.transform_dept_manager r) = Ok d)
      rows dms.
Proof.
  induction rows as [|r rows IH]; intros self st self' st' H.
  - inversion H; subst. repeat split. exists []. rewrite app_nil_r. split; [reflexivity|constructor].
  - cbn [fold_m] in H. apply bind_inv_Ok in H as (self1 & s1 & H1 & H).
    unfold Pipeline.ETLPipeline.dept_manager_step in H1.
    apply bind_inv_Ok in H1 as (x & s2 & Hx & H1). inversion H1; subst self1 s1. clear H1.
    destruct (IH _ _ _ _ H) as (E1 & E2 & dms & E3 & Hall). cbn in E1, E2, E3.
    split; [exact E1|]. split; [exact E2|]. exists (x :: dms).
    split; [rewrite E3, <- app_assoc; reflexivity|].
    constructor; [|exact Hall].
    rewrite <- (stateless_transform_dept_manager r st), Hx. reflexivity.
Qed.

Lemma pure_transform_dept_manager_inv r d :
  pure_of (D:=D) (Pipeline.DataTransformer.transform_dept_manager r) = Ok d ->
  Pipeline.dm_emp_no d = row_get r "emp_no" /\
  Pipeline.dm_dept_no d = row_get r "dept_no" /\
  pure_of (D:=D) (Pipeline.DataTransformer.transform_date (row_get r "from_date"))
  = Ok (Pipeline.dm_from_date d) /\
  pure_of (D:=D) (Pipeline.DataTransformer.transform_date (row_get r "to_date"))
  = Ok (Pipeline.dm_to_date d).
Proof.
  unfold pure_of at 1. unfold Pipeline.DataTransformer.transform_dept_manager. intros H.
  destruct (bind _ _ init_state) as [r0 s0] eqn:Hb. cbn in H. subst r0.
  apply bind_inv_Ok in Hb as (f & s1 & Hf & Hb).
  apply bind_inv_Ok in Hb as (t & s2 & Ht & Hb).
  inversion Hb; subst d s0. cbn. split; [reflexivity|]. split; [reflexivity|]. split.
  - unfold pure_of. rewrite Hf. reflexivity.
  - rewrite <- (stateless_transform_date (row_get r "to_date") s1), Ht. reflexivity.
Qed.
End TransformLists.

(** X15.  [ETLPipeline.transform] on a fresh object returns, and in every
    employee document it returns the titles are the transformed rows of the
    titles table that carry the document's [emp_no], in table order; the
    same holds for the salaries and for the department assignments.  A
    child row whose [emp_no] is not the [emp_no] of an employee row is in
    no document. *)
Theorem transform_embeds_child_rows :
  forall (D : Type) (data : Pipeline.ETLPipeline.extracted) (st : state D),
    exists self' t st',
      Pipeline.ETLPipeline.transform (Pipeline.ETLPipeline.Fields [] [] []) data st
      = (Ok (self', t), st') /\
      forall doc,
        doc ∈ Pipeline.ETLPipeline.t_employees t ->
        embeds (D:=D) Pipeline.DataTransformer.transform_title
          (Pipeline.ETLPipeline.x_titles data) (Pipeline.doc_emp_no doc)
          (Pipeline.doc_titles doc) /\
        embeds (D:=D) Pipeline.DataTransformer.transform_salary
          (Pipeline.ETLPipeline.x_salaries data) (Pipeline.doc_emp_no doc)
          (Pipeline.doc_salaries doc) /\
        embeds (D:=D) Pipeline.DataTransformer.transform_department_assignment
          (Pipeline.ETLPipeline.x_dept_emp data) (Pipeline.doc_emp_no doc)
          (Pipeline.doc_departments doc).
Proof.
  intros D data st.
  destruct (never_raises_transform (Pipeline.ETLPipeline.Fields [] [] []) data st)
    as ([self' t] & st' & Ht).
  exists self', t, st'. split; [exact Ht|].
  unfold Pipeline.ETLPipeline.transform in Ht.
  apply try_except_inv_Ok in Ht; [|intros e s; reflexivity].
  apply bind_inv_Ok in Ht as (self1 & s1 & H1 & Ht).
  apply bind_inv_Ok in Ht as (self2 & s2 & H2 & Ht).
  apply bind_inv_Ok in Ht as (self3 & s3 & H3 & Ht).
  apply bind_inv_Ok in Ht as (self4 & s4 & H4 & Ht).
  apply bind_inv_Ok in Ht as (self5 & s5 & H5 & Ht).
  apply bind_inv_Ok in Ht as (self6 & s6 & H6 & Ht).
  inversion Ht; subst self' t st'. clear Ht. cbn [Pipeline.ETLPipeline.t_employees].
  destruct (employee_loop (Pipeline.ETLPipeline.x_employees data) []
              (Pipeline.ETLPipeline.Fields [] [] []) st last_wins_empty)
    as (self1' & s1' & H1' & Hlw).
  rewrite H1 in H1'. inversion H1'; subst self1' s1'. clear H1'. cbn [app] in Hlw.
  assert (B1 : forall k v,
             Pipeline.dict_get k (Pipeline.ETLPipeline.employees self1) = Some v ->
             Pipeline.doc_emp_no v = k /\ Pipeline.doc_titles v = [] /\
             Pipeline.doc_salaries v = [] /\ Pipeline.doc_departments v = []).
  { intros k v Hk. destruct Hlw as (_ & _ & Hlast).
    destruct (Hlast k v Hk) as (pre & r & post & _ & Hr & _ & Hp).
    split; [rewrite <- Hr; eapply pure_transform_employee_emp_no, Hp|].
    eapply pure_transform_employee_lists, Hp. }
  destruct (child_loops_spec _ _ _ _ _ _ _ _ _ _ _ B1 H2 H3 H4) as [Hkeys Hdocs].
  rewrite department_loop in H5. inversion H5; subst self5 s5. clear H5.
  apply dept_manager_loop in H6 as (E6 & _). cbn in E6.
  intros doc Hin. unfold Pipeline.dict_values in Hin. rewrite E6 in Hin.
  destruct (dict_get_of_value doc (Pipeline.ETLPipeline.employees self4)) as [k Hk];
    [rewrite Hkeys; apply Hlw | exact Hin |].
  destruct (Hdocs k doc Hk) as (Hno & Hd). rewrite Hno. exact Hd.
Qed.

Lemma transform_embeds_child_rows_witness :
  exists self' t st' doc,
    Pipeline.ETLPipeline.transform (D:=unit) (Pipeline.ETLPipeline.Fields [] [] [])
      (Pipeline.ETLPipeline.Extracted
         [sample_employee 1 (PStr "1960-01-01")]
         [sample_title "Engineer" (PStr "1995-01-01") PNone;
          sample_interval 5 "d001" (PStr "1995-01-01") PNone;
          sample_title "Senior Engineer" (PStr "1999-01-01") PNone] [] [] [] [])
      init_state = (Ok (self', t), st') /\
    doc ∈ Pipeline.ETLPipeline.t_employees t /\
    embeds (D:=unit) Pipeline.DataTransformer.transform_title
      [sample_title "Engineer" (PStr "1995-01-01") PNone;
       sample_interval 5 "d001" (PStr "1995-01-01") PNone;
       sample_title "Senior Engineer" (PStr "1999-01-01") PNone]
      (Pipeline.doc_emp_no doc) (Pipeline.doc_titles doc).
Proof.
  destruct (transform_embeds_child_rows unit
              (Pipeline.ETLPipeline.Extracted
                 [sample_employee 1 (PStr "1960-01-01")]
                 [sample_title "Engineer" (PStr "1995-01-01") PNone;
                  sample_interval 5 "d001" (PStr "1995-01-01") PNone;
                  sample_title "Senior Engineer" (PStr "1999-01-01") PNone] [] [] [] [])
              init_state) as (self' & t & st' & Ht & Hall).
  exists self', t, st'.
  assert (Hdoc : exists doc, Pipeline.ETLPipeline.t_employees t = [doc]).
  { pose proof Ht as Ht'. vm_compute in Ht'. inversion Ht'; subst. eexists. reflexivity. }
  destruct Hdoc as (doc & Hd). exists doc.
  assert (Hin : doc ∈ Pipeline.ETLPipeline.t_employees t).
  { rewrite Hd. apply list_elem_of_here. }
  split; [exact Ht|]. split; [exact Hin|].
  destruct (Hall doc Hin) as (Htitles & _). exact Htitles.
Defined.

(** X16.  [ETLPipeline.transform] appends to the lists the object already
    holds: the departments it returns are the departments the object held
    before followed by one document per department row, holding the row's
    [dept_no] and [dept_name] ([None] for a missing column), and the
    managers are the ones held before followed by one document per
    [dept_manager] row, in table order, holding the row's [emp_no] and
    [dept_no] and its two dates as [transform_date] returns them.  The
    object keeps both lists, so a second call on the same object returns
    the first call's departments again. *)
Theorem transform_appends_departments_and_managers :
  forall (D : Type) (self : Pipeline.ETLPipeline.fields)
         (data : Pipeline.ETLPipeline.extracted) (st : state D),
    exists self' t st',
      Pipeline.ETLPipeline.transform self data st = (Ok (self', t), st') /\
      Pipeline.ETLPipeline.t_departments t
      = Pipeline.ETLPipeline.departments self
        ++ ((fun r => Pipeline.DepartmentDoc (row_get r "dept_no") (row_get r "dept_name"))
              <$> Pipeline.ETLPipeline.x_departments data) /\
      Pipeline.ETLPipeline.departments self' = Pipeline.ETLPipeline.t_departments t /\
      Pipeline.ETLPipeline.dept_managers self' = Pipeline.ETLPipeline.t_dept_manager t /\
      exists dms,
        Pipeline.ETLPipeline.t_dept_manager t = Pipeline.ETLPipeline.dept_managers self ++ dms /\
        Forall2 (fun r d =>
                   Pipeline.dm_emp_no d = row_get r "emp_no" /\
                   Pipeline.dm_dept_no d = row_get r "dept_no" /\
                   pure_of (D:=D)
                     (Pipeline.DataTransformer.transform_date (row_get r "from_date"))
                   = Ok (Pipeline.dm_from_date d) /\
                   pure_of (D:=D)
                     (Pipeline.DataTransformer.transform_date (row_get r "to_date"))
                   = Ok (Pipeline.dm_to_date d))
          (Pipeline.ETLPipeline.x_dept_manager data) dms.
Proof.
  intros D self data st.
  destruct (never_raises_transform self data st) as ([self' t] & st' & Ht).
  exists self', t, st'. split; [exact Ht|].
  unfold Pipeline.ETLPipeline.transform in Ht.
  apply try_except_inv_Ok in Ht; [|intros e s; reflexivity].
  apply bind_inv_Ok in Ht as (self1 & s1 & H1 & Ht).
  apply bind_inv_Ok in Ht as (self2 & s2 & H2 & Ht).
  apply bind_inv_Ok in Ht as (self3 & s3 & H3 & Ht).
  apply bind_inv_Ok in Ht as (self4 & s4 & H4 & Ht).
  apply bind_inv_Ok in Ht as (self5 & s5 & H5 & Ht).
  apply bind_inv_Ok in Ht as (self6 & s6 & H6 & Ht).
  inversion Ht; subst self' t st'. clear Ht.
  cbn [Pipeline.ETLPipeline.t_departments Pipeline.ETLPipeline.t_dept_manager].
  destruct (same_lists_loop _ _ employee_step_same_lists _ _ _ _ H1) as [D1 M1].
  destruct (same_lists_loop _ _ title_step_same_lists _ _ _ _ H2) as [D2 M2].
  destruct (same_lists_loop _ _ salary_step_same_lists _ _ _ _ H3) as [D3 M3].
  destruct (same_lists_loop _ _ dept_emp_step_same_lists _ _ _ _ H4) as [D4 M4].
  rewrite department_loop in H5. inversion H5; subst self5 s5. clear H5.
  apply dept_manager_loop in H6 as (_ & E6 & dms & F6 & Hall). cbn in E6, F6.
  split; [rewrite E6; cbn; rewrite D4, D3, D2, D1; reflexivity|].
  split; [reflexivity|]. split; [reflexivity|].
  exists dms. split; [rewrite F6; congruence|].
  eapply Forall2_impl; [exact Hall|]. intros r d Hd. apply pure_transform_dept_manager_inv, Hd.
Qed.

(** ** Loading and extraction in [src/pipeline.py] *)

Section PipelineLoad.
Implicit Types (st : state Pipeline.document) (E : env Pipeline.document).

Lemma insert_many_appended E coll (docs : list Pipeline.document) st :
  docs <> [] -> appended E coll docs st (insert_many E coll docs st).2.
Proof.
  intros Hne. unfold appended, stored, insert_many.
  destruct docs as [|d docs]; [congruence|].
  destruct (mongo_up E).
  - destruct (forallb bson_encodable (d :: docs)).
    + destruct (rejected_from _ _ _); cbn [snd]; (split; [|split]);
        try (cbn; rewrite lookup_insert_eq; reflexivity);
        try (intros other Ho; cbn; apply lookup_insert_ne; congruence);
        reflexivity.
    + cbn [snd]. split; [cbn; rewrite app_nil_r; reflexivity|].
      split; [reflexivity|]. reflexivity.
  - cbn [snd]. split; [reflexivity|]. split; [reflexivity|]. reflexivity.
Qed.

Lemma appended_nil E coll st l msg args : appended E coll [] st (logged l msg args st).
Proof.
  split; [|split; [reflexivity | cbn; rewrite app_nil_r; reflexivity]].
  destruct (mongo_up E); [|reflexivity]. unfold stored. cbn. rewrite app_nil_r. reflexivity.
Qed.

Lemma insert_employees_appended E emps st :
  appended E "employees" (Pipeline.DEmployee <$> emps) st
    (Pipeline.MongoDBLoader.insert_employees E emps st).2.
Proof.
  destruct emps as [|e emps]; [apply appended_nil|].
  assert (H : appended E "employees" (Pipeline.DEmployee <$> e :: emps) st
                (insert_many E "employees" (Pipeline.DEmployee <$> e :: emps) st).2)
    by (apply insert_many_appended; discriminate).
  unfold Pipeline.MongoDBLoader.insert_employees, try_except, bind.
  destruct (insert_many E "employees" (Pipeline.DEmployee <$> e :: emps) st) as [[n|ex] s1].
  - exact H.
  - destruct (is_Exception ex); [destruct ex|]; exact H.
Qed.

Lemma insert_departments_appended E deps st :
  appended E "departments" (Pipeline.DDepartment <$> deps) st
    (Pipeline.MongoDBLoader.insert_departments E deps st).2.
Proof.
  destruct deps as [|e deps]; [apply appended_nil|].
  assert (H : appended E "departments" (Pipeline.DDepartment <$> e :: deps) st
                (insert_many E "departments" (Pipeline.DDepartment <$> e :: deps) st).2)
    by (apply insert_many_appended; discriminate).
  unfold Pipeline.MongoDBLoader.insert_departments, try_except, bind.
  destruct (insert_many E "departments" (Pipeline.DDepartment <$> e :: deps) st) as [[n|ex] s1].
  - exact H.
  - destruct (is_Exception ex); [destruct ex|]; exact H.
Qed.

Lemma insert_dept_managers_appended E dms st :
  appended E "dept_manager" (Pipeline.DDeptManager <$> dms) st
    (Pipeline.MongoDBLoader.insert_dept_managers E dms st).2.
Proof.
  destruct dms as [|e dms]; [apply appended_nil|].
  assert (H : appended E "dept_manager" (Pipeline.DDeptManager <$> e :: dms) st
                (insert_many E "dept_manager" (Pipeline.DDeptManager <$> e :: dms) st).2)
    by (apply insert_many_appended; discriminate).
  unfold Pipeline.MongoDBLoader.insert_dept_managers, try_except, bind.
  destruct (insert_many E "dept_manager" (Pipeline.DDeptManager <$> e :: dms) st) as [[n|ex] s1].
  - exact H.
  - destruct (is_Exception ex); [destruct ex|]; exact H.
Qed.
End PipelineLoad.

(** X17.  [ETLPipeline.load] only ever adds: when the destination is
    reachable, each of the collections [departments], [employees] and
    [dept_manager] holds afterwards what it held before followed by the
    documents of the run that the server accepted (none, when the client
    cannot encode one of the documents for that collection), so a second
    run stores every document a second time; when the destination is down
    the store is unchanged.  No other collection changes and no
    [delete_many] is issued. *)
Theorem load_appends_and_never_deletes :
  forall (E : env Pipeline.document) (t : Pipeline.ETLPipeline.transformed)
         (st : state Pipeline.document),
    let st' := (Pipeline.ETLPipeline.load E t st).2 in
    let held (s : state Pipeline.document) coll := default [] (st_store s !! coll) in
    let accepted coll docs :=
      if forallb bson_encodable docs
      then filter (fun d => mongo_rejects E coll d = false) docs
      else [] in
    (if mongo_up E
     then held st' "departments"
          = held st "departments"
            ++ accepted "departments"
                 (Pipeline.DDepartment <$> Pipeline.ETLPipeline.t_departments t) /\
          held st' "employees"
          = held st "employees"
            ++ accepted "employees" (Pipeline.DEmployee <$> Pipeline.ETLPipeline.t_employees t) /\
          held st' "dept_manager"
          = held st "dept_manager"
            ++ accepted "dept_manager"
                 (Pipeline.DDeptManager <$> Pipeline.ETLPipeline.t_dept_manager t)
     else st_store st' = st_store st) /\
    (forall other,
       other ∉ ["departments"; "employees"; "dept_manager"] ->
       st_store st' !! other = st_store st !! other) /\
    (forall coll, DeleteMany coll ∈ st_calls st' -> DeleteMany coll ∈ st_calls st).
Proof.
  intros E t st st' held accepted. subst st' held accepted. cbn beta.
  destruct (insert_departments_spec E (Pipeline.ETLPipeline.t_departments t) st)
    as (s1 & H1 & _).
  destruct (insert_employees_spec E (Pipeline.ETLPipeline.t_employees t) s1)
    as (s2 & H2 & _).
  destruct (insert_dept_managers_spec E (Pipeline.ETLPipeline.t_dept_manager t) s2)
    as (s3 & H3 & _).
  pose proof (insert_departments_appended E (Pipeline.ETLPipeline.t_departments t) st) as A1.
  pose proof (insert_employees_appended E (Pipeline.ETLPipeline.t_employees t) s1) as A2.
  pose proof (insert_dept_managers_appended E (Pipeline.ETLPipeline.t_dept_manager t) s2) as A3.
  rewrite H1 in A1. rewrite H2 in A2. rewrite H3 in A3. cbn [snd] in A1, A2, A3.
  assert (Hload : Pipeline.ETLPipeline.load E t st
                  = (Ok tt, logged INFO "Closed MongoDB connection." []
                              (with_call CloseClient s3))).
  { unfold Pipeline.ETLPipeline.load, try_finally.
    rewrite (try_except_Ok _ _ _ tt s3); [reflexivity|].
    rewrite (bind_Ok _ _ _ _ _ H1), (bind_Ok _ _ _ _ _ H2). exact H3. }
  rewrite Hload. cbn [snd logged with_log with_call st_store st_calls].
  destruct A1 as (S1 & O1 & C1), A2 as (S2 & O2 & C2), A3 as (S3 & O3 & C3).
  split; [|split].
  - destruct (mongo_up E).
    + split; [|split].
      * rewrite O3, O2 by discriminate. exact S1.
      * rewrite O3 by discriminate. rewrite S2, O1 by discriminate. reflexivity.
      * rewrite S3, O2, O1 by discriminate. reflexivity.
    + congruence.
  - intros other Ho. rewrite O3, O2, O1; [reflexivity| | |];
      intros ->; apply Ho; repeat first [apply list_elem_of_here | apply list_elem_of_further].
  - intros coll Hin. rewrite C3, C2, C1 in Hin.
    repeat (apply elem_of_app in Hin as [Hin|Hin]); try exact Hin; exfalso.
    + destruct (Pipeline.ETLPipeline.t_departments t); cbn in Hin;
        [inversion Hin | apply list_elem_of_singleton in Hin; discriminate Hin].
    + destruct (Pipeline.ETLPipeline.t_employees t); cbn in Hin;
        [inversion Hin | apply list_elem_of_singleton in Hin; discriminate Hin].
    + destruct (Pipeline.ETLPipeline.t_dept_manager t); cbn in Hin;
        [inversion Hin | apply list_elem_of_singleton in Hin; discriminate Hin].
    + apply list_elem_of_singleton in Hin. discriminate Hin.
Qed.

Lemma load_appends_and_never_deletes_witness :
  let st' := (Pipeline.ETLPipeline.load (sample_run_env true true rejects_employee_2')
                (Pipeline.ETLPipeline.Transformed [sample_doc' 1; sample_doc' 2] [] [])
                sample_loaded_state).2 in
  default [] (st_store st' !! "employees")
  = [Pipeline.DEmployee (sample_doc' 7); Pipeline.DEmployee (sample_doc' 1)] /\
  st_store st' !! "titles" = st_store sample_loaded_state !! "titles" /\
  DeleteMany "employees" ∈ st_calls sample_loaded_state.
Proof.
  intros st'.
  destruct (load_appends_and_never_deletes (sample_run_env true true rejects_employee_2')
              (Pipeline.ETLPipeline.Transformed [sample_doc' 1; sample_doc' 2] [] [])
              sample_loaded_state) as (H1 & H2 & H3).
  cbn [mongo_up sample_run_env] in H1. destruct H1 as (_ & H1 & _).
  split; [|split].
  - subst st'. rewrite H1. vm_compute. reflexivity.
  - apply H2. intros H.
    repeat (apply elem_of_cons in H as [H|H]; [discriminate H|]). inversion H.
  - apply H3. vm_compute. apply list_elem_of_here.
Defined.

Section PipelineExtract.
Implicit Types (st : state Pipeline.document) (E : env Pipeline.document).

Lemma connect_B_inv_Ok E st u st' :
  Pipeline.MySQLExtractor.connect E st = (Ok u, st') ->
  st_mysql st' = ConnOpen /\ st_calls st' = st_calls st /\ st_store st' = st_store st.
Proof.
  unfold Pipeline.MySQLExtractor.connect, try_except, bind, pymysql_connect.
  destruct (mysql_connect_ok E); cbn; intros H; inversion H; subst. auto.
Qed.

Lemma fetch_data_inv_Ok E query st rows st' :
  Pipeline.MySQLExtractor.fetch_data E query st = (Ok rows, st') ->
  mysql_table E query = Some rows /\
  st_mysql st' = st_mysql st /\ st_calls st' = st_calls st /\ st_store st' = st_store st.
Proof.
  unfold Pipeline.MySQLExtractor.fetch_data, try_except, bind, cursor_fetchall.
  destruct (st_mysql st) eqn:Hm; cbn; try discriminate.
  destruct (mysql_table E query); cbn; intros H; inversion H; subst. cbn. auto.
Qed.
End PipelineExtract.

(** X18.  When [ETLPipeline.extract] returns, each entry of the result is
    what the source answered to the query of that table
    ([employees], [titles], [salaries], [dept_emp], [departments],
    [dept_manager]), the source connection has been closed, and the
    destination has not been touched. *)
Theorem extract_returns_the_six_tables :
  forall (E : env Pipeline.document) (st st' : state Pipeline.document)
         (data : Pipeline.ETLPipeline.extracted),
    Pipeline.ETLPipeline.extract E st = (Ok data, st') ->
    mysql_table E "SELECT * FROM employees" = Some (Pipeline.ETLPipeline.x_employees data) /\
    mysql_table E "SELECT * FROM titles" = Some (Pipeline.ETLPipeline.x_titles data) /\
    mysql_table E "SELECT * FROM salaries" = Some (Pipeline.ETLPipeline.x_salaries data) /\
    mysql_table E "SELECT * FROM dept_emp" = Some (Pipeline.ETLPipeline.x_dept_emp data) /\
    mysql_table E "SELECT * FROM departments"
    = Some (Pipeline.ETLPipeline.x_departments data) /\
    mysql_table E "SELECT * FROM dept_manager"
    = Some (Pipeline.ETLPipeline.x_dept_manager data) /\
    st_mysql st' = ConnClosed /\ st_calls st' = st_calls st /\ st_store st' = st_store st.
Proof.
  intros E st st' data H. unfold Pipeline.ETLPipeline.extract, try_finally in H.
  match type of H with
  | context [try_except ?m ?h st] => destruct (try_except m h st) as [r1 s1] eqn:Hb
  end.
  destruct (Pipeline.MySQLExtractor.close s1) as [[u|e] s2] eqn:Hcl; [|discriminate H].
  inversion H; subst r1 s2. clear H.
  apply try_except_inv_Ok in Hb; [|intros e s; reflexivity].
  apply bind_inv_Ok in Hb as (u0 & s0 & Hc & Hb).
  apply connect_B_inv_Ok in Hc as (M0 & C0 & S0).
  apply bind_inv_Ok in Hb as (t1 & a1 & Hf & Hb).
  apply fetch_data_inv_Ok in Hf as (T1 & M1 & C1 & S1).
  apply bind_inv_Ok in Hb as (t2 & a2 & Hf & Hb).
  apply fetch_data_inv_Ok in Hf as (T2 & M2 & C2 & S2).
  apply bind_inv_Ok in Hb as (t3 & a3 & Hf & Hb).
  apply fetch_data_inv_Ok in Hf as (T3 & M3 & C3 & S3).
  apply bind_inv_Ok in Hb as (t4 & a4 & Hf & Hb).
  apply fetch_data_inv_Ok in Hf as (T4 & M4 & C4 & S4).
  apply bind_inv_Ok in Hb as (t5 & a5 & Hf & Hb).
  apply fetch_data_inv_Ok in Hf as (T5 & M5 & C5 & S5).
  apply bind_inv_Ok in Hb as (t6 & a6 & Hf & Hb).
  apply fetch_data_inv_Ok in Hf as (T6 & M6 & C6 & S6).
  inversion Hb; subst data s1. clear Hb. cbn.
  repeat (split; [assumption|]).
  assert (Ho : st_mysql a6 = ConnOpen) by congruence.
  unfold Pipeline.MySQLExtractor.close in Hcl. rewrite Ho in Hcl.
  unfold bind, connection_close in Hcl. rewrite Ho in Hcl. cbn in Hcl.
  inversion Hcl; subst st'. cbn. split; [reflexivity|]. split; congruence.
Qed.

Lemma extract_returns_the_six_tables_witness :
  exists data st',
    Pipeline.ETLPipeline.extract (sample_run_env true true rejects_employee_2') init_state
    = (Ok data, st') /\
    sample_source "SELECT * FROM departments"
    = Some (Pipeline.ETLPipeline.x_departments data) /\
    st_mysql st' = ConnClosed.
Proof.
  destruct (Pipeline.ETLPipeline.extract (sample_run_env true true rejects_employee_2')
              init_state) as [[data|e] st'] eqn:Hx; [|vm_compute in Hx; discriminate Hx].
  destruct (extract_returns_the_six_tables _ _ _ _ Hx) as (_ & _ & _ & _ & H5 & _ & H7 & _).
  exists data, st'. split; [reflexivity|]. split; [exact H5 | exact H7].
Defined.

(** ** An unreachable destination *)

Section DestinationDown.
Implicit Types (st : state DBMigration.document) (E : env DBMigration.document).

Lemma load_collection_down {D} `{!Bson D} (E : env D) coll docs B (st : state D) :
  mongo_up E = false ->
  DBMigration.MongoLoader.load_collection E coll docs B st
  = (Raise PyMongoError,
     logged ERROR "Error loading documents into collection '%s': %s"
       [AText coll; AExn PyMongoError] (with_call (DeleteMany coll) st)).
Proof.
  intros Hup. unfold DBMigration.MongoLoader.load_collection, try_except, bind, delete_many.
  rewrite Hup. reflexivity.
Qed.

Lemma try_finally_state {D A} (body : M D A) fin (st : state D) :
  (try_finally body fin st).2 = (fin (body st).2).2.
Proof.
  unfold try_finally. destruct (body st) as [r s1]. cbn.
  destruct (fin s1) as [[u|e] s2]; reflexivity.
Qed.
End DestinationDown.

(** X19.  When the MongoDB server does not answer, [main] changes no
    collection: the only call it can have issued is the [delete_many] on
    [employees] that failed, and [departments] is not attempted. *)
Theorem main_destination_down_changes_nothing :
  forall (E : env DBMigration.document) (st : state DBMigration.document),
    mongo_up E = false ->
    st_store (DBMigration.main E st).2 = st_store st /\
    (st_calls (DBMigration.main E st).2 = st_calls st \/
     st_calls (DBMigration.main E st).2 = st_calls st ++ [DeleteMany "employees"]).
Proof.
  intros E st Hup. unfold DBMigration.main. rewrite try_finally_state.
  match goal with
  | |- context [DBMigration.MySQLExtractor.close ?s] =>
      destruct (DBMigration.MySQLExtractor.close s) as [rc sc] eqn:Hcl;
      destruct (close_keeps_destination _ _ _ Hcl) as [[Hc Hs] _];
      set (s1 := s) in *
  end.
  cbn [snd]. rewrite Hc, Hs. clear Hc Hs Hcl rc sc. subst s1.
  destruct (DBMigration.main_extract_transform E st) as [[p|e] s0] eqn:Hp;
    destruct (main_extract_transform_keeps_destination E _ _ _ Hp) as [[Hc0 Hs0] He0].
  - unfold try_except. rewrite (bind_Ok _ _ _ _ _ Hp). unfold DBMigration.main_load.
    destruct (mongo_client_ok E) eqn:Hcl.
    + assert (Hinit : DBMigration.MongoLoader.init E s0
                      = (Ok tt, logged INFO "Connected to MongoDB" [] s0)).
      { unfold DBMigration.MongoLoader.init, try_except, bind, mongo_client. rewrite Hcl.
        reflexivity. }
      rewrite (bind_Ok _ _ _ _ _ Hinit).
      rewrite (bind_Raise _ _ _ _ _ (load_collection_down E "employees" _ 1000 _ Hup)).
      cbn. split; [exact Hs0 | right; rewrite Hc0; reflexivity].
    + assert (Hinit : DBMigration.MongoLoader.init E s0
                      = (Raise PyMongoError,
                         logged ERROR "Error connecting to MongoDB: %s" [AExn PyMongoError] s0)).
      { unfold DBMigration.MongoLoader.init, try_except, bind, mongo_client. rewrite Hcl.
        reflexivity. }
      rewrite (bind_Raise _ _ _ _ _ Hinit). cbn.
      split; [exact Hs0 | left; exact Hc0].
  - rewrite (try_except_Raise _ _ _ _ _ (bind_Raise _ _ _ _ _ Hp) (He0 e eq_refl)).
    cbn. split; [exact Hs0 | left; exact Hc0].
Qed.

Lemma main_destination_down_changes_nothing_witness :
  st_store (DBMigration.main (sample_run_env true false rejects_employee_2) init_state).2 = ∅ /\
  st_calls (DBMigration.main (sample_run_env true false rejects_employee_2) init_state).2
  = [DeleteMany "employees"].
Proof.
  destruct (main_destination_down_changes_nothing
              (sample_run_env true false rejects_employee_2) init_state eq_refl) as [H1 H2].
  split; [exact H1|]. vm_compute. reflexivity.
Defined.


(** X21.  The script builds the pipeline object, and with it the Mongo
    client, before [run] starts: when the client cannot be created the
    error is logged and raised out of the script, [run] does not start, and
    the source is never contacted. *)
Theorem script_stops_when_client_fails :
  forall (E : env Pipeline.document) (st : state Pipeline.document),
    mongo_client_ok E = false ->
    Pipeline.ETLPipeline.script E st
    = (Raise PyMongoError,
       logged ERROR "Error connecting to MongoDB: {e}" [AExn PyMongoError] st).
Proof.
  intros E st Hko.
  unfold Pipeline.ETLPipeline.script, Pipeline.ETLPipeline.init.
  apply bind_Raise, bind_Raise.
  unfold Pipeline.MongoDBLoader.init, try_except, bind, mongo_client. rewrite Hko. reflexivity.
Qed.

Lemma script_stops_when_client_fails_witness :
  (Pipeline.ETLPipeline.script
     {| mysql_connect_ok := true; mysql_table := sample_source;
        mongo_client_ok := false; mongo_up := true; mongo_rejects := rejects_employee_2' |}
     init_state).1 = Raise PyMongoError.
Proof.
  rewrite (script_stops_when_client_fails
             {| mysql_connect_ok := true; mysql_table := sample_source;
                mongo_client_ok := false; mongo_up := true;
                mongo_rejects := rejects_employee_2' |} init_state eq_refl).
  reflexivity.
Defined.

(** ** Documents that the client cannot encode *)

Section EncodingFailure.
Context {D : Type} `{!Bson D}.
Implicit Types (st : state D) (E : env D).

(** The first batch with a document that cannot be encoded: the batches
    before it are inserted, the call for it raises, and [load_collection]
    logs the error and raises it again. *)
Lemma load_collection_not_encodable E coll docs B st k b :
  mongo_up E = true -> (0 < B)%Z ->
  batches docs B !! k = Some b ->
  encodable (concat (take k (batches docs B))) ->
  Forall (fun d => mongo_rejects E coll d = false) (concat (take k (batches docs B))) ->
  ~ encodable b ->
  DBMigration.MongoLoader.load_collection E coll docs B st
  = (Raise BsonError,
     logged ERROR "Error loading documents into collection '%s': %s"
       [AText coll; AExn BsonError]
       (with_call (InsertMany coll b)
          (foldl (after_insert E coll) (after_delete coll st) (take k (batches docs B))))).
Proof.
  intros Hup HB Hk Henc Hpre Hb.
  assert (Hne : docs <> []).
  { intros ->. rewrite batches_nil in Hk. discriminate Hk. }
  destruct (batches_spec docs B HB) as (_ & Hf & _).
  rewrite load_collection_loop by assumption.
  assert (Hpre' : Forall (fun b => b <> [] /\ encodable b /\
                                   Forall (fun d => mongo_rejects E coll d = false) b)
                    (take k (batches docs B))).
  { unfold encodable in Henc. rewrite Forall_concat in Hpre, Henc.
    rewrite Forall_forall in *. intros b' Hb'.
    split; [|split; [apply Henc, Hb' | apply Hpre, Hb']].
    apply Hf. apply elem_of_take in Hb' as (i & Hi & _). eapply list_elem_of_lookup_2, Hi. }
  pose proof (for_each_insert_not_encodable E coll (take k (batches docs B)) b
                (drop (S k) (batches docs B)) Hup Hpre' Hb (after_delete coll st)) as Hloop.
  rewrite (take_drop_middle _ _ _ Hk) in Hloop.
  rewrite (try_except_Raise _ _ _ _ _ (bind_Raise _ _ _ _ _ Hloop) eq_refl).
  reflexivity.
Qed.
End EncodingFailure.

Section DateObjects.
Context {D : Type}.
Implicit Types st : state D.

Lemma converts_to_date y m d w : converts_to (PDate y m d) w -> w = PDate y m d.
Proof. intros [[_ ->] | (s & H & _)]; [reflexivity | discriminate H]. Qed.

Lemma transform_employee_dates_inv emp des dms sals tits lk st doc st' :
  DBMigration.DataTransformer.transform_employee emp des dms sals tits lk st = (Ok doc, st') ->
  (exists v, emp !! "birth_date" = Some v /\ converts_to v (DBMigration.doc_birth_date doc)) /\
  (exists v, emp !! "hire_date" = Some v /\ converts_to v (DBMigration.doc_hire_date doc)).
Proof.
  intros H. unfold DBMigration.DataTransformer.transform_employee in H.
  apply try_except_inv_Ok in H; [|reflexivity].
  apply bind_inv_Ok in H as (n & s1 & _ & H).
  apply bind_inv_Ok in H as (b0 & s2 & Hb0 & H). apply getitem_inv_Ok in Hb0 as [Hb0 ->].
  apply bind_inv_Ok in H as (b & s3 & Hb & H). apply convert_date_inv_Ok in Hb as [-> Hb].
  do 3 (apply bind_inv_Ok in H as (? & ? & _ & H)).
  apply bind_inv_Ok in H as (h0 & s4 & Hh0 & H). apply getitem_inv_Ok in Hh0 as [Hh0 ->].
  apply bind_inv_Ok in H as (h & s5 & Hh & H). apply convert_date_inv_Ok in Hh as [-> Hh].
  do 4 (apply bind_inv_Ok in H as (? & ? & _ & H)).
  inversion H; subst. cbn. split; eauto.
Qed.
End DateObjects.

(** X22.  A [datetime.date] in the [birth_date] or [hire_date] column of an
    employee row, which is what the driver returns for a [DATE] column, is
    kept as it is by [convert_date], so the document that
    [transform_employee] returns for the row is one the client cannot
    encode. *)
Theorem date_object_document_not_encodable :
  forall (D : Type) (employee : row) (dept_emps dept_managers salaries titles : list row)
         (departments_lookup : gmap pyval row) (st st' : state D)
         (doc : DBMigration.emp_doc) (y m d : Z),
    DBMigration.DataTransformer.transform_employee employee dept_emps dept_managers
      salaries titles departments_lookup st = (Ok doc, st') ->
    employee !! "birth_date" = Some (PDate y m d) \/
    employee !! "hire_date" = Some (PDate y m d) ->
    (DBMigration.doc_birth_date doc = PDate y m d \/
     DBMigration.doc_hire_date doc = PDate y m d) /\
    bson_encodable (DBMigration.EmployeeDoc doc) = false.
Proof.
  intros D emp des dms sals tits lk st st' doc y m d H Hdate.
  apply transform_employee_dates_inv in H as [(b & Hb & Cb) (h & Hh & Ch)].
  assert (Hdoc : DBMigration.doc_birth_date doc = PDate y m d \/
                 DBMigration.doc_hire_date doc = PDate y m d).
  { destruct Hdate as [Hd|Hd].
    - left. rewrite Hd in Hb. injection Hb as <-. apply converts_to_date, Cb.
    - right. rewrite Hd in Hh. injection Hh as <-. apply converts_to_date, Ch. }
  split; [exact Hdoc|].
  change (DBMigration.bson_emp_doc doc = false). unfold DBMigration.bson_emp_doc.
  cbn [forallb]. destruct Hdoc as [-> | ->]; cbn [bson_pyval];
    rewrite ?andb_false_r; reflexivity.
Qed.

Lemma date_object_document_not_encodable_witness :
  exists doc,
    (DBMigration.DataTransformer.transform_employee (D:=unit)
       (sample_employee 1 (PDate 1960 1 1)) [] [] [] [] ∅ init_state).1 = Ok doc /\
    DBMigration.doc_birth_date doc = PDate 1960 1 1 /\
    bson_encodable (DBMigration.EmployeeDoc doc) = false.
Proof.
  assert (Hp : exists doc st',
             DBMigration.DataTransformer.transform_employee (D:=unit)
               (sample_employee 1 (PDate 1960 1 1)) [] [] [] [] ∅ init_state = (Ok doc, st')).
  { eexists _, _. vm_compute. reflexivity. }
  destruct Hp as (doc & st' & Hp).
  destruct (date_object_document_not_encodable unit _ _ _ _ _ _ _ _ doc 1960 1 1 Hp
              ltac:(left; reflexivity)) as [Hdoc Henc].
  exists doc. split; [rewrite Hp; reflexivity|]. split; [|exact Henc].
  destruct Hdoc as [Hb|Hh]; [exact Hb|].
  exfalso. vm_compute in Hp. injection Hp as <- _. discriminate Hh.
Defined.

(** X23.  When a prepared employee document cannot be encoded, [main]
    has already emptied collection [employees]: the batches before the one
    with that document are inserted, [insert_many] raises for that batch,
    the error is logged by [load_collection] and by [main], [departments]
    is not loaded, and [main] returns normally.  With at most 1000
    documents the collection is left empty. *)
Theorem main_encoding_failure_loses_employees :
  forall (E : env DBMigration.document) (st st1 : state DBMigration.document)
         (docs : list DBMigration.emp_doc) (departments : list row)
         (k : nat) (b : list DBMigration.document),
    DBMigration.main_extract_transform E st = (Ok (docs, departments), st1) ->
    mongo_client_ok E = true -> mongo_up E = true ->
    batches (DBMigration.EmployeeDoc <$> docs) 1000 !! k = Some b ->
    encodable (concat (take k (batches (DBMigration.EmployeeDoc <$> docs) 1000))) ->
    Forall (fun d => mongo_rejects E "employees" d = false)
      (concat (take k (batches (DBMigration.EmployeeDoc <$> docs) 1000))) ->
    ~ encodable b ->
    exists st',
      DBMigration.main E st = (Ok tt, st') /\
      st_store st' !! "employees"
      = Some (concat (take k (batches (DBMigration.EmployeeDoc <$> docs) 1000))) /\
      st_store st' !! "departments" = st_store st !! "departments" /\
      st_calls st'
      = st_calls st
        ++ DeleteMany "employees"
           :: (InsertMany "employees"
                 <$> take (S k) (batches (DBMigration.EmployeeDoc <$> docs) 1000)) /\
      LogRecord ERROR "Error loading documents into collection '%s': %s"
        [AText "employees"; AExn BsonError] ∈ st_log st' /\
      LogRecord ERROR "ETL pipeline failed: %s" [AExn BsonError] ∈ st_log st'.
Proof.
  intros E st st1 docs departments k b Hp Hc Hup Hk Henc Hacc Hb.
  destruct (main_extract_transform_inv_Ok E st docs departments st1 Hp) as [Hopen _].
  destruct (main_extract_transform_keeps_destination E _ _ _ Hp) as [[Hcalls Hstore] _].
  assert (Hinit : DBMigration.MongoLoader.init E st1
                  = (Ok tt, logged INFO "Connected to MongoDB" [] st1)).
  { unfold DBMigration.MongoLoader.init, try_except, bind, mongo_client. rewrite Hc.
    reflexivity. }
  pose proof (load_collection_not_encodable E "employees" (DBMigration.EmployeeDoc <$> docs)
                1000 (logged INFO "Connected to MongoDB" [] st1) k b Hup ltac:(lia) Hk Henc
                Hacc Hb) as Hload.
  unfold DBMigration.main, try_finally.
  match goal with
  | |- context [try_except ?body ?h st] =>
      assert (Hbody : body st
                      = (Raise BsonError,
                         logged ERROR "Error loading documents into collection '%s': %s"
                           [AText "employees"; AExn BsonError]
                           (with_call (InsertMany "employees" b)
                              (foldl (after_insert E "employees")
                                 (after_delete "employees"
                                    (logged INFO "Connected to MongoDB" [] st1))
                                 (take k (batches (DBMigration.EmployeeDoc <$> docs) 1000))))))
  end.
  { rewrite (bind_Ok _ _ _ _ _ Hp). cbn [fst snd]. unfold DBMigration.main_load.
    rewrite (bind_Ok _ _ _ _ _ Hinit). apply bind_Raise. exact Hload. }
  rewrite (try_except_Raise _ _ _ _ _ Hbody eq_refl). cbn [log].
  unfold DBMigration.MySQLExtractor.close.
  match goal with
  | |- context [st_mysql ?s] =>
      assert (Hm : st_mysql s = ConnOpen)
        by (cbn; rewrite foldl_after_insert_mysql; exact Hopen)
  end.
  rewrite Hm. unfold bind, connection_close. rewrite Hm. cbn.
  eexists. split; [reflexivity|]. cbn.
  split; [|split; [|split; [|split]]].
  - rewrite (foldl_after_insert_store E "employees" _ _ []).
    + rewrite (filter_all_accepted _ _ Hacc). reflexivity.
    + cbn. apply lookup_insert_eq.
  - rewrite foldl_after_insert_store_ne by discriminate. cbn.
    rewrite lookup_insert_ne by discriminate. rewrite Hstore. reflexivity.
  - rewrite foldl_after_insert_calls. cbn. rewrite Hcalls, (take_S_r _ _ _ Hk), fmap_app.
    cbn. rewrite <- !app_assoc. reflexivity.
  - rewrite foldl_after_insert_log. cbn.
    apply elem_of_app. left. apply elem_of_app. left. apply elem_of_app. right.
    apply list_elem_of_here.
  - rewrite foldl_after_insert_log. cbn.
    apply elem_of_app. left. apply elem_of_app. right. apply list_elem_of_here.
Qed.

Lemma main_encoding_failure_loses_employees_witness :
  exists st',
    DBMigration.main sample_date_env sample_main_state = (Ok tt, st') /\
    st_store sample_main_state !! "employees"
    = Some [DBMigration.EmployeeDoc (sample_doc 7)] /\
    st_store st' !! "employees" = Some [] /\
    LogRecord ERROR "ETL pipeline failed: %s" [AExn BsonError] ∈ st_log st'.
Proof.
  assert (Hp : exists docs st1 b,
             DBMigration.main_extract_transform sample_date_env sample_main_state
             = (Ok (docs, []), st1) /\
             batches (DBMigration.EmployeeDoc <$> docs) 1000 !! 0 = Some b /\
             forallb bson_encodable b = false).
  { eexists _, _, _. split; [vm_compute; reflexivity|].
    split; [vm_compute; reflexivity|]. vm_compute. reflexivity. }
  destruct Hp as (docs & st1 & b & Hp & Hk & Hb).
  destruct (main_encoding_failure_loses_employees sample_date_env _ _ _ _ 0 b Hp
              eq_refl eq_refl Hk)
    as (st' & Hm & He & _ & _ & _ & Hlog).
  - constructor.
  - constructor.
  - intros Henc. apply encodable_forallb in Henc. congruence.
  - exists st'. split; [exact Hm|]. split; [reflexivity|]. split; [exact He | exact Hlog].
Defined.
